(** * KPA performance monitoring: the progress-tracking and RAG engine

    A shallow embedding of the calendar engine ([core/utils_time.py]), the
    year-to-date, RAG, forecast and spend helpers ([core/views.py]), the
    [Target], [ProgressUpdate] and [CostLine] computations
    ([progress/models.py]) and the three write paths of progress updates
    ([core/api_views.py], [core/views.py], [core/views_manager.py]).
    Around them: the dashboard's period list and KPA cards, the evidence
    field of the progress form ([progress/forms.py]), the edit permission
    ([accounts/models.py]) and the approval of an update.

    Conventions of the embedding.
    - [datetime.date] is a record of year, month and day compared
      lexicographically; [timedelta] arithmetic goes through day stepping and
      the proleptic ordinal.  The range 1..9999 of Python years is not
      modelled (arithmetic leaving it raises in Python).
    - [Decimal] values are the rationals ([Q]) they denote.  [Views] and
      [Models] compute with exact rationals, which is what their order and
      sign statements need; [Decimal] is the arithmetic of the decimal
      context, every result rounded to 28 significant digits, and
      [DecimalViews] computes with it where a statement is about the value
      returned.  A division by zero raises, as [decimal.DivisionByZero]
      does, and is an explicit [Raise] result.
    - Database tables are lists of rows in storage order; a queryset filter
      is [filter], [first()] is the head, [order_by] a stable sort.  Primary
      keys (UUIDs in the models) are integers; the value [uuid.uuid4()]
      returns is an argument of the views that build a new instance.
    - What the web framework decides (the serializer's validation, the
      fields' cleaning and the model validation of a form, text formatting,
      floating point) is a parameter of the definitions that call it. *)

From Stdlib Require Import ZArith QArith List String Bool Lia Sorted.
From Stdlib Require Import Qabs Qround Qpower Lqa.
Import ListNotations.

Local Open Scope Z_scope.

(* ================================================================== *)
(** * The civil calendar: [datetime.date], [timedelta], [relativedelta] *)
(* ================================================================== *)

Module Calendar.

Record date : Type := mkdate { year : Z; month : Z; day : Z }.

(** [calendar.isleap] *)
Definition isleap (y : Z) : bool :=
  (y mod 4 =? 0) && (negb (y mod 100 =? 0) || (y mod 400 =? 0)).

(** [calendar.monthrange(year, month)[1]]; Python raises outside 1..12,
    where this table answers 0. *)
Definition days_in_month (y m : Z) : Z :=
  match m with
  | 1 => 31 | 2 => if isleap y then 29 else 28 | 3 => 31 | 4 => 30
  | 5 => 31 | 6 => 30 | 7 => 31 | 8 => 31 | 9 => 30 | 10 => 31
  | 11 => 30 | 12 => 31
  | _ => 0
  end.

(** The dates [datetime.date] can hold (the year range apart). *)
Definition valid_date (d : date) : Prop :=
  1 <= month d <= 12 /\ 1 <= day d <= days_in_month (year d) (month d).

Definition valid_dateb (d : date) : bool :=
  (1 <=? month d) && (month d <=? 12) && (1 <=? day d)
  && (day d <=? days_in_month (year d) (month d)).

(** Comparison of dates: the tuples (year, month, day), lexicographically. *)
Definition date_ltb (a b : date) : bool :=
  (year a <? year b)
  || ((year a =? year b)
      && ((month a <? month b)
          || ((month a =? month b) && (day a <? day b)))).

Definition date_gtb (a b : date) : bool := date_ltb b a.
Definition date_leb (a b : date) : bool := negb (date_ltb b a).
Definition date_geb (a b : date) : bool := negb (date_ltb a b).

Definition date_eqb (a b : date) : bool :=
  (year a =? year b) && (month a =? month b) && (day a =? day b).

(** Python's [min(a, b)] on dates: [b] only when it is strictly smaller. *)
Definition date_min (a b : date) : date := if date_ltb b a then b else a.

(** [datetime._days_before_year] *)
Definition days_before_year (y : Z) : Z :=
  let y1 := y - 1 in y1 * 365 + y1 / 4 - y1 / 100 + y1 / 400.

(** [datetime._days_before_month] *)
Definition days_before_month (y m : Z) : Z :=
  match m with
  | 1 => 0 | 2 => 31 | 3 => 59 | 4 => 90 | 5 => 120 | 6 => 151
  | 7 => 181 | 8 => 212 | 9 => 243 | 10 => 273 | 11 => 304 | 12 => 334
  | _ => -1
  end + (if (2 <? m) && isleap y then 1 else 0).

(** [date.toordinal] *)
Definition toordinal (d : date) : Z :=
  days_before_year (year d) + days_before_month (year d) (month d) + day d.

(** [(a - b).days] *)
Definition days_between (a b : date) : Z := toordinal a - toordinal b.

(** One day forward and one day back. *)
Definition next_day (d : date) : date :=
  if day d <? days_in_month (year d) (month d)
  then mkdate (year d) (month d) (day d + 1)
  else if month d <? 12
       then mkdate (year d) (month d + 1) 1
       else mkdate (year d + 1) 1 1.

Definition prev_day (d : date) : date :=
  if 1 <? day d
  then mkdate (year d) (month d) (day d - 1)
  else if 1 <? month d
       then mkdate (year d) (month d - 1) (days_in_month (year d) (month d - 1))
       else mkdate (year d - 1) 12 31.

(** [d + timedelta(days=n)] *)
Definition add_days (d : date) (n : Z) : date :=
  match n with
  | Z0 => d
  | Zpos p => Pos.iter next_day d p
  | Zneg p => Pos.iter prev_day d p
  end.

(** ** [dateutil.relativedelta]: the fields this code base uses *)

Record relativedelta : Type :=
  mkrd { rd_years : Z; rd_months : Z; rd_days : Z }.

(** [relativedelta._set_months] and the month part of [_fix]: more than
    eleven months carry into years, the sign kept on both. *)
Definition normalize_months (years0 months : Z) : Z * Z :=
  if 11 <? Z.abs months
  then let s := Z.sgn months in
       (years0 + ((months * s) / 12) * s, ((months * s) mod 12) * s)
  else (years0, months).

(** [relativedelta(months=m, days=d)] *)
Definition rd_make (months days : Z) : relativedelta :=
  let '(y, m) := normalize_months 0 months in mkrd y m days.

(** [other + relativedelta]: years and months first, the day clamped to
    the length of the month reached, then the days. *)
Definition rd_add (other : date) (r : relativedelta) : date :=
  let year0 := year other + rd_years r in
  let month0 := month other in
  let '(year1, month1) :=
    if rd_months r =? 0 then (year0, month0)
    else let month' := month0 + rd_months r in
         if 12 <? month' then (year0 + 1, month' - 12)
         else if month' <? 1 then (year0 - 1, month' + 12)
         else (year0, month') in
  let day1 := Z.min (days_in_month year1 month1) (day other) in
  add_days (mkdate year1 month1 day1) (rd_days r).

(** [d + relativedelta(months=k)] *)
Definition add_months (d : date) (k : Z) : date := rd_add d (rd_make k 0).

(** Months since year 0, for comparing dates month by month. *)
Definition month_index (d : date) : Z := year d * 12 + month d - 1.

(** The adjustment loop of [relativedelta(dt1, dt2)]:
    [while compare(dt1, dtm): months += increment; ...].  [fuel] bounds the
    iterations; [RelativeDeltaFacts.rd_between_loop_exits] shows that the
    loop has left on its own condition before the bound. *)
Fixpoint rd_adjust (fuel : nat) (dt1 dt2 : date) (backwards : bool)
    (months : Z) : Z :=
  let '(y, m) := normalize_months 0 months in
  let dtm := rd_add dt2 (mkrd y m 0) in
  let again := if backwards then date_gtb dt1 dtm else date_ltb dt1 dtm in
  match fuel with
  | O => months
  | S fuel' =>
      if again
      then rd_adjust fuel' dt1 dt2 backwards
             (months + (if backwards then 1 else -1))
      else months
  end.

(** [relativedelta(dt1, dt2)] on two dates. *)
Definition rd_between (dt1 dt2 : date) : relativedelta :=
  let months0 := (year dt1 - year dt2) * 12 + (month dt1 - month dt2) in
  let months := rd_adjust 24 dt1 dt2 (date_ltb dt1 dt2) months0 in
  let '(y, m) := normalize_months 0 months in
  let dtm := rd_add dt2 (mkrd y m 0) in
  mkrd y m (days_between dt1 dtm).

End Calendar.

(* ================================================================== *)
(** * Decimal arithmetic and exceptions *)
(* ================================================================== *)

Module Dec.

Inductive exn : Type :=
| DivisionByZero      (* decimal.DivisionByZero: x / 0 with x nonzero *)
| InvalidOperation    (* decimal.InvalidOperation: 0 / 0 *)
| DoesNotExist        (* a foreign key that names no row *)
| IntegrityError.     (* a write the database constraints refuse *)

(** The outcome of a computation that may raise. *)
Inductive result (A : Type) : Type :=
| Ok (a : A)
| Raise (e : exn).
Arguments Ok {A} a.
Arguments Raise {A} e.

Definition bind {A B} (r : result A) (k : A -> result B) : result B :=
  match r with
  | Ok a => k a
  | Raise e => Raise e
  end.

Definition raises {A} (r : result A) : Prop := exists e, r = Raise e.

(** [Decimal('0.00')], [Decimal('100')] and the integers as decimals. *)
Definition D0 : Q := 0.
Definition D100 : Q := 100.
Definition ofZ (z : Z) : Q := inject_Z z.

(** [x == 0] on decimals. *)
Definition is_zero (x : Q) : bool := Qeq_bool x 0.

(** [x >= y] on decimals. *)
Definition geb (x y : Q) : bool := Qle_bool y x.

(** [x > y] on decimals. *)
Definition gtb (x y : Q) : bool := negb (Qle_bool x y).

(** [x / y]: the quotient, or the exception of a zero divisor. *)
Definition div (x y : Q) : result Q :=
  if is_zero y
  then Raise (if is_zero x then InvalidOperation else DivisionByZero)
  else Ok (x / y)%Q.

End Dec.

Notation "x <- c1 ;; c2" := (Dec.bind c1 (fun x => c2))
  (at level 61, c1 at next level, right associativity).

(* ================================================================== *)
(** * Entities and settings *)
(* ================================================================== *)

Import Calendar.

(** [settings.KPA_SETTINGS]: every key may be absent, the code reads each
    with [dict.get(key, default)]. *)
Record QuarterLock : Type :=
  mkQuarterLock { ENABLED : option bool; GRACE_DAYS : option Z }.

Record KPASettings : Type :=
  mkSettings { QUARTER_LOCK : option QuarterLock;
               EVIDENCE_REQUIRED_AFTER_MONTHS : option Z }.

Record FinancialYear : Type :=
  mkFY { fy_id : Z; start_date : date; end_date : date }.

Record KPA : Type :=
  mkKPA { kpa_id : Z; kpa_financial_year : Z; kpa_is_active : bool }.

Record OperationalPlanItem : Type :=
  mkItem { item_id : Z; item_kpa : Z;
           input_cost : Q; output_cost : Q;
           item_is_active : bool }.

(** RAG buckets: the strings ['GREEN'], ['AMBER'], ['RED'], ['GREY']. *)
Inductive RAG : Type := GREEN | AMBER | RED | GREY.

(** A saved [Target] row.  Its NOT NULL columns hold values, so the guards
    of [ytd_target] for a half-built instance ([value is None], no
    [due_date]) are on the false branch throughout. *)
Record Target : Type :=
  mkTarget { target_id : Z; plan_item : Z;
             value : Q; due_date : date; periodicity : string;
             green_threshold : Q; amber_threshold : Q;
             target_is_active : bool }.

(** A [ProgressUpdate] with an [actual_value]: a saved row, or the
    temporary instance a form builds to evaluate the evidence rule. *)
Record ProgressUpdate : Type :=
  mkPU { pu_id : Z; pu_target : Z;
         period_type : string; period_start : date; period_end : date;
         period_name : string; actual_value : Q; narrative : string;
         evidence_urls : list string; risk_rating : string;
         issues : string; corrective_actions : string;
         forecast_value : option Q; forecast_confidence : string;
         is_submitted : bool; is_approved : bool; is_active : bool }.

Record CostLine : Type :=
  mkCostLine { cl_id : Z; cl_plan_item : Z;
               budgeted_amount : Q; committed_amount : Q;
               actual_spend : Q;
               cost_period_start : date; cost_period_end : date;
               cl_is_active : bool }.

(** The database: one list of rows per table, in storage order. *)
Record DB : Type :=
  mkDB { financial_years : list FinancialYear;
         kpas : list KPA;
         plan_items : list OperationalPlanItem;
         targets : list Target;
         progress_updates : list ProgressUpdate;
         cost_lines : list CostLine }.

(** Insertion sort, stable: [order_by] on one ascending key. *)
Fixpoint insert_by {A} (key : A -> date) (x : A) (l : list A) : list A :=
  match l with
  | [] => [x]
  | y :: l' => if date_ltb (key y) (key x) then y :: insert_by key x l'
               else x :: y :: l'
  end.

Definition order_by {A} (key : A -> date) (l : list A) : list A :=
  fold_right (insert_by key) [] l.

(** [order_by('-key').first()]: the first row, in storage order, among those
    with the greatest key. *)
Fixpoint latest_by {A} (key : A -> date) (l : list A) : option A :=
  match l with
  | [] => None
  | x :: l' =>
      match latest_by key l' with
      | Some y => if date_ltb (key x) (key y) then Some y else Some x
      | None => Some x
      end
  end.

(* ================================================================== *)
(** * [core/utils_time.py] *)
(* ================================================================== *)

Module UtilsTime.

Definition months_elapsed_in_fy (start end_ as_of : date) : Z :=
  if date_ltb as_of start then 0
  else
    let as_of := if date_gtb as_of end_ then end_ else as_of in
    let rd := rd_between as_of start in
    rd_years rd * 12 + rd_months rd + 1.

Definition quarter_end_for (fin_year : FinancialYear) (as_of : date) : date :=
  let start := start_date fin_year in
  let end_ := end_date fin_year in
  let m := months_elapsed_in_fy start end_ as_of in
  let q_index := if m <=? 0 then 1 else Z.min 4 ((m + 2) / 3) in
  let q_start := rd_add start (rd_make ((q_index - 1) * 3) 0) in
  let q_end := rd_add q_start (rd_make 3 (-1)) in
  if date_gtb q_end end_ then end_ else q_end.

(** [cfg = getattr(settings, 'KPA_SETTINGS', {}).get('QUARTER_LOCK', {})] *)
Definition quarter_lock_cfg (settings : option KPASettings) : QuarterLock :=
  match settings with
  | Some s => match QUARTER_LOCK s with
              | Some cfg => cfg
              | None => mkQuarterLock None None
              end
  | None => mkQuarterLock None None
  end.

(** [now] is [timezone.now().date()], read when [today] is not given. *)
Definition is_period_locked (settings : option KPASettings) (now : date)
    (fin_year : FinancialYear) (period_end : date) (today : option date)
  : bool :=
  let cfg := quarter_lock_cfg settings in
  let enabled := match ENABLED cfg with Some b => b | None => false end in
  let grace_days := match GRACE_DAYS cfg with Some g => g | None => 14 end in
  if negb enabled then false
  else
    let today := match today with Some t => t | None => now end in
    let q_end := quarter_end_for fin_year period_end in
    date_gtb today (add_days q_end grace_days).

End UtilsTime.

(* ================================================================== *)
(** * [core/views.py]: year-to-date, RAG, forecast and spend helpers *)
(* ================================================================== *)

Module Views.

Definition fy_bounds (fin_year : FinancialYear) : date * date :=
  (start_date fin_year, end_date fin_year).

Definition months_elapsed (fin_year : FinancialYear) (as_of : date) : Z :=
  let '(start, end_) := fy_bounds fin_year in
  if date_ltb as_of start then 0
  else
    let as_of := if date_gtb as_of end_ then end_ else as_of in
    let rd := rd_between as_of start in
    rd_years rd * 12 + rd_months rd + 1.

Definition quarters_elapsed (fin_year : FinancialYear) (as_of : date) : Z :=
  let m := months_elapsed fin_year as_of in
  Z.min 4 ((m + 2) / 3).

(** [target.progress_updates.filter(period_end__gte=start,
    period_end__lte=end, is_active=True)] *)
Definition updates_in_window (db : DB) (target : Target) (start end_ : date)
  : list ProgressUpdate :=
  filter (fun u => (pu_target u =? target_id target)
                   && date_geb (period_end u) start
                   && date_leb (period_end u) end_
                   && is_active u)
         (progress_updates db).

Definition latest_update_in_fy (db : DB) (target : Target)
    (fin_year : FinancialYear) (as_of : date) : option ProgressUpdate :=
  let '(start, end_) := fy_bounds fin_year in
  let end_ := date_min end_ as_of in
  latest_by period_end (updates_in_window db target start end_).

Definition sum_actuals_ytd (db : DB) (target : Target)
    (fin_year : FinancialYear) (as_of : date) : Q :=
  let '(start, end_) := fy_bounds fin_year in
  let end_ := date_min end_ as_of in
  fold_left (fun total u => (total + actual_value u)%Q)
            (updates_in_window db target start end_) Dec.D0.

Definition ytd_target_value (target : Target) (fin_year : FinancialYear)
    (as_of : date) : Dec.result Q :=
  let total := value target in
  let per := periodicity target in
  if String.eqb per "ANNUAL" then
    let '(start, end_) := fy_bounds fin_year in
    let end_cut := date_min end_ as_of in
    let elapsed_days := days_between end_cut start + 1 in
    let total_days := days_between end_ start + 1 in
    if negb (total_days =? 0)
    then Dec.div (total * Dec.ofZ elapsed_days)%Q (Dec.ofZ total_days)
    else Dec.Ok Dec.D0
  else if String.eqb per "MONTHLY" then
    let m := months_elapsed fin_year as_of in
    x <- Dec.div total 12 ;; Dec.Ok (x * Dec.ofZ m)%Q
  else if String.eqb per "QUARTERLY" then
    let q := quarters_elapsed fin_year as_of in
    x <- Dec.div total 4 ;; Dec.Ok (x * Dec.ofZ q)%Q
  else Dec.Ok total.

(** [ytd_target] is [None] for a falsy argument that is not a decimal. *)
Definition compute_percent (ytd_actual : Q) (ytd_target : option Q)
  : Dec.result Q :=
  match ytd_target with
  | None => Dec.Ok Dec.D0
  | Some t =>
      if Dec.is_zero t then Dec.Ok Dec.D0
      else x <- Dec.div ytd_actual t ;; Dec.Ok (x * Dec.D100)%Q
  end.

Definition compute_rag_from_percent (percent : Q) (target : option Target)
  : RAG :=
  let green := 95%Q in
  let amber := 80%Q in
  let '(green, amber) :=
    match target with
    | Some t => (green_threshold t, amber_threshold t)
    | None => (green, amber)
    end in
  if Dec.geb percent green then GREEN
  else if Dec.geb percent amber then AMBER
  else RED.

Definition compute_forecast_value (db : DB) (target : Target)
    (ytd_actual : Q) (fin_year : FinancialYear) (as_of : date)
  : Dec.result Q :=
  let latest := latest_update_in_fy db target fin_year as_of in
  match match latest with Some u => forecast_value u | None => None end with
  | Some f => Dec.Ok f
  | None =>
      if String.eqb (periodicity target) "MONTHLY" then
        let m := months_elapsed fin_year as_of in
        if m <=? 0 then Dec.Ok Dec.D0
        else x <- Dec.div ytd_actual (Dec.ofZ m) ;; Dec.Ok (x * 12)%Q
      else if String.eqb (periodicity target) "QUARTERLY" then
        let q := quarters_elapsed fin_year as_of in
        if q <=? 0 then Dec.Ok Dec.D0
        else x <- Dec.div ytd_actual (Dec.ofZ q) ;; Dec.Ok (x * 4)%Q
      else
        let '(start, end_) := fy_bounds fin_year in
        let elapsed_days := days_between (date_min as_of end_) start + 1 in
        let total_days := days_between end_ start + 1 in
        if elapsed_days <=? 0 then Dec.Ok Dec.D0
        else x <- Dec.div ytd_actual (Dec.ofZ elapsed_days) ;;
             Dec.Ok (x * Dec.ofZ total_days)%Q
  end.

(** [x or Decimal('0.00')] *)
Definition or_zero (x : option Q) : Q :=
  match x with
  | Some v => if Dec.is_zero v then Dec.D0 else v
  | None => Dec.D0
  end.

Definition compute_item_spend (db : DB) (plan_item : OperationalPlanItem)
    (fin_year : FinancialYear) (as_of : date) : Dec.result (Q * Q * Q) :=
  let planned := (or_zero (Some (input_cost plan_item))
                  + or_zero (Some (output_cost plan_item)))%Q in
  let '(start, end_) := fy_bounds fin_year in
  let end_cut := date_min end_ as_of in
  let qs := filter (fun cl => (cl_plan_item cl =? item_id plan_item)
                              && date_geb (cost_period_start cl) start
                              && date_leb (cost_period_end cl) end_cut
                              && cl_is_active cl)
                   (cost_lines db) in
  let actual := fold_left (fun a cl => (a + or_zero (Some (actual_spend cl)))%Q)
                          qs Dec.D0 in
  spend_pct <- (if Dec.is_zero planned then Dec.Ok Dec.D0
                else x <- Dec.div actual planned ;; Dec.Ok (x * Dec.D100)%Q) ;;
  Dec.Ok (planned, actual, spend_pct).

(** The per-item loop of [kpa_drilldown_view]: sums over the item's active
    targets, the RAG of each and the worst-case vote. *)
Record DrilldownRow : Type :=
  mkRow { row_ytd_target : Q; row_ytd_actual : Q; row_forecast : Q;
          row_rag : RAG; row_spend_alignment_flag : bool }.

Record RagCounts : Type := mkCounts { n_green : Z; n_amber : Z; n_red : Z }.

(** [rag_counts[t_rag] += 1]; the dictionary has no GREY key and
    [compute_rag_from_percent] never answers GREY. *)
Definition count_rag (c : RagCounts) (r : RAG) : RagCounts :=
  match r with
  | GREEN => mkCounts (n_green c + 1) (n_amber c) (n_red c)
  | AMBER => mkCounts (n_green c) (n_amber c + 1) (n_red c)
  | RED => mkCounts (n_green c) (n_amber c) (n_red c + 1)
  | GREY => c
  end.

Definition active_targets_of (db : DB) (item : OperationalPlanItem)
  : list Target :=
  filter (fun t => (plan_item t =? item_id item) && target_is_active t)
         (targets db).

Fixpoint drilldown_targets (db : DB) (fin_year : FinancialYear)
    (as_of : date) (ts : list Target) (acc : Q * Q * Q * RagCounts)
  : Dec.result (Q * Q * Q * RagCounts) :=
  match ts with
  | [] => Dec.Ok acc
  | t :: ts' =>
      let '(ytd_target, ytd_actual, forecast, rag_counts) := acc in
      t_ytd_tgt <- ytd_target_value t fin_year as_of ;;
      let t_ytd_act := sum_actuals_ytd db t fin_year as_of in
      t_percent <- compute_percent t_ytd_act (Some t_ytd_tgt) ;;
      let t_rag := compute_rag_from_percent t_percent (Some t) in
      t_forecast <- compute_forecast_value db t t_ytd_act fin_year as_of ;;
      drilldown_targets db fin_year as_of ts'
        ((ytd_target + t_ytd_tgt)%Q, (ytd_actual + t_ytd_act)%Q,
         (forecast + t_forecast)%Q, count_rag rag_counts t_rag)
  end.

Definition drilldown_row (db : DB) (fin_year : FinancialYear) (as_of : date)
    (item : OperationalPlanItem) : Dec.result DrilldownRow :=
  acc <- drilldown_targets db fin_year as_of (active_targets_of db item)
           (Dec.D0, Dec.D0, Dec.D0, mkCounts 0 0 0) ;;
  let '(ytd_target, ytd_actual, forecast, rag_counts) := acc in
  let rag := if negb (n_red rag_counts =? 0) then RED
             else if negb (n_amber rag_counts =? 0) then AMBER
             else if negb (n_green rag_counts =? 0) then GREEN
             else GREY in
  spend <- compute_item_spend db item fin_year as_of ;;
  let '(_, _, spend_pct) := spend in
  progress_pct <- compute_percent ytd_actual (Some ytd_target) ;;
  Dec.Ok (mkRow ytd_target ytd_actual forecast rag
                (Dec.gtb (spend_pct - progress_pct)%Q 20)).

End Views.

(* ================================================================== *)
(** * [progress/models.py] *)
(* ================================================================== *)

Module Models.

(** [a.rd_neg]: [relativedelta.__neg__] *)
Definition rd_neg (r : relativedelta) : relativedelta :=
  let '(y, m) := normalize_months (- rd_years r) (- rd_months r) in
  mkrd y m (- rd_days r).

(** [d - relativedelta(...)] *)
Definition rd_sub (d : date) (r : relativedelta) : date := rd_add d (rd_neg r).

(** [update.target]: the row the foreign key names. *)
Definition target_of (db : DB) (u : ProgressUpdate) : Dec.result Target :=
  match find (fun t => target_id t =? pu_target u) (targets db) with
  | Some t => Dec.Ok t
  | None => Dec.Raise Dec.DoesNotExist
  end.

Section WithClock.

(** [date.today()] *)
Variable today : date.

(** [Decimal(str(a / b))] on two integers: the quotient in double precision,
    printed and read back.  Floating point is outside the embedding; the
    function is a parameter of the [ANNUAL] branch of [ytd_target]. *)
Variable float_ratio : Z -> Z -> Q.

(** [d.strftime(format)] and [str(n)]: text formatting is the library's. *)
Variable strftime : string -> date -> string.
Variable str_of_int : Z -> string.

(** The dictionary [get_current_period] returns. *)
Definition get_current_period (self : Target) : date * date * string :=
  if String.eqb (periodicity self) "monthly" then
    let start := mkdate (year today) (month today) 1 in
    let end_ := add_days (add_months start 1) (-1) in
    (start, end_, strftime "%B %Y" start)
  else if String.eqb (periodicity self) "quarterly" then
    let quarter := (month today - 1) / 3 + 1 in
    let start := mkdate (year today) ((quarter - 1) * 3 + 1) 1 in
    let end_ := add_days (add_months start 3) (-1) in
    (start, end_,
     ("Q" ++ str_of_int quarter ++ " " ++ str_of_int (year today))%string)
  else if String.eqb (periodicity self) "annually" then
    (mkdate (year today) 1 1, mkdate (year today) 12 31,
     str_of_int (year today))
  else (today, today, strftime "%Y-%m-%d" today).

Definition active_updates_of (db : DB) (self : Target) : list ProgressUpdate :=
  filter (fun u => (pu_target u =? target_id self) && is_active u)
         (progress_updates db).

Definition get_latest_progress (db : DB) (self : Target)
  : option ProgressUpdate :=
  latest_by period_end (active_updates_of db self).

Definition get_rag_status (db : DB) (self : Target) : RAG :=
  match latest_by period_end (active_updates_of db self) with
  | None => GREY
  | Some latest_update =>
      let actual := actual_value latest_update in
      if Dec.geb actual (green_threshold self) then GREEN
      else if Dec.geb actual (amber_threshold self) then AMBER
      else RED
  end.

Definition get_progress_percentage (db : DB) (self : Target)
  : Dec.result Q :=
  match latest_by period_end (active_updates_of db self) with
  | None => Dec.Ok 0%Q
  | Some latest_update =>
      if Dec.is_zero (value self) then Dec.Ok 0%Q
      else x <- Dec.div (actual_value latest_update) (value self) ;;
           let p := (x * 100)%Q in
           Dec.Ok (if Dec.gtb 100 p then p else 100)%Q
  end.

Definition ytd_target (self : Target) : Dec.result Q :=
  if date_gtb today (due_date self)
  then Dec.Ok (Views.or_zero (Some (value self)))
  else if String.eqb (periodicity self) "ANNUAL" then
    let start_of_year := mkdate (year today) 4 1 in
    let end_of_year := mkdate (year today + 1) 3 31 in
    if date_ltb today start_of_year then Dec.Ok Dec.D0
    else
      let days_elapsed := days_between today start_of_year in
      let total_days := days_between end_of_year start_of_year in
      let proportion := float_ratio days_elapsed total_days in
      Dec.Ok (value self * proportion)%Q
  else if String.eqb (periodicity self) "QUARTERLY" then
    let quarters_elapsed :=
      if 4 <=? month today then (month today - 4) / 3 + 1
      else (month today + 8) / 3 + 1 in
    x <- Dec.div (value self) 4 ;;
    Dec.Ok (x * Dec.ofZ (Z.min quarters_elapsed 4))%Q
  else if String.eqb (periodicity self) "MONTHLY" then
    let months_elapsed :=
      if 4 <=? month today then month today - 3 else month today + 9 in
    x <- Dec.div (value self) 12 ;;
    Dec.Ok (x * Dec.ofZ (Z.min months_elapsed 12))%Q
  else Dec.Ok (value self).

(** [actual_value] is [None] for the call without argument. *)
Definition calculate_rag_status (db : DB) (self : Target)
    (actual_value0 : option Q) : Dec.result RAG :=
  match match actual_value0 with
        | Some a => Some a
        | None => match get_latest_progress db self with
                  | Some latest_progress => Some (actual_value latest_progress)
                  | None => None
                  end
        end with
  | None => Dec.Ok GREY
  | Some actual =>
      yt <- ytd_target self ;;
      if Dec.is_zero yt then Dec.Ok GREY
      else
        x <- Dec.div actual yt ;;
        let percentage := (x * 100)%Q in
        if Dec.geb percentage (green_threshold self) then Dec.Ok GREEN
        else if Dec.geb percentage (amber_threshold self) then Dec.Ok AMBER
        else Dec.Ok RED
  end.

(** ** [ProgressUpdate] *)

Definition variance_percentage (db : DB) (self : ProgressUpdate)
  : Dec.result Q :=
  t <- target_of db self ;;
  yt <- ytd_target t ;;
  if Dec.is_zero yt then Dec.Ok Dec.D0
  else x <- Dec.div (actual_value self - yt)%Q yt ;; Dec.Ok (x * 100)%Q.

Definition rag_status (db : DB) (self : ProgressUpdate) : Dec.result RAG :=
  t <- target_of db self ;;
  calculate_rag_status db t (Some (actual_value self)).

Definition percentage_complete (db : DB) (self : ProgressUpdate)
  : Dec.result Q :=
  t <- target_of db self ;;
  yt <- ytd_target t ;;
  if Dec.is_zero yt then Dec.Ok Dec.D0
  else x <- Dec.div (actual_value self) yt ;; Dec.Ok (x * 100)%Q.

Definition red_or_amber (r : RAG) : bool :=
  match r with RED | AMBER => true | _ => false end.

(** The loop of [is_evidence_required] over the updates of the window. *)
Fixpoint count_consecutive (db : DB) (red_amber_count : Z)
    (updates : list ProgressUpdate) : Dec.result Z :=
  match updates with
  | [] => Dec.Ok red_amber_count
  | update :: rest =>
      r <- rag_status db update ;;
      count_consecutive db
        (if red_or_amber r then red_amber_count + 1 else 0) rest
  end.

(** The queryset of [is_evidence_required], before the loop. *)
Definition consecutive_updates (db : DB) (self : ProgressUpdate)
    (cutoff_date : date) : list ProgressUpdate :=
  order_by period_end
    (filter (fun u => (pu_target u =? pu_target self)
                      && date_geb (period_end u) cutoff_date
                      && date_leb (period_end u) (period_end self)
                      && is_active u)
            (progress_updates db)).

Definition evidence_months_of (settings : option KPASettings) : Z :=
  match settings with
  | Some s => match EVIDENCE_REQUIRED_AFTER_MONTHS s with
              | Some n => n
              | None => 2
              end
  | None => 2
  end.

Definition is_evidence_required (settings : option KPASettings) (db : DB)
    (self : ProgressUpdate) : Dec.result bool :=
  r <- rag_status db self ;;
  if red_or_amber r then
    let evidence_months := evidence_months_of settings in
    let cutoff_date := rd_sub (period_end self) (rd_make evidence_months 0) in
    red_amber_count <-
      count_consecutive db 0 (consecutive_updates db self cutoff_date) ;;
    Dec.Ok (evidence_months <=? red_amber_count)
  else Dec.Ok false.

End WithClock.

(** ** [CostLine] *)

Definition cl_variance_percentage (self : CostLine) : Dec.result Q :=
  if Dec.is_zero (budgeted_amount self) then Dec.Ok Dec.D0
  else x <- Dec.div (actual_spend self - budgeted_amount self)%Q
              (budgeted_amount self) ;;
       Dec.Ok (x * 100)%Q.

Definition cl_commitment_percentage (self : CostLine) : Dec.result Q :=
  if Dec.is_zero (budgeted_amount self) then Dec.Ok Dec.D0
  else x <- Dec.div (committed_amount self) (budgeted_amount self) ;;
       Dec.Ok (x * 100)%Q.

Definition cl_spend_percentage (self : CostLine) : Dec.result Q :=
  if Dec.is_zero (budgeted_amount self) then Dec.Ok Dec.D0
  else x <- Dec.div (actual_spend self) (budgeted_amount self) ;;
       Dec.Ok (x * 100)%Q.

End Models.

(* ================================================================== *)
(** * The specification's own words, for comparison with the code *)
(* ================================================================== *)

Module Spec.

(** [d] lies in month [n] of the year that starts on [start]: month 1
    starts on [start], each following month one calendar month later. *)
Definition in_fy_month (start : date) (n : Z) (d : date) : Prop :=
  date_leb (add_months start (n - 1)) d = true
  /\ date_ltb d (add_months start n) = true.

(** Quarter [q] starts [3*(q-1)] months after the start of the year and
    ends three months later less a day, never after the end of the year. *)
Definition quarter_end (fy : FinancialYear) (q : Z) : date :=
  let q_start := add_months (start_date fy) (3 * (q - 1)) in
  let q_end := add_days (add_months q_start 3) (-1) in
  if date_ltb (end_date fy) q_end then end_date fy else q_end.

(** The as-of date clamped to the end of the year. *)
Definition clamped (end_ as_of : date) : date :=
  if date_gtb as_of end_ then end_ else as_of.

(** [c] is the quotient of [m] by [n] rounded up. *)
Definition is_ceil_div (m n c : Z) : Prop := n * (c - 1) < m <= n * c.



(** The window of the evidence rule: the active updates of the target of
    [u] whose period ends in [[cutoff, period_end u]]. *)
Definition in_window (db : DB) (u : ProgressUpdate) (cutoff : date)
    (w : ProgressUpdate) : Prop :=
  In w (progress_updates db)
  /\ pu_target w = pu_target u
  /\ is_active w = true
  /\ date_leb cutoff (period_end w) = true
  /\ date_leb (period_end w) (period_end u) = true.

(** Updates in chronological order of their period end. *)
Definition chronological (l : list ProgressUpdate) : Prop :=
  StronglySorted
    (fun a b => date_leb (period_end a) (period_end b) = true) l.


End Spec.

(* ================================================================== *)
(** * Python strings: [str.strip], [str.splitlines], [str.upper] (ASCII) *)
(* ================================================================== *)

Module PyStr.
Import Ascii.

Definition code (c : ascii) : nat := nat_of_ascii c.

(** [c.isspace()] *)
Definition is_space (c : ascii) : bool :=
  match code c with
  | 9 | 10 | 11 | 12 | 13 | 28 | 29 | 30 | 31 | 32 => true
  | _ => false
  end%nat.

(** A line boundary of [splitlines] other than the carriage return. *)
Definition is_linebreak (c : ascii) : bool :=
  match code c with
  | 10 | 11 | 12 | 28 | 29 | 30 => true
  | _ => false
  end%nat.

Definition is_cr (c : ascii) : bool := Nat.eqb (code c) 13.
Definition is_lf (c : ascii) : bool := Nat.eqb (code c) 10.

Fixpoint drop_spaces (l : list ascii) : list ascii :=
  match l with
  | c :: l' => if is_space c then drop_spaces l' else l
  | [] => []
  end.

Definition strip (s : string) : string :=
  string_of_list_ascii
    (rev (drop_spaces (rev (drop_spaces (list_ascii_of_string s))))).

Definition line_of (cur : list ascii) : string := string_of_list_ascii (rev cur).

(** [cur] is the line being read, last character first. *)
Fixpoint splitlines_from (cur : list ascii) (l : list ascii) : list string :=
  match l with
  | [] => match cur with [] => [] | _ => [line_of cur] end
  | c :: l' =>
      if is_cr c then
        match l' with
        | c' :: l'' =>
            if is_lf c' then line_of cur :: splitlines_from [] l''
            else line_of cur :: splitlines_from [] l'
        | [] => line_of cur :: splitlines_from [] l'
        end
      else if is_linebreak c then line_of cur :: splitlines_from [] l'
      else splitlines_from (c :: cur) l'
  end.

Definition splitlines (s : string) : list string :=
  splitlines_from [] (list_ascii_of_string s).

(** Truth of a string: not empty. *)
Definition truthy (s : string) : bool :=
  match s with EmptyString => false | _ => true end.

Definition upper_char (c : ascii) : ascii :=
  if (Nat.leb 97 (code c) && Nat.leb (code c) 122)%bool
  then ascii_of_nat (code c - 32) else c.

Fixpoint upper (s : string) : string :=
  match s with
  | EmptyString => EmptyString
  | String c s' => String (upper_char c) (upper s')
  end.

End PyStr.

(* ================================================================== *)
(** * The write paths of progress updates *)
(* ================================================================== *)

Module WritePaths.

(** ** The table of progress updates and its constraints *)

(** [unique_together = ['target', 'period_start', 'period_end']] *)
Definition same_key (a b : ProgressUpdate) : bool :=
  (pu_target a =? pu_target b)
  && date_eqb (period_start a) (period_start b)
  && date_eqb (period_end a) (period_end b).

Definition has_key (target : Z) (ps pe : date) (u : ProgressUpdate) : bool :=
  (pu_target u =? target) && date_eqb (period_start u) ps
  && date_eqb (period_end u) pe.

Definition set_updates (db : DB) (rows : list ProgressUpdate) : DB :=
  mkDB (financial_years db) (kpas db) (plan_items db) (targets db) rows
       (cost_lines db).

(** INSERT: refused when a row holds the same primary key or the same
    unique key. *)
Definition db_insert (db : DB) (row : ProgressUpdate)
  : Dec.result (DB * ProgressUpdate) :=
  let rows := progress_updates db in
  if existsb (fun u => pu_id u =? pu_id row) rows || existsb (same_key row) rows
  then Dec.Raise Dec.IntegrityError
  else Dec.Ok (set_updates db (rows ++ [row]), row).

Definition replace_row (row u : ProgressUpdate) : ProgressUpdate :=
  if pu_id u =? pu_id row then row else u.

(** UPDATE of the row with the primary key of [row]: refused when another
    row holds the same unique key. *)
Definition db_update (db : DB) (row : ProgressUpdate) : Dec.result DB :=
  let rows := progress_updates db in
  if existsb (fun u => same_key row u && negb (pu_id u =? pu_id row)) rows
  then Dec.Raise Dec.IntegrityError
  else Dec.Ok (set_updates db
                 (map (replace_row row) rows)).

(** The constraints the database keeps on the table: the primary key and
    [unique_together]. *)
Definition unique_ids (db : DB) : Prop :=
  NoDup (map pu_id (progress_updates db)).

Definition unique_keys (db : DB) : Prop :=
  ForallOrdPairs (fun a b => same_key a b = false) (progress_updates db).

(** The rows of one (target, period_start, period_end). *)
Definition rows_with_key (db : DB) (target : Z) (ps pe : date)
  : list ProgressUpdate :=
  filter (has_key target ps pe) (progress_updates db).

(** [target.plan_item.kpa.financial_year] *)
Definition financial_year_of (db : DB) (t : Target)
  : Dec.result FinancialYear :=
  match find (fun i => item_id i =? plan_item t) (plan_items db) with
  | None => Dec.Raise Dec.DoesNotExist
  | Some item =>
      match find (fun k => kpa_id k =? item_kpa item) (kpas db) with
      | None => Dec.Raise Dec.DoesNotExist
      | Some k =>
          match find (fun f => fy_id f =? kpa_financial_year k)
                     (financial_years db) with
          | None => Dec.Raise Dec.DoesNotExist
          | Some f => Dec.Ok f
          end
      end
  end.

(** ** Requests *)

(** The value under ['evidence_urls']: a text block, a list, or neither. *)
Inductive EvidenceInput : Type :=
| EvAbsent
| EvText (s : string)
| EvList (l : list string).

(** [request.data] as a plain dictionary.  A key that is absent or holds a
    falsy value is [None]; dates are the strings the client sent. *)
Record Payload : Type :=
  mkPayload { p_target : option Z; p_target_id : option Z;
              p_period_type : option string;
              p_period_start : option string; p_period_end : option string;
              p_period_name : option string; p_actual_value : option Q;
              p_narrative : option string; p_evidence_urls : EvidenceInput;
              p_risk_rating : option string; p_issues : option string;
              p_corrective_actions : option string;
              p_forecast_value : option (option Q);
              p_forecast_confidence : option string;
              p_is_submitted : option bool; p_is_approved : option bool }.

(** [ser.validated_data]: the required fields, and the optional ones the
    payload carried. *)
Record ValidatedData : Type :=
  mkVD { vd_target : Z; vd_period_type : option string;
         vd_period_start : date; vd_period_end : date;
         vd_period_name : string; vd_actual_value : Q;
         vd_narrative : string; vd_evidence_urls : option (list string);
         vd_risk_rating : option string; vd_issues : option string;
         vd_corrective_actions : option string;
         vd_forecast_value : option (option Q);
         vd_forecast_confidence : option string;
         vd_is_submitted : option bool; vd_is_approved : option bool }.

(** The user of a request: [profile.can_edit_plan_item], by plan item id,
    when the user has a profile. *)
Record User : Type := mkUser { user_id : Z; profile : option (Z -> bool) }.

Inductive Response : Type :=
| TargetRequired            (* 400 {'error': 'Target is required.'} *)
| NotAuthorized             (* 403 *)
| QuarterLocked             (* 423 *)
| ValidationErrors          (* 400 {'errors': ...} *)
| Saved (id : Z)            (* 200 {'ok': True, 'id': ...} *)
| Unhandled (e : Dec.exn).  (* an exception the view does not catch: 500 *)

Definition status_code (r : Response) : Z :=
  match r with
  | TargetRequired => 400
  | NotAuthorized => 403
  | QuarterLocked => 423
  | ValidationErrors => 400
  | Saved _ => 200
  | Unhandled _ => 500
  end.

(** [for k, v in ser.validated_data.items(): setattr(existing, k, v)] *)
Definition opt_set {A} (new : option A) (old : A) : A :=
  match new with Some v => v | None => old end.

Definition apply_validated (existing : ProgressUpdate) (vd : ValidatedData)
  : ProgressUpdate :=
  mkPU (pu_id existing) (vd_target vd)
       (opt_set (vd_period_type vd) (period_type existing))
       (vd_period_start vd) (vd_period_end vd) (vd_period_name vd)
       (vd_actual_value vd) (vd_narrative vd)
       (opt_set (vd_evidence_urls vd) (evidence_urls existing))
       (opt_set (vd_risk_rating vd) (risk_rating existing))
       (opt_set (vd_issues vd) (issues existing))
       (opt_set (vd_corrective_actions vd) (corrective_actions existing))
       (opt_set (vd_forecast_value vd) (forecast_value existing))
       (opt_set (vd_forecast_confidence vd) (forecast_confidence existing))
       (opt_set (vd_is_submitted vd) (is_submitted existing))
       (opt_set (vd_is_approved vd) (is_approved existing))
       (is_active existing).

(** A new instance with the defaults of the model's fields; its primary
    key is the value [uuid.uuid4()] returns. *)
Definition blank_update (uuid : Z) : ProgressUpdate :=
  mkPU uuid 0 "MONTHLY" (mkdate 1 1 1) (mkdate 1 1 1) "" 0 "" [] "LOW" "" ""
       None "MEDIUM" false false true.

(** [ser.save(...)], before the INSERT: the instance built from the
    validated data. *)
Definition instance_of (uuid : Z) (vd : ValidatedData) : ProgressUpdate :=
  apply_validated (blank_update uuid) vd.

(** Lines 93-97 of [save_draft]: the evidence URLs as a list of trimmed,
    non-empty strings. *)
Definition normalize_evidence (ev : EvidenceInput) : EvidenceInput :=
  match ev with
  | EvText s =>
      EvList (map PyStr.strip
                (filter (fun l => PyStr.truthy (PyStr.strip l))
                        (PyStr.splitlines s)))
  | EvList l =>
      EvList (map PyStr.strip
                (filter (fun l => PyStr.truthy (PyStr.strip l)) l))
  | EvAbsent => EvAbsent
  end.

Definition set_evidence_and_draft (p : Payload) : Payload :=
  mkPayload (p_target p) (p_target_id p) (p_period_type p) (p_period_start p)
            (p_period_end p) (p_period_name p) (p_actual_value p)
            (p_narrative p) (normalize_evidence (p_evidence_urls p))
            (p_risk_rating p) (p_issues p) (p_corrective_actions p)
            (p_forecast_value p) (p_forecast_confidence p)
            (Some false) (p_is_approved p).

(** The check a model serializer derives from [unique_together]: no row of
    the table holds the key of the data. *)
Definition unique_together_validator (db : DB) (vd : ValidatedData) : bool :=
  negb (existsb (has_key (vd_target vd) (vd_period_start vd)
                         (vd_period_end vd))
                (progress_updates db)).

(** [ProgressUpdateSerializer(data=payload)] as [save_draft] builds it,
    with no instance: the fields are converted ([to_internal_value], the
    framework's) and the validator derived from [unique_together] then runs
    against the whole table, no row set aside. *)
Definition serializer_without_instance
    (to_internal_value : DB -> Payload -> option ValidatedData)
    (db : DB) (p : Payload) : option ValidatedData :=
  match to_internal_value db p with
  | Some vd => if unique_together_validator db vd then Some vd else None
  | None => None
  end.

(** [a or b] on optional values. *)
Definition py_or {A} (a b : option A) : option A :=
  match a with Some _ => a | None => b end.

Section DraftEndpoint.

(** [settings.KPA_SETTINGS] and [timezone.now().date()]. *)
Variable settings : option KPASettings.
Variable now : date.

(** [datetime.fromisoformat(s).date()]; [None] when it raises. *)
Variable fromisoformat : string -> option date.

(** [ProgressUpdateSerializer(data=payload)]: [is_valid()] and
    [validated_data], [None] when the payload is not valid.  The serializer
    is the framework's; it reads the table for the checks it derives from
    the model. *)
Variable run_validation : DB -> Payload -> option ValidatedData.

(** The value of [uuid.uuid4()], drawn when a new instance is built. *)
Variable uuid4 : Z.

(** [ProgressUpdateViewSet.save_draft] *)
Definition save_draft (db : DB) (user : User) (data : Payload)
  : DB * Response :=
  let target_pk := py_or (p_target data) (p_target_id data) in
  match match target_pk with
        | Some id => find (fun t => target_id t =? id) (targets db)
        | None => None
        end with
  | None => (db, TargetRequired)
  | Some target =>
      if negb (match profile user with
               | Some can_edit_plan_item => can_edit_plan_item (plan_item target)
               | None => false
               end)
      then (db, NotAuthorized)
      else
        match financial_year_of db target with
        | Dec.Raise e => (db, Unhandled e)
        | Dec.Ok fin_year =>
            let locked :=
              match p_period_end data with
              | Some period_end =>
                  match fromisoformat period_end with
                  | Some period_end_dt =>
                      UtilsTime.is_period_locked settings now fin_year
                        period_end_dt None
                  | None => false   (* except Exception: pass *)
                  end
              | None => false
              end in
            if locked then (db, QuarterLocked)
            else
              let payload := set_evidence_and_draft data in
              match run_validation db payload with
              | None => (db, ValidationErrors)
              | Some vd =>
                  let existing :=
                    find (fun u => has_key (target_id target)
                                     (vd_period_start vd) (vd_period_end vd) u
                                   && negb (is_submitted u) && is_active u)
                         (progress_updates db) in
                  match existing with
                  | Some existing =>
                      let existing' := apply_validated existing vd in
                      match db_update db existing' with
                      | Dec.Ok db' => (db', Saved (pu_id existing'))
                      | Dec.Raise e => (db, Unhandled e)
                      end
                  | None =>
                      match db_insert db (instance_of uuid4 vd) with
                      | Dec.Ok (db', obj) => (db', Saved (pu_id obj))
                      | Dec.Raise e => (db, Unhandled e)
                      end
                  end
              end
        end
  end.

End DraftEndpoint.

(** ** The forms ([progress/forms.py]) and the two form views *)

(** [form.cleaned_data] of a [ProgressUpdateForm], after the fields have
    cleaned their values and [clean_evidence_urls] has split the text into
    lines.  An optional field is [None] when the POST does not carry it. *)
Record CleanedData : Type :=
  mkCleaned { c_target : option Z; c_period_type : option string;
              c_period_start : option date; c_period_end : option date;
              c_period_name : option string; c_actual_value : option Q;
              c_narrative : option string;
              c_evidence_urls : option (list string);
              c_risk_rating : option string; c_issues : string;
              c_corrective_actions : string; c_forecast_value : option Q;
              c_forecast_confidence : option string;
              c_is_submitted : bool }.

Inductive Method : Type := GET | POST.

(** A request to a form view.  [field_errors] tells whether a field
    refused its value. *)
Record FormRequest : Type :=
  mkFormRequest { method : Method; form_type : option string;
                  cleaned : CleanedData; field_errors : bool }.

Inductive FormResponse : Type :=
| Http404
| PermissionDenied
| RedirectAway              (* messages.error and a redirect, nothing saved *)
| RedirectSaved (id : Z)    (* the update is saved *)
| Rendered (locked_error : bool)  (* the form again, with its errors *)
| Failed (e : Dec.exn).     (* an exception the view does not catch *)

(** Truth of a value of [cleaned.get(f)]. *)
Definition truthy_str (x : option string) : bool :=
  match x with Some s => PyStr.truthy s | None => false end.
Definition truthy_date (x : option date) : bool :=
  match x with Some _ => true | None => false end.
Definition truthy_dec (x : option Q) : bool :=
  match x with Some q => negb (Dec.is_zero q) | None => false end.
Definition truthy_list {A} (x : option (list A)) : bool :=
  match x with Some (_ :: _) => true | _ => false end.

(** [form.save(commit=False)]: the instance with the cleaned values; a
    field with a model default keeps its value when the POST omits it. *)
Definition construct_instance (instance : ProgressUpdate) (c : CleanedData)
  : ProgressUpdate :=
  mkPU (pu_id instance)
       (opt_set (c_target c) (pu_target instance))
       (opt_set (c_period_type c) (period_type instance))
       (opt_set (c_period_start c) (period_start instance))
       (opt_set (c_period_end c) (period_end instance))
       (opt_set (c_period_name c) (period_name instance))
       (opt_set (c_actual_value c) (actual_value instance))
       (opt_set (c_narrative c) (narrative instance))
       (opt_set (c_evidence_urls c) (evidence_urls instance))
       (opt_set (c_risk_rating c) (risk_rating instance))
       (c_issues c) (c_corrective_actions c) (c_forecast_value c)
       (opt_set (c_forecast_confidence c) (forecast_confidence instance))
       (c_is_submitted c) (is_approved instance) (is_active instance).

Section FormViews.

Variable settings : option KPASettings.
(** [date.today()] and [timezone.now().date()]. *)
Variable now : date.
Variable float_ratio : Z -> Z -> Q.
Variable strftime : string -> date -> string.
Variable str_of_int : Z -> string.

(** The model validation a [ModelForm] runs after [clean()], on the
    instance it has built: the framework's. *)
Variable post_clean : DB -> ProgressUpdate -> bool.

(** The value of [uuid.uuid4()], drawn when a new instance is built. *)
Variable uuid4 : Z.

(** The evidence rule inside [ProgressUpdateForm.clean]; an exception of
    the rule is swallowed. *)
Definition clean_evidence_error (db : DB) (instance_target : option Z)
    (c : CleanedData) : bool :=
  match py_or (c_target c) instance_target, c_period_end c,
        c_actual_value c with
  | Some target, Some pe, Some actual =>
      let tmp :=
        mkPU 0 target
             (match c_period_type c with
              | Some s => if PyStr.truthy s then s else "MONTHLY"
              | None => "MONTHLY" end)
             (match c_period_start c with Some d => d | None => pe end)
             pe
             (match c_period_name c with Some s => s | None => "" end)
             actual
             (match c_narrative c with Some s => s | None => "" end)
             [] "LOW" "" "" None "MEDIUM" false false true in
      match Models.is_evidence_required now float_ratio settings db tmp with
      | Dec.Ok true => negb (truthy_list (c_evidence_urls c))
      | _ => false
      end
  | _, _, _ => false
  end.

(** [ProgressUpdateForm.clean]: whether it reports an error. *)
Definition clean_errors (db : DB) (instance_target : option Z)
    (c : CleanedData) : bool :=
  negb (truthy_str (c_period_type c)) || negb (truthy_date (c_period_start c))
  || negb (truthy_date (c_period_end c)) || negb (truthy_str (c_period_name c))
  || negb (truthy_dec (c_actual_value c)) || negb (truthy_str (c_narrative c))
  || clean_evidence_error db instance_target c.

(** [form.is_valid()] for a form bound to [instance]. *)
Definition form_is_valid (db : DB) (instance : ProgressUpdate)
    (instance_target : option Z) (req : FormRequest) : bool :=
  negb (field_errors req)
  && negb (clean_errors db instance_target (cleaned req))
  && post_clean db (construct_instance instance (cleaned req)).

Definition can_edit (user : User) (target : Target) : bool :=
  match profile user with
  | Some can_edit_plan_item => can_edit_plan_item (plan_item target)
  | None => false
  end.

(** [update_wizard_view] *)
Definition update_wizard_view (db : DB) (user : User) (target_pk : Z)
    (req : FormRequest) : DB * FormResponse :=
  match find (fun t => target_id t =? target_pk) (targets db) with
  | None => (db, Http404)
  | Some target =>
      if negb (can_edit user target) then (db, PermissionDenied)
      else
        match method req with
        | GET => (db, Rendered false)
        | POST =>
            if form_is_valid db (blank_update uuid4) None req then
              let locked :=
                match financial_year_of db target, c_period_end (cleaned req) with
                | Dec.Ok fin_year, Some pe =>
                    UtilsTime.is_period_locked settings now fin_year pe None
                | _, _ => false   (* except Exception: pass *)
                end in
              if locked then (db, Rendered true)
              else
                let upd :=
                  construct_instance (blank_update uuid4) (cleaned req) in
                let upd :=
                  mkPU (pu_id upd) (target_id target) (period_type upd)
                       (period_start upd) (period_end upd) (period_name upd)
                       (actual_value upd) (narrative upd) (evidence_urls upd)
                       (risk_rating upd) (issues upd) (corrective_actions upd)
                       (forecast_value upd) (forecast_confidence upd)
                       true (is_approved upd) (is_active upd) in
                match db_insert db upd with
                | Dec.Ok (db', obj) => (db', RedirectSaved (pu_id obj))
                | Dec.Raise e => (db, Failed e)
                end
            else (db, Rendered false)
        end
  end.

(** [ProgressUpdate.objects.get_or_create(target=..., period_start=...,
    period_end=..., defaults=...)] as [manager_progress_update_view] calls
    it. *)
Definition get_or_create (db : DB) (target : Target) (ps pe : date)
    (name : string) : Dec.result (DB * ProgressUpdate) :=
  match find (has_key (target_id target) ps pe) (progress_updates db) with
  | Some row => Dec.Ok (db, row)
  | None =>
      db_insert db
        (mkPU uuid4 (target_id target) (PyStr.upper (periodicity target)) ps pe
              name 0 "" [] "LOW" "" "" None "MEDIUM" false false true)
  end.

(** [manager_progress_update_view]: the progress form of the page. *)
Definition manager_progress_update_view (db : DB) (user : User)
    (target_pk : Z) (req : FormRequest) : DB * FormResponse :=
  match find (fun t => (target_id t =? target_pk) && target_is_active t)
             (targets db) with
  | None => (db, Http404)
  | Some target =>
      if negb (can_edit user target) then (db, RedirectAway)
      else
        let '(start, end_, name) :=
          Models.get_current_period now strftime str_of_int target in
        match get_or_create db target start end_ name with
        | Dec.Raise e => (db, Failed e)
        | Dec.Ok (db1, progress_update) =>
            match method req with
            | GET => (db1, Rendered false)
            | POST =>
                let form_type :=
                  match form_type req with
                  | Some s => s | None => "progress"%string end in
                if String.eqb form_type "progress" then
                  if form_is_valid db1 progress_update
                       (Some (pu_target progress_update)) req
                  then
                    let progress_update :=
                      construct_instance progress_update (cleaned req) in
                    match db_update db1 progress_update with
                    | Dec.Ok db2 => (db2, RedirectSaved (pu_id progress_update))
                    | Dec.Raise e => (db1, Failed e)
                    end
                  else (db1, Rendered false)
                else (db1, Rendered false)
            end
        end
  end.

End FormViews.

End WritePaths.

(* ================================================================== *)
(** * [progress/models.py]: overdue targets and the status of a cost line *)
(* ================================================================== *)

Module TargetStatus.

Section WithClock.

(** [date.today()] *)
Variable today : date.

(** [Target.is_overdue_for_update], for a saved row (its [due_date] is set). *)
Definition is_overdue_for_update (db : DB) (self : Target) : bool :=
  match latest_by period_end (Models.active_updates_of db self) with
  | None => date_gtb today (due_date self)
  | Some latest_update =>
      if String.eqb (periodicity self) "monthly" then
        date_gtb today (rd_add (period_end latest_update) (rd_make 1 0))
      else if String.eqb (periodicity self) "quarterly" then
        date_gtb today (rd_add (period_end latest_update) (rd_make 3 0))
      else if String.eqb (periodicity self) "annually" then
        date_gtb today (rd_add (period_end latest_update) (mkrd 1 0 0))
      else false
  end.

End WithClock.

End TargetStatus.

Module CostLines.

(** The strings [get_spend_status] returns. *)
Inductive SpendStatus : Type :=
| OVERSPENT | FULLY_SPENT | HIGH_SPEND | MODERATE_SPEND | LOW_SPEND.

Definition variance_amount (self : CostLine) : Q :=
  (actual_spend self - budgeted_amount self)%Q.

Definition remaining_budget (self : CostLine) : Q :=
  (budgeted_amount self - actual_spend self)%Q.

Definition is_overspent (self : CostLine) : bool :=
  Dec.gtb (actual_spend self) (budgeted_amount self).

Definition get_spend_status (self : CostLine) : Dec.result SpendStatus :=
  spend_pct <- Models.cl_spend_percentage self ;;
  if Dec.geb spend_pct 100
  then Dec.Ok (if is_overspent self then OVERSPENT else FULLY_SPENT)
  else if Dec.geb spend_pct 80 then Dec.Ok HIGH_SPEND
  else if Dec.geb spend_pct 50 then Dec.Ok MODERATE_SPEND
  else Dec.Ok LOW_SPEND.

End CostLines.

(* ================================================================== *)
(** * [progress/forms.py]: the evidence field of the progress form *)
(* ================================================================== *)

Module Forms.
Import WritePaths.

(** [ProgressUpdateForm.clean_evidence_urls]: a list is filtered as it is,
    anything else is read as text, [None] as the empty text. *)
Definition clean_evidence_urls (data : EvidenceInput) : list string :=
  match data with
  | EvList l => filter (fun x => PyStr.truthy (PyStr.strip x)) l
  | _ =>
      let text := match data with EvText s => s | _ => EmptyString end in
      map PyStr.strip
          (filter (fun l => PyStr.truthy (PyStr.strip l))
                  (PyStr.splitlines text))
  end.

End Forms.

(* ================================================================== *)
(** * [core/views.py]: the dashboard *)
(* ================================================================== *)

Module Dashboard.

(** [current_date.replace(year=y, month=m)]: [None] for the [ValueError] of
    a day the month does not have. *)
Definition replace_month (d : date) (y m : Z) : option date :=
  let d' := mkdate y m (day d) in
  if valid_dateb d' then Some d' else None.

(** The loop that lists the monthly periods of the selected year.  An
    option ['M{month_num:02d}'] labelled [current_date.strftime('%B %Y')] is
    the pair of the number and the date; [None] is the [ValueError] the view
    does not catch.  The loop leaves on [month_num > 12] after at most twelve
    rounds; [fuel] bounds them. *)
Fixpoint monthly_periods (fuel : nat) (end_date current_date : date)
    (month_num : Z) : option (list (Z * date)) :=
  match fuel with
  | O => Some []
  | S fuel' =>
      if date_leb current_date end_date then
        let next :=
          if month current_date =? 12
          then replace_month current_date (year current_date + 1) 1
          else replace_month current_date (year current_date)
                             (month current_date + 1) in
        match next with
        | None => None
        | Some next =>
            let month_num' := month_num + 1 in
            if 12 <? month_num' then Some [(month_num, current_date)]
            else
              match monthly_periods fuel' end_date next month_num' with
              | Some rest => Some ((month_num, current_date) :: rest)
              | None => None
              end
        end
      else Some []
  end.

Definition dashboard_periods (selected_fy : FinancialYear)
  : option (list (Z * date)) :=
  monthly_periods 12 (end_date selected_fy) (start_date selected_fy) 1.

(** ** The KPA cards and the counters of the summary *)

(** [round(x)] on a decimal: to the nearest integer, a half to the even
    one. *)
Definition round_half_even (x : Q) : Z :=
  let f := Qnum x / Z.pos (Qden x) in
  let r := (x - inject_Z f)%Q in
  if Qle_bool r (1 # 2)
  then if Qle_bool (1 # 2) r then (if Z.even f then f else f + 1) else f
  else f + 1.

(** The entries of a card that are computed: ['id'], ['rag'],
    ['ytd_target'], ['ytd_actual'], ['percent'] and ['budget_burn_pct']. *)
Record KpaCard : Type :=
  mkCard { card_id : Z; card_rag : RAG; card_ytd_target : Q;
           card_ytd_actual : Q; card_percent : Z; card_budget_burn_pct : Q }.

(** [k.financial_year] *)
Definition financial_year_of_kpa (db : DB) (k : KPA)
  : Dec.result FinancialYear :=
  match find (fun f => fy_id f =? kpa_financial_year k)
             (financial_years db) with
  | Some f => Dec.Ok f
  | None => Dec.Raise Dec.DoesNotExist
  end.

(** The loop over the active targets of a plan item. *)
Fixpoint card_targets (db : DB) (fin_year : FinancialYear) (as_of : date)
    (ts : list Target) (acc : Q * Q) : Dec.result (Q * Q) :=
  match ts with
  | [] => Dec.Ok acc
  | t :: ts' =>
      let '(agg_ytd_target, agg_ytd_actual) := acc in
      ytd_tgt <- Views.ytd_target_value t fin_year as_of ;;
      let ytd_act := Views.sum_actuals_ytd db t fin_year as_of in
      card_targets db fin_year as_of ts'
        ((agg_ytd_target + ytd_tgt)%Q, (agg_ytd_actual + ytd_act)%Q)
  end.

(** The loop over the plan items of a KPA. *)
Fixpoint card_items (db : DB) (k : KPA) (as_of : date)
    (items : list OperationalPlanItem) (acc : Q * Q * Q * Q)
  : Dec.result (Q * Q * Q * Q) :=
  match items with
  | [] => Dec.Ok acc
  | item :: items' =>
      let '(agg_ytd_target, agg_ytd_actual, kpa_planned, kpa_spent) := acc in
      fin_year <- financial_year_of_kpa db k ;;
      spend <- Views.compute_item_spend db item fin_year as_of ;;
      let '(planned, actual_spend, _) := spend in
      sums <- card_targets db fin_year as_of (Views.active_targets_of db item)
                (agg_ytd_target, agg_ytd_actual) ;;
      card_items db k as_of items'
        (fst sums, snd sums, (kpa_planned + planned)%Q,
         (kpa_spent + actual_spend)%Q)
  end.

Section Cards.

(** The unit filter on plan items: every item when no unit is selected. *)
Variable in_unit : OperationalPlanItem -> bool.

(** [kpa_items_map.get(k.id, [])] *)
Definition items_of (db : DB) (k : KPA) : list OperationalPlanItem :=
  filter (fun pi => (item_kpa pi =? kpa_id k) && item_is_active pi
                    && in_unit pi)
         (plan_items db).

(** One round of [for k in kpas]: the card, and the planned budget and the
    spend of the KPA. *)
Definition kpa_card (db : DB) (as_of : date) (k : KPA)
  : Dec.result (KpaCard * Q * Q) :=
  sums <- card_items db k as_of (items_of db k)
            (Dec.D0, Dec.D0, Dec.D0, Dec.D0) ;;
  let '(agg_ytd_target, agg_ytd_actual, kpa_planned, kpa_spent) := sums in
  percent <- Views.compute_percent agg_ytd_actual (Some agg_ytd_target) ;;
  let rag := Views.compute_rag_from_percent percent None in
  burn <- (if Dec.is_zero kpa_planned then Dec.Ok Dec.D0
           else x <- Dec.div kpa_spent kpa_planned ;;
                Dec.Ok (x * Dec.D100)%Q) ;;
  Dec.Ok (mkCard (kpa_id k) rag agg_ytd_target agg_ytd_actual
                 (round_half_even percent) burn,
          kpa_planned, kpa_spent).

(** The counters of the summary and the two totals. *)
Record Summary : Type :=
  mkSummary { on_track : Z; at_risk : Z; off_track : Z; total_kpas : Z;
              total_planned_budget : Q; total_actual_spend : Q }.

Fixpoint kpa_cards (db : DB) (as_of : date) (ks : list KPA)
    (kpa_cards0 : list KpaCard) (s : Summary)
  : Dec.result (list KpaCard * Summary) :=
  match ks with
  | [] => Dec.Ok (kpa_cards0, s)
  | k :: ks' =>
      c <- kpa_card db as_of k ;;
      let '(card, kpa_planned, kpa_spent) := c in
      let rag := card_rag card in
      kpa_cards db as_of ks' (kpa_cards0 ++ [card])
        (mkSummary
           (match rag with GREEN => on_track s + 1 | _ => on_track s end)
           (match rag with AMBER => at_risk s + 1 | _ => at_risk s end)
           (match rag with RED => off_track s + 1 | _ => off_track s end)
           (total_kpas s)
           (total_planned_budget s + kpa_planned)%Q
           (total_actual_spend s + kpa_spent)%Q)
  end.

(** The cards and the summary of [dashboard_view]; [total_kpas] is
    [len(kpa_cards)].  The KPAs are taken as the table lists them: the
    default ordering of the queryset (by [order], then [title]) is outside
    the record. *)
Definition dashboard_cards (db : DB) (as_of : date)
    (selected_year_id : option Z) : Dec.result (list KpaCard * Summary) :=
  let kpas0 :=
    match selected_year_id with
    | Some y => filter (fun k => kpa_financial_year k =? y) (kpas db)
    | None => []
    end in
  r <- kpa_cards db as_of kpas0 []
         (mkSummary 0 0 0 0 Dec.D0 Dec.D0) ;;
  let '(cards, s) := r in
  Dec.Ok (cards,
          mkSummary (on_track s) (at_risk s) (off_track s)
                    (Z.of_nat (List.length cards))
                    (total_planned_budget s) (total_actual_spend s)).

End Cards.

End Dashboard.

(* ================================================================== *)
(** * The [decimal] context: 28 significant digits, half even *)
(* ================================================================== *)

Module Decimal.

(** The arithmetic context of the [decimal] module as the program runs it
    (the default one): every difference, product and quotient is the exact
    result rounded to 28 significant digits, ties to the even digit.
    A decimal is the rational number it denotes.  The exponent limits of
    the context (10^999999 and its inverse) are out of the reach of the
    columns, which hold 15 digits, and are not modelled. *)
Definition prec : Z := 28.

(** The number of decimal digits of [n], for [1 <= n]. *)
Fixpoint digits_fuel (fuel : nat) (n : Z) : Z :=
  match fuel with
  | O => 1
  | S fuel => if n <? 10 then 1 else 1 + digits_fuel fuel (n / 10)
  end.

Definition digits (n : Z) : Z := digits_fuel (Z.to_nat (Z.log2 n)) n.

(** The exponent of the leading digit of [x], for [x] not zero: the [e]
    with [10^e <= |x| < 10^(e+1)]. *)
Definition adjusted (x : Q) : Z :=
  let e := digits (Z.abs (Qnum x)) - digits (Z.pos (Qden x)) in
  if Qle_bool (10 ^ e) (Qabs x) then e else e - 1.

(** The nearest decimal of [prec] significant digits. *)
Definition round (x : Q) : Q :=
  if Dec.is_zero x then x
  else
    let q := prec - 1 - adjusted x in
    (inject_Z (Dashboard.round_half_even (x * 10 ^ q)) * 10 ^ (- q))%Q.

(** [x - y] and [x * y]: the rounded difference and product. *)
Definition sub (x y : Q) : Q := round (x - y).
Definition mul (x y : Q) : Q := round (x * y).

(** [x / y]: the rounded quotient, or the exception of a zero divisor. *)
Definition div (x y : Q) : Dec.result Q :=
  if Dec.is_zero y
  then Dec.Raise (if Dec.is_zero x then Dec.InvalidOperation
                  else Dec.DivisionByZero)
  else Dec.Ok (round (x / y)).

(** The relative error of one rounding is at most half a unit of the 28th
    digit; [two_roundings] and [three_roundings] bound the error of two
    and of three roundings in a row. *)
Definition half_ulp : Q := 5 # 10 ^ 28.
Definition two_roundings : Q := 11 # 10 ^ 28.
Definition three_roundings : Q := 17 # 10 ^ 28.

(** [x] is a decimal of at most 28 digits: a coefficient below [10^28]
    and a power of ten. *)
Definition fits (x : Q) : Prop :=
  exists c e : Z, Z.abs c < 10 ^ prec /\ (x == inject_Z c * 10 ^ e)%Q.

End Decimal.

(* ================================================================== *)
(** * core/views.py in the arithmetic of the context *)
(* ================================================================== *)

Module DecimalViews.

(** [ytd_target_value] and [compute_forecast_value] once more, every
    product and quotient rounded as the context rounds it.  [Views] has
    the same functions over exact rationals. *)
Definition ytd_target_value (target : Target) (fin_year : FinancialYear)
    (as_of : date) : Dec.result Q :=
  let total := value target in
  let per := periodicity target in
  if String.eqb per "ANNUAL" then
    let '(start, end_) := Views.fy_bounds fin_year in
    let end_cut := date_min end_ as_of in
    let elapsed_days := days_between end_cut start + 1 in
    let total_days := days_between end_ start + 1 in
    if negb (total_days =? 0)
    then Decimal.div (Decimal.mul total (Dec.ofZ elapsed_days))
                     (Dec.ofZ total_days)
    else Dec.Ok Dec.D0
  else if String.eqb per "MONTHLY" then
    let m := Views.months_elapsed fin_year as_of in
    x <- Decimal.div total 12 ;; Dec.Ok (Decimal.mul x (Dec.ofZ m))
  else if String.eqb per "QUARTERLY" then
    let q := Views.quarters_elapsed fin_year as_of in
    x <- Decimal.div total 4 ;; Dec.Ok (Decimal.mul x (Dec.ofZ q))
  else Dec.Ok total.

Definition compute_forecast_value (db : DB) (target : Target)
    (ytd_actual : Q) (fin_year : FinancialYear) (as_of : date)
  : Dec.result Q :=
  let latest := Views.latest_update_in_fy db target fin_year as_of in
  match match latest with Some u => forecast_value u | None => None end with
  | Some f => Dec.Ok f
  | None =>
      if String.eqb (periodicity target) "MONTHLY" then
        let m := Views.months_elapsed fin_year as_of in
        if m <=? 0 then Dec.Ok Dec.D0
        else x <- Decimal.div ytd_actual (Dec.ofZ m) ;;
             Dec.Ok (Decimal.mul x 12)
      else if String.eqb (periodicity target) "QUARTERLY" then
        let q := Views.quarters_elapsed fin_year as_of in
        if q <=? 0 then Dec.Ok Dec.D0
        else x <- Decimal.div ytd_actual (Dec.ofZ q) ;;
             Dec.Ok (Decimal.mul x 4)
      else
        let '(start, end_) := Views.fy_bounds fin_year in
        let elapsed_days := days_between (date_min as_of end_) start + 1 in
        let total_days := days_between end_ start + 1 in
        if elapsed_days <=? 0 then Dec.Ok Dec.D0
        else x <- Decimal.div ytd_actual (Dec.ofZ elapsed_days) ;;
             Dec.Ok (Decimal.mul x (Dec.ofZ total_days))
  end.

End DecimalViews.

(* ================================================================== *)
(** * [CostLine] in the arithmetic of the context *)
(* ================================================================== *)

Module DecimalModels.

(** The ratios of [CostLine] ([progress/models.py]) once more, every
    difference, quotient and product rounded as the context rounds it.
    [Models] and [CostLines] have them over exact rationals. *)
Definition variance_amount (self : CostLine) : Q :=
  Decimal.sub (actual_spend self) (budgeted_amount self).

Definition cl_variance_percentage (self : CostLine) : Dec.result Q :=
  if Dec.is_zero (budgeted_amount self) then Dec.Ok Dec.D0
  else x <- Decimal.div (variance_amount self) (budgeted_amount self) ;;
       Dec.Ok (Decimal.mul x 100).

Definition cl_spend_percentage (self : CostLine) : Dec.result Q :=
  if Dec.is_zero (budgeted_amount self) then Dec.Ok Dec.D0
  else x <- Decimal.div (actual_spend self) (budgeted_amount self) ;;
       Dec.Ok (Decimal.mul x 100).

End DecimalModels.

(* ================================================================== *)
(** * [accounts/models.py]: who may edit a plan item *)
(* ================================================================== *)

Module Accounts.
Import Ascii.

(** [needle in haystack] on strings. *)
Fixpoint contains (needle haystack : string) : bool :=
  String.prefix needle haystack
  || match haystack with
     | EmptyString => false
     | String _ rest => contains needle rest
     end.

(** A [UserProfile] with what the permission reads of its [user]: the
    primary key and the value of [get_full_name()]. *)
Record UserProfile : Type :=
  mkProfile { profile_user : Z; full_name : string; primary_role : string }.

(** What the permission reads of a plan item: [plan_item.kpa.owner] and
    [plan_item.responsible_officer]. *)
Record PlanItemAccess : Type :=
  mkAccess { kpa_owner : Z; responsible_officer : string }.

Section Permission.

(** [str.lower()], the interpreter's: the lower-case mapping of Unicode,
    which reaches beyond the letters A to Z. *)
Variable lower : string -> string.

Definition can_edit_plan_item (self : UserProfile)
    (plan_item : PlanItemAccess) : bool :=
  if String.eqb (primary_role self) "SYSTEM_ADMIN" then true
  else if String.eqb (primary_role self) "SENIOR_MANAGER"
          && (kpa_owner plan_item =? profile_user self) then true
  else if String.eqb (primary_role self) "PROGRAMME_MANAGER" then
    contains (lower (full_name self)) (lower (responsible_officer plan_item))
  else false.

End Permission.

End Accounts.

(* ================================================================== *)
(** * [core/views_manager.py]: approving a progress update *)
(* ================================================================== *)

Module Approval.
Import WritePaths Accounts.

Inductive ApprovalResponse : Type :=
| NotFound                (* 404 *)
| ManagerRoleRequired     (* PermissionDenied of [require_manager_role] *)
| NoPermission            (* messages.error, redirect to the dashboard *)
| NotSubmitted            (* messages.error, redirect to the approvals *)
| Redirected              (* the redirect that ends a POST *)
| Page                    (* the approval page *)
| Crashed (e : Dec.exn).  (* an exception the view does not catch *)

(** [primary_role in ['SENIOR_MANAGER', 'PROGRAMME_MANAGER']] *)
Definition approver_role (p : UserProfile) : bool :=
  String.eqb (primary_role p) "SENIOR_MANAGER"
  || String.eqb (primary_role p) "PROGRAMME_MANAGER".

(** The columns of a progress update that the approval and [save()] write
    and [ProgressUpdate], the record of the reported columns, leaves out.
    A timestamp is a reading of the clock, [approved_by] the primary key of
    a user.  The table of these columns is a function of the primary key of
    the update. *)
Record ApprovalColumns : Type :=
  mkApprovalColumns { submitted_at : option Z;
                      approved_by : option Z;
                      approved_at : option Z;
                      approval_comments : string;
                      updated_at : Z }.

(** The row with new values of [is_submitted] and [is_approved]. *)
Definition set_approval (u : ProgressUpdate) (submitted approved : bool)
  : ProgressUpdate :=
  mkPU (pu_id u) (pu_target u) (period_type u) (period_start u) (period_end u)
       (period_name u) (actual_value u) (narrative u) (evidence_urls u)
       (risk_rating u) (issues u) (corrective_actions u) (forecast_value u)
       (forecast_confidence u) submitted approved (is_active u).

(** [not self.submitted_at]: a timestamp that is not there. *)
Definition unset (t : option Z) : bool :=
  match t with Some _ => false | None => true end.

Section ApprovalView.

(** [str.lower()], for the permission. *)
Variable lower : string -> string.

(** The permission columns of the plan item with a given primary key. *)
Variable access : Z -> PlanItemAccess.

(** The readings of [timezone.now()]: the one the view takes when it
    approves, the two [ProgressUpdate.save] takes for a timestamp it has to
    fill, and the one that stamps [updated_at] ([auto_now]) when the row is
    written. *)
Variable now_view : Z.
Variable now_submitted : Z.
Variable now_approved : Z.
Variable now_saved : Z.

(** [ProgressUpdate.save], on the columns beside the record: the empty
    timestamp of a flag that is set is filled, and the row is written. *)
Definition save_columns (u : ProgressUpdate) (c : ApprovalColumns)
  : ApprovalColumns :=
  let submitted_at' :=
    if is_submitted u && unset (submitted_at c)
    then Some now_submitted else submitted_at c in
  let approved_at' :=
    if is_approved u && unset (approved_at c)
    then Some now_approved else approved_at c in
  mkApprovalColumns submitted_at' (approved_by c) approved_at'
                    (approval_comments c) now_saved.

(** [manager_progress_approval_view] under [require_manager_role].
    [other_route] tells whether the user is a manager by the staff records
    or by owning an active KPA, the two routes of the decorator besides the
    role of the profile.  [request.user] is the user of the profile;
    [post_comments] is [request.POST.get('approval_comments')].  The
    notification the view sends after the row is saved is wrapped in
    [try ... except Exception] and writes no progress update. *)
Definition manager_progress_approval_view (db : DB)
    (columns : Z -> ApprovalColumns)
    (user_profile : option UserProfile) (other_route : bool)
    (update_id : Z) (method : Method) (action : option string)
    (post_comments : option string)
  : DB * (Z -> ApprovalColumns) * ApprovalResponse :=
  if negb (match user_profile with
           | Some p => approver_role p
           | None => false
           end || other_route)
  then (db, columns, ManagerRoleRequired)
  else
    match find (fun u => (pu_id u =? update_id) && is_active u)
               (progress_updates db) with
    | None => (db, columns, NotFound)
    | Some progress_update =>
        match user_profile with
        | None => (db, columns, NoPermission)
        | Some p =>
            match Models.target_of db progress_update with
            | Dec.Raise e => (db, columns, Crashed e)
            | Dec.Ok target =>
                if negb (can_edit_plan_item lower p
                           (access (plan_item target)))
                then (db, columns, NoPermission)
                else if negb (approver_role p) then (db, columns, NoPermission)
                else if negb (is_submitted progress_update)
                then (db, columns, NotSubmitted)
                else
                  match method with
                  | GET => (db, columns, Page)
                  | POST =>
                      let approval_comments' :=
                        match post_comments with
                        | Some text => text
                        | None => EmptyString
                        end in
                      let old := columns (pu_id progress_update) in
                      let saved row c :=
                        match db_update db row with
                        | Dec.Ok db' =>
                            (db',
                             fun id => if id =? pu_id progress_update
                                       then save_columns row c
                                       else columns id,
                             Redirected)
                        | Dec.Raise e => (db, columns, Crashed e)
                        end in
                      match action with
                      | Some a =>
                          if String.eqb a "approve" then
                            saved (set_approval progress_update
                                     (is_submitted progress_update) true)
                                  (mkApprovalColumns
                                     (submitted_at old)
                                     (Some (profile_user p))
                                     (Some now_view)
                                     approval_comments'
                                     (updated_at old))
                          else if String.eqb a "reject" then
                            saved (set_approval progress_update false false)
                                  (mkApprovalColumns
                                     (submitted_at old)
                                     (approved_by old)
                                     (approved_at old)
                                     approval_comments'
                                     (updated_at old))
                          else (db, columns, Redirected)
                      | None => (db, columns, Redirected)
                      end
                  end
            end
        end
    end.

End ApprovalView.

End Approval.

(* ================================================================== *)
(** * Sample data *)
(* ================================================================== *)

Module Sample.

(** The South African financial year 2024/25, as in the test suites. *)
Definition fy_2024_25 : FinancialYear :=
  mkFY 1 (mkdate 2024 4 1) (mkdate 2025 3 31).

(** A monthly target of 1200 a year and monthly updates against it. *)
Definition monthly_target : Target :=
  mkTarget 1 1 1200 (mkdate 2025 3 31) "MONTHLY" 95 80 true.

Definition monthly_update (id : Z) (start end_ : date) (actual : Q)
  : ProgressUpdate :=
  mkPU id 1 "MONTHLY" start end_ "" actual "progress" [] "LOW" "" ""
       None "MEDIUM" true false true.

Definition april (actual : Q) : ProgressUpdate :=
  monthly_update 1 (mkdate 2024 4 1) (mkdate 2024 4 30) actual.
Definition may (actual : Q) : ProgressUpdate :=
  monthly_update 2 (mkdate 2024 5 1) (mkdate 2024 5 31) actual.

Definition db_of (updates : list ProgressUpdate) : DB :=
  mkDB [fy_2024_25] [mkKPA 1 1 true] [mkItem 1 1 0 0 true]
       [monthly_target] updates [].

(** Strict [YYYY-MM-DD], for the two date parsers of the draft endpoint. *)
Definition digit (c : Ascii.ascii) : option Z :=
  let n := Z.of_nat (Ascii.nat_of_ascii c) in
  if (48 <=? n) && (n <=? 57) then Some (n - 48) else None.

Definition is_dash (c : Ascii.ascii) : bool :=
  Nat.eqb (Ascii.nat_of_ascii c) 45.

Definition parse_iso (s : string) : option date :=
  match list_ascii_of_string s with
  | [y1; y2; y3; y4; s1; m1; m2; s2; d1; d2] =>
      match map digit [y1; y2; y3; y4; m1; m2; d1; d2] with
      | [Some y1; Some y2; Some y3; Some y4;
         Some m1; Some m2; Some d1; Some d2] =>
          let d := mkdate (1000 * y1 + 100 * y2 + 10 * y3 + y4)
                          (10 * m1 + m2) (10 * d1 + d2) in
          if is_dash s1 && is_dash s2 && valid_dateb d then Some d else None
      | _ => None
      end
  | _ => None
  end.

(** The conversion of the fields of a payload: the required fields are
    asked for and the dates parsed.  As a serializer of its own it checks
    nothing against the table; [WritePaths.serializer_without_instance]
    adds the check derived from [unique_together]. *)
Definition serializer (db : DB) (p : WritePaths.Payload)
  : option WritePaths.ValidatedData :=
  match WritePaths.p_target p, WritePaths.p_period_start p,
        WritePaths.p_period_end p, WritePaths.p_period_name p,
        WritePaths.p_actual_value p, WritePaths.p_narrative p with
  | Some t, Some ps, Some pe, Some name, Some actual, Some text =>
      match parse_iso ps, parse_iso pe with
      | Some ps, Some pe =>
          Some (WritePaths.mkVD t (WritePaths.p_period_type p) ps pe name
                  actual text
                  (match WritePaths.p_evidence_urls p with
                   | WritePaths.EvList l => Some l
                   | _ => None
                   end)
                  (WritePaths.p_risk_rating p) (WritePaths.p_issues p)
                  (WritePaths.p_corrective_actions p)
                  (WritePaths.p_forecast_value p)
                  (WritePaths.p_forecast_confidence p)
                  (WritePaths.p_is_submitted p) (WritePaths.p_is_approved p))
      | _, _ => None
      end
  | _, _, _, _, _, _ => None
  end.

(** [str.lower()] on strings of ASCII characters, where it maps the
    letters A to Z and nothing else. *)
Definition lower_char (c : Ascii.ascii) : Ascii.ascii :=
  if (Nat.leb 65 (PyStr.code c) && Nat.leb (PyStr.code c) 90)%bool
  then Ascii.ascii_of_nat (PyStr.code c + 32) else c.

Fixpoint lower (s : string) : string :=
  match s with
  | EmptyString => EmptyString
  | String c s' => String (lower_char c) (lower s')
  end.

(** The payload of the autosave tests: quarter 1 of 2024/25. *)
Definition draft_payload (actual : Q) (text : string) : WritePaths.Payload :=
  WritePaths.mkPayload (Some 1) None (Some "MONTHLY"%string)
    (Some "2024-04-01"%string) (Some "2024-06-30"%string)
    (Some "Q1 2024/25"%string) (Some actual) (Some text) WritePaths.EvAbsent
    None None None None None (Some true) None.

Definition programme_manager : WritePaths.User :=
  WritePaths.mkUser 7 (Some (fun _ => true)).

Definition lock_off : option KPASettings :=
  Some (mkSettings (Some (mkQuarterLock (Some false) (Some 14))) None).
Definition lock_on : option KPASettings :=
  Some (mkSettings (Some (mkQuarterLock (Some true) (Some 14))) None).

(** A form POST for May 2024. *)
Definition may_form (actual : Q) : WritePaths.FormRequest :=
  WritePaths.mkFormRequest WritePaths.POST None
    (WritePaths.mkCleaned (Some 1) (Some "MONTHLY"%string)
       (Some (mkdate 2024 5 1)) (Some (mkdate 2024 5 31))
       (Some "May 2024"%string) (Some actual) (Some "progress"%string)
       (Some ["http://a"%string]) (Some "LOW"%string) ""%string ""%string
       None (Some "MEDIUM"%string) true)
    false.

End Sample.

(* ================================================================== *)
(** * Proof automation *)
(* ================================================================== *)

(** Linear arithmetic with floor division and remainder by constants. *)
Ltac divmod := Z.div_mod_to_equations; lia.

(** One case per month of the year. *)
Ltac month_cases m :=
  let H := fresh "Hm" in
  assert (H : m = 1 \/ m = 2 \/ m = 3 \/ m = 4 \/ m = 5 \/ m = 6 \/ m = 7
              \/ m = 8 \/ m = 9 \/ m = 10 \/ m = 11 \/ m = 12) by lia;
  repeat (destruct H as [H | H]; [subst m | ]); [ .. | subst m].

(* ================================================================== *)
(** * Calendar facts *)
(* ================================================================== *)

Module CalendarFacts.

(** ** The order of dates *)

Lemma date_ltb_antisym (a b : date) :
  date_ltb a b = false -> date_ltb b a = false -> a = b.
Proof.
  unfold date_ltb. destruct a as [ya ma da], b as [yb mb db]; cbn.
  rewrite !orb_false_iff, !andb_false_iff, !orb_false_iff, !andb_false_iff.
  rewrite !Z.ltb_ge, !Z.eqb_neq. intros H1 H2.
  assert (ya = yb) by lia. assert (ma = mb) by lia. assert (da = db) by lia.
  congruence.
Qed.

Lemma date_ltb_asym (a b : date) :
  date_ltb a b = true -> date_ltb b a = false.
Proof.
  unfold date_ltb.
  rewrite orb_true_iff, andb_true_iff, orb_true_iff, andb_true_iff.
  rewrite orb_false_iff, andb_false_iff, orb_false_iff, andb_false_iff.
  rewrite !Z.ltb_lt, !Z.eqb_eq, !Z.ltb_ge, !Z.eqb_neq. lia.
Qed.

(** [min] on dates does not depend on the order of its arguments. *)
Lemma date_min_comm (a b : date) : date_min a b = date_min b a.
Proof.
  unfold date_min.
  destruct (date_ltb b a) eqn:E1, (date_ltb a b) eqn:E2; try reflexivity.
  - apply date_ltb_asym in E1. congruence.
  - symmetry. now apply date_ltb_antisym.
Qed.

Lemma date_leb_trans (a b c : date) :
  date_leb a b = true -> date_leb b c = true -> date_leb a c = true.
Proof.
  unfold date_leb, date_ltb. rewrite !negb_true_iff.
  rewrite !orb_false_iff, !andb_false_iff, !orb_false_iff, !andb_false_iff.
  rewrite !Z.ltb_ge, !Z.eqb_neq. lia.
Qed.

Lemma date_leb_total (a b : date) :
  date_ltb a b = false -> date_leb b a = true.
Proof. unfold date_leb. intros ->. reflexivity. Qed.

Lemma date_ltb_leb (a b : date) :
  date_ltb a b = true -> date_leb a b = true.
Proof.
  intros H. unfold date_leb. now rewrite (date_ltb_asym _ _ H).
Qed.

Lemma date_lt_le_trans (a b c : date) :
  date_ltb a b = true -> date_leb b c = true -> date_ltb a c = true.
Proof.
  unfold date_leb. rewrite negb_true_iff. unfold date_ltb.
  rewrite !orb_true_iff, !andb_true_iff, !orb_true_iff, !andb_true_iff.
  rewrite !orb_false_iff, !andb_false_iff, !orb_false_iff, !andb_false_iff.
  rewrite !Z.ltb_lt, !Z.eqb_eq, !Z.ltb_ge, !Z.eqb_neq. lia.
Qed.

(** ** Valid dates and their ordinals *)

Lemma valid_dateb_spec (d : date) : valid_dateb d = true <-> valid_date d.
Proof.
  unfold valid_dateb, valid_date.
  rewrite !andb_true_iff, !Z.leb_le. tauto.
Qed.

Lemma days_in_month_pos (y m : Z) : 1 <= m <= 12 -> 28 <= days_in_month y m <= 31.
Proof.
  intros Hm. month_cases m; cbn; try lia; destruct (isleap y); lia.
Qed.

Lemma days_before_year_succ (y : Z) :
  days_before_year (y + 1)
  = days_before_year y + 365 + (if isleap y then 1 else 0).
Proof.
  unfold days_before_year, isleap.
  replace (y + 1 - 1) with y by lia.
  destruct (Z.eqb_spec (y mod 4) 0), (Z.eqb_spec (y mod 100) 0),
    (Z.eqb_spec (y mod 400) 0); cbn; divmod.
Qed.

Lemma days_before_year_mono (y1 y2 : Z) :
  y1 < y2 -> days_before_year (y1 + 1) <= days_before_year y2.
Proof.
  unfold days_before_year. intros H.
  replace (y1 + 1 - 1) with y1 by lia. divmod.
Qed.

Lemma days_before_month_succ (y m : Z) :
  1 <= m <= 11 ->
  days_before_month y (m + 1) = days_before_month y m + days_in_month y m.
Proof.
  intros Hm. unfold days_before_month.
  month_cases m; try lia; cbn; destruct (isleap y); cbn; lia.
Qed.

Lemma days_before_month_mono (y m1 m2 : Z) :
  1 <= m1 -> m1 < m2 -> m2 <= 12 ->
  days_before_month y m1 + days_in_month y m1 <= days_before_month y m2.
Proof.
  intros H1 H2 H3. unfold days_before_month.
  month_cases m1; try lia; month_cases m2; try lia;
    cbn; destruct (isleap y); cbn; lia.
Qed.

Lemma days_in_year (y : Z) :
  days_before_month y 12 + 31 = 365 + (if isleap y then 1 else 0).
Proof. unfold days_before_month; cbn. destruct (isleap y); lia. Qed.

Lemma days_before_month_jan (y : Z) : days_before_month y 1 = 0.
Proof. reflexivity. Qed.

Lemma days_in_month_dec (y : Z) : days_in_month y 12 = 31.
Proof. reflexivity. Qed.

Lemma days_before_month_nonneg (y m : Z) :
  1 <= m <= 12 -> 0 <= days_before_month y m.
Proof.
  intros Hm. unfold days_before_month.
  month_cases m; try lia; cbn; destruct (isleap y); lia.
Qed.

(** The ordinal of a valid date lies within its year. *)
Lemma toordinal_bounds (d : date) :
  valid_date d ->
  days_before_year (year d) < toordinal d <= days_before_year (year d + 1).
Proof.
  intros [Hm Hd]. unfold toordinal. rewrite days_before_year_succ.
  pose proof (days_before_month_nonneg (year d) (month d) Hm) as Hb.
  assert (Hu : days_before_month (year d) (month d)
               + days_in_month (year d) (month d)
               <= days_before_month (year d) 12 + 31).
  { destruct (Z.eq_dec (month d) 12) as [-> | Hne]; [cbn; lia | ].
    pose proof (days_before_month_mono (year d) (month d) 12). lia. }
  rewrite days_in_year in Hu. lia.
Qed.

(** Dates compare as their ordinals do. *)
Lemma date_ltb_toordinal (a b : date) :
  valid_date a -> valid_date b ->
  (date_ltb a b = true <-> toordinal a < toordinal b).
Proof.
  intros Ha Hb.
  pose proof (toordinal_bounds a Ha) as Ba.
  pose proof (toordinal_bounds b Hb) as Bb.
  destruct Ha as [Hma Hda], Hb as [Hmb Hdb].
  unfold date_ltb.
  rewrite orb_true_iff, andb_true_iff, orb_true_iff, andb_true_iff.
  rewrite !Z.ltb_lt, !Z.eqb_eq.
  destruct (Z.lt_trichotomy (year a) (year b)) as [Hy | [Hy | Hy]].
  - pose proof (days_before_year_mono _ _ Hy). lia.
  - destruct (Z.lt_trichotomy (month a) (month b)) as [Hm | [Hm | Hm]].
    + pose proof (days_before_month_mono (year a) (month a) (month b)).
      unfold toordinal. rewrite <- Hy. lia.
    + unfold toordinal. rewrite <- Hy, <- Hm. lia.
    + pose proof (days_before_month_mono (year b) (month b) (month a)).
      unfold toordinal. rewrite Hy in *. lia.
  - pose proof (days_before_year_mono _ _ Hy). lia.
Qed.

Lemma date_ltb_false_toordinal (a b : date) :
  valid_date a -> valid_date b ->
  (date_ltb a b = false <-> toordinal b <= toordinal a).
Proof.
  intros Ha Hb. pose proof (date_ltb_toordinal a b Ha Hb).
  destruct (date_ltb a b); split; intros Hx; try reflexivity;
    try discriminate; destruct H as [H1 H2].
  - specialize (H1 eq_refl). lia.
  - destruct (Z.lt_ge_cases (toordinal a) (toordinal b)) as [Hl | Hl];
      [specialize (H2 Hl); discriminate | lia].
Qed.

Lemma next_day_spec (d : date) :
  valid_date d ->
  valid_date (next_day d) /\ toordinal (next_day d) = toordinal d + 1.
Proof.
  intros [Hm Hd]. unfold next_day.
  destruct (Z.ltb_spec (day d) (days_in_month (year d) (month d))).
  - split; [split; cbn; lia | unfold toordinal; cbn; lia].
  - destruct (Z.ltb_spec (month d) 12).
    + split.
      * pose proof (days_in_month_pos (year d) (month d + 1)).
        split; cbn; lia.
      * unfold toordinal; cbn.
        rewrite days_before_month_succ by lia. lia.
    + assert (month d = 12) as E by lia.
      split; [split; cbn; lia | ].
      unfold toordinal; cbn [year month day].
      rewrite days_before_year_succ, days_before_month_jan.
      pose proof (days_in_year (year d)). rewrite E in *.
      rewrite days_in_month_dec in *. lia.
Qed.

Lemma prev_day_spec (d : date) :
  valid_date d ->
  valid_date (prev_day d) /\ toordinal (prev_day d) = toordinal d - 1.
Proof.
  intros [Hm Hd]. unfold prev_day.
  destruct (Z.ltb_spec 1 (day d)).
  - split; [split; cbn; lia | unfold toordinal; cbn; lia].
  - destruct (Z.ltb_spec 1 (month d)).
    + pose proof (days_in_month_pos (year d) (month d - 1)).
      split; [split; cbn; lia | ].
      unfold toordinal; cbn [year month day].
      pose proof (days_before_month_succ (year d) (month d - 1)).
      replace (month d - 1 + 1) with (month d) in * by lia. lia.
    + assert (month d = 1) as E by lia.
      split; [split; cbn; lia | ].
      unfold toordinal; cbn [year month day].
      pose proof (days_before_year_succ (year d - 1)) as Hs.
      replace (year d - 1 + 1) with (year d) in Hs by lia.
      pose proof (days_in_year (year d - 1)). rewrite E.
      rewrite days_before_month_jan. lia.
Qed.

Lemma iter_next_day (p : positive) (d : date) :
  valid_date d ->
  valid_date (Pos.iter next_day d p)
  /\ toordinal (Pos.iter next_day d p) = toordinal d + Z.pos p.
Proof.
  intros Hd. induction p as [ | p [IHv IHo]] using Pos.peano_ind.
  - cbn. destruct (next_day_spec _ Hd). split; [assumption | lia].
  - rewrite Pos.iter_succ.
    destruct (next_day_spec _ IHv) as [Hv Ho]. split; [assumption | lia].
Qed.

Lemma iter_prev_day (p : positive) (d : date) :
  valid_date d ->
  valid_date (Pos.iter prev_day d p)
  /\ toordinal (Pos.iter prev_day d p) = toordinal d - Z.pos p.
Proof.
  intros Hd. induction p as [ | p [IHv IHo]] using Pos.peano_ind.
  - cbn. destruct (prev_day_spec _ Hd). split; [assumption | lia].
  - rewrite Pos.iter_succ.
    destruct (prev_day_spec _ IHv) as [Hv Ho]. split; [assumption | lia].
Qed.

(** [d + timedelta(days=n)] is the date [n] days away. *)
Lemma add_days_spec (d : date) (n : Z) :
  valid_date d ->
  valid_date (add_days d n) /\ toordinal (add_days d n) = toordinal d + n.
Proof.
  intros Hd. destruct n as [ | p | p]; cbn [add_days].
  - split; [assumption | lia].
  - apply iter_next_day; assumption.
  - destruct (iter_prev_day p d Hd). split; [assumption | lia].
Qed.

End CalendarFacts.

(* ================================================================== *)
(** * [relativedelta] facts *)
(* ================================================================== *)

Module RelativeDeltaFacts.
Import CalendarFacts.

Lemma normalize_months_spec (k : Z) :
  forall y m, normalize_months 0 k = (y, m) ->
  y * 12 + m = k /\ -11 <= m <= 11
  /\ (0 <= k -> 0 <= y /\ 0 <= m) /\ (k <= 0 -> y <= 0 /\ m <= 0).
Proof.
  intros y m. unfold normalize_months.
  destruct (Z.ltb_spec 11 (Z.abs k)) as [Hbig | Hsmall].
  - destruct k as [ | p | p]; cbn [Z.sgn]; intros [= <- <-].
    + cbn in Hbig. lia.
    + rewrite !Z.mul_1_r. divmod.
    + replace (Z.neg p * -1) with (Z.pos p) by lia. divmod.
  - intros [= <- <-]. lia.
Qed.

Lemma add_days_0 (d : date) : add_days d 0 = d.
Proof. reflexivity. Qed.

(** Adding months moves the month index by that many and clamps the day. *)
Lemma add_months_spec (d : date) (k : Z) :
  valid_date d ->
  valid_date (add_months d k)
  /\ month_index (add_months d k) = month_index d + k
  /\ day (add_months d k)
     = Z.min (days_in_month (year (add_months d k)) (month (add_months d k)))
             (day d).
Proof.
  intros [Hm Hd]. unfold add_months, rd_make.
  destruct (normalize_months 0 k) as [y m] eqn:E.
  apply normalize_months_spec in E. destruct E as (Ek & Hb & _).
  unfold rd_add. cbn [rd_years rd_months rd_days].
  assert (Hgen : forall y1 m1, 1 <= m1 <= 12 ->
            y1 * 12 + m1 - 1 = month_index d + k ->
            valid_date (mkdate y1 m1 (Z.min (days_in_month y1 m1) (day d)))
            /\ month_index (mkdate y1 m1 (Z.min (days_in_month y1 m1) (day d)))
               = month_index d + k
            /\ day (mkdate y1 m1 (Z.min (days_in_month y1 m1) (day d)))
               = Z.min (days_in_month y1 m1) (day d)).
  { intros y1 m1 H1 H2. pose proof (days_in_month_pos y1 m1 H1).
    unfold valid_date, month_index in *. cbn [year month day]. lia. }
  unfold month_index in Hgen.
  destruct (Z.eqb_spec m 0) as [-> | Hne].
  - cbv beta iota zeta delta [add_days].
    apply (Hgen (year d + y) (month d)); lia.
  - destruct (Z.ltb_spec 12 (month d + m));
      [cbv beta iota zeta delta [add_days];
       apply (Hgen (year d + y + 1) (month d + m - 12)); lia | ].
    destruct (Z.ltb_spec (month d + m) 1);
      cbv beta iota zeta delta [add_days];
      [apply (Hgen (year d + y - 1) (month d + m + 12))
      | apply (Hgen (year d + y) (month d + m))]; lia.
Qed.

Lemma add_months_0 (d : date) : valid_date d -> add_months d 0 = d.
Proof.
  intros [Hm Hd]. unfold add_months, rd_make, rd_add; cbn.
  rewrite Z.add_0_r. destruct d as [y m dd]; cbn in *.
  f_equal. lia.
Qed.

(** Dates compare by month index first, by day second. *)
Lemma date_ltb_month_index (a b : date) :
  1 <= month a <= 12 -> 1 <= month b <= 12 ->
  (date_ltb a b = true
   <-> month_index a < month_index b
       \/ (month_index a = month_index b /\ day a < day b)).
Proof.
  intros Ha Hb. unfold date_ltb, month_index.
  rewrite orb_true_iff, andb_true_iff, orb_true_iff, andb_true_iff.
  rewrite !Z.ltb_lt, !Z.eqb_eq. lia.
Qed.

Lemma date_ltb_irrefl (a : date) : date_ltb a a = false.
Proof.
  unfold date_ltb. rewrite !Z.ltb_irrefl, !andb_false_r. reflexivity.
Qed.

(** Month steps from one date are strictly increasing. *)
Lemma add_months_lt (d : date) (j k : Z) :
  valid_date d -> j < k ->
  date_ltb (add_months d j) (add_months d k) = true.
Proof.
  intros Hd Hjk.
  destruct (add_months_spec d j Hd) as ([Hmj _] & Hij & _).
  destruct (add_months_spec d k Hd) as ([Hmk _] & Hik & _).
  apply date_ltb_month_index; try assumption. lia.
Qed.

Lemma rd_adjust_unfold (fuel : nat) (dt1 dt2 : date) (bw : bool) (k : Z) :
  rd_adjust (S fuel) dt1 dt2 bw k
  = if (if bw then date_gtb dt1 (add_months dt2 k)
        else date_ltb dt1 (add_months dt2 k))
    then rd_adjust fuel dt1 dt2 bw (k + (if bw then 1 else -1))
    else k.
Proof.
  unfold add_months, rd_make. cbn [rd_adjust].
  destruct (normalize_months 0 k); reflexivity.
Qed.

(** The month count of [relativedelta(dt1, dt2)], for [dt2 <= dt1]: the
    loop runs at most once and exits on its own condition. *)
Lemma rd_adjust_forward (fuel : nat) (dt1 dt2 : date) :
  valid_date dt1 -> valid_date dt2 -> date_ltb dt1 dt2 = false ->
  let k := rd_adjust (S (S fuel)) dt1 dt2 false
             (month_index dt1 - month_index dt2) in
  0 <= k
  /\ date_ltb dt1 (add_months dt2 k) = false
  /\ date_ltb dt1 (add_months dt2 (k + 1)) = true.
Proof.
  intros H1 H2 Hle. set (k0 := month_index dt1 - month_index dt2).
  destruct (add_months_spec dt2 k0 H2) as ([Hm0 Hd0] & Hi0 & Hday0).
  destruct (add_months_spec dt2 (k0 - 1) H2) as ([Hm1 Hd1] & Hi1 & Hday1).
  destruct (add_months_spec dt2 (k0 + 1) H2) as ([Hm2 Hd2] & Hi2 & Hday2).
  pose proof (date_ltb_month_index dt1 dt2 (proj1 H1) (proj1 H2)) as Hcmp.
  pose proof (proj1 H1) as Hmdt1.
  assert (Hk0 : 0 <= k0).
  { unfold k0. destruct (Z.lt_ge_cases (month_index dt1) (month_index dt2));
      [ | lia].
    assert (date_ltb dt1 dt2 = true) by (apply Hcmp; lia). congruence. }
  cbv zeta. rewrite rd_adjust_unfold.
  destruct (date_ltb dt1 (add_months dt2 k0)) eqn:Elt.
  - rewrite rd_adjust_unfold.
    replace (k0 + -1) with (k0 - 1) by lia.
    assert (E1 : date_ltb dt1 (add_months dt2 (k0 - 1)) = false).
    { destruct (date_ltb dt1 (add_months dt2 (k0 - 1))) eqn:E; [ | reflexivity].
      apply date_ltb_month_index in E; try assumption. unfold k0 in *. lia. }
    rewrite E1. replace (k0 - 1 + 1) with k0 by lia.
    repeat split; try assumption.
    destruct (Z.eq_dec k0 0) as [Ez | Hnz]; [ | lia].
    rewrite Ez, add_months_0 in Elt by assumption. congruence.
  - repeat split; try assumption.
    apply date_ltb_month_index; try assumption. unfold k0 in *. lia.
Qed.

(** [relativedelta(dt1, dt2)] in whole months. *)
Lemma rd_between_months (dt1 dt2 : date) :
  rd_years (rd_between dt1 dt2) * 12 + rd_months (rd_between dt1 dt2)
  = rd_adjust 24 dt1 dt2 (date_ltb dt1 dt2)
      (month_index dt1 - month_index dt2).
Proof.
  unfold rd_between.
  replace ((year dt1 - year dt2) * 12 + (month dt1 - month dt2))
    with (month_index dt1 - month_index dt2) by (unfold month_index; lia).
  destruct (normalize_months 0 _) as [y m] eqn:E.
  apply normalize_months_spec in E. cbn [rd_years rd_months]. lia.
Qed.

(** The loop of [relativedelta(dt1, dt2)] leaves on its own condition,
    after one turn at most, in either direction. *)
Lemma rd_between_loop_exits (dt1 dt2 : date) :
  valid_date dt1 -> valid_date dt2 ->
  let backwards := date_ltb dt1 dt2 in
  let k := rd_adjust 24 dt1 dt2 backwards
             (month_index dt1 - month_index dt2) in
  (if backwards then date_gtb dt1 (add_months dt2 k)
   else date_ltb dt1 (add_months dt2 k)) = false.
Proof.
  intros H1 H2. cbv zeta.
  destruct (date_ltb dt1 dt2) eqn:Hlt.
  - set (k0 := month_index dt1 - month_index dt2).
    destruct (add_months_spec dt2 k0 H2) as ([Hm0 _] & Hi0 & _).
    destruct (add_months_spec dt2 (k0 + 1) H2) as ([Hm1 _] & Hi1 & _).
    pose proof (proj1 H1) as Hmdt1.
    rewrite rd_adjust_unfold.
    destruct (date_gtb dt1 (add_months dt2 k0)) eqn:E0; [ | exact E0].
    rewrite rd_adjust_unfold.
    assert (E1 : date_gtb dt1 (add_months dt2 (k0 + 1)) = false).
    { unfold date_gtb.
      destruct (date_ltb (add_months dt2 (k0 + 1)) dt1) eqn:E; [ | reflexivity].
      apply date_ltb_month_index in E; try assumption. unfold k0 in *. lia. }
    rewrite E1. exact E1.
  - now destruct (rd_adjust_forward 22 dt1 dt2 H1 H2 Hlt) as (_ & Hexit & _).
Qed.

End RelativeDeltaFacts.

(* ================================================================== *)
(** * The calendar engine: elapsed months, quarters and the quarter lock *)
(* ================================================================== *)

Module CalendarEngine.
Import CalendarFacts RelativeDeltaFacts UtilsTime.

(** The two copies of the month count agree. *)
Lemma months_elapsed_same (fy : FinancialYear) (as_of : date) :
  Views.months_elapsed fy as_of
  = months_elapsed_in_fy (start_date fy) (end_date fy) as_of.
Proof. reflexivity. Qed.

Lemma months_elapsed_before (start end_ as_of : date) :
  date_ltb as_of start = true -> months_elapsed_in_fy start end_ as_of = 0.
Proof. intros H. unfold months_elapsed_in_fy. rewrite H. reflexivity. Qed.

Lemma clamped_valid (start end_ as_of : date) :
  valid_date start -> valid_date end_ -> valid_date as_of ->
  date_leb start end_ = true -> date_ltb as_of start = false ->
  valid_date (Spec.clamped end_ as_of)
  /\ date_ltb (Spec.clamped end_ as_of) start = false.
Proof.
  intros Hs He Ha Hse Has. unfold Spec.clamped, date_gtb, date_leb in *.
  destruct (date_ltb end_ as_of); split; try assumption.
  now apply negb_true_iff in Hse.
Qed.

(** From the start of the year on, the clamped date lies in the month the
    count names. *)
Lemma months_elapsed_in_fy_ordinal (start end_ as_of : date) :
  valid_date start -> valid_date end_ -> valid_date as_of ->
  date_leb start end_ = true -> date_ltb as_of start = false ->
  1 <= months_elapsed_in_fy start end_ as_of
  /\ Spec.in_fy_month start (months_elapsed_in_fy start end_ as_of)
       (Spec.clamped end_ as_of).
Proof.
  intros Hs He Ha Hse Has.
  destruct (clamped_valid start end_ as_of Hs He Ha Hse Has) as [Hc Hcs].
  unfold months_elapsed_in_fy. rewrite Has. fold (Spec.clamped end_ as_of).
  rewrite rd_between_months, Hcs.
  destruct (rd_adjust_forward 22 (Spec.clamped end_ as_of) start Hc Hs Hcs)
    as (Hk & Hlo & Hhi).
  cbv zeta in *. set (k := rd_adjust 24 _ _ _ _) in *.
  split; [lia | ]. unfold Spec.in_fy_month, date_leb.
  replace (k + 1 - 1) with k by lia. rewrite Hlo. split; [reflexivity | exact Hhi].
Qed.

(** A date lies in one month of the year only. *)
Lemma in_fy_month_unique (start d : date) (n n' : Z) :
  valid_date start ->
  Spec.in_fy_month start n d -> Spec.in_fy_month start n' d -> n = n'.
Proof.
  intros Hs [Hlo Hhi] [Hlo' Hhi'].
  assert (Hgen : forall j k, j < k ->
            date_leb (add_months start (k - 1)) d = true ->
            date_ltb d (add_months start j) = true -> False).
  { intros j k Hjk Hle Hlt.
    assert (Hmono : date_leb (add_months start j) (add_months start (k - 1))
                    = true).
    { destruct (Z.eq_dec j (k - 1)) as [-> | Hne].
      - unfold date_leb. now rewrite date_ltb_irrefl.
      - apply date_ltb_leb. apply add_months_lt; [assumption | lia]. }
    pose proof (date_lt_le_trans _ _ _ Hlt Hmono) as H1.
    pose proof (date_lt_le_trans _ _ _ H1 Hle) as H2.
    rewrite date_ltb_irrefl in H2. discriminate. }
  destruct (Z.lt_trichotomy n n') as [H | [H | H]]; [ | exact H | ];
    exfalso; eauto.
Qed.

Lemma rd_add_3_months_less_a_day (d : date) :
  rd_add d (rd_make 3 (-1)) = add_days (add_months d 3) (-1).
Proof.
  unfold add_months, rd_add, rd_make; cbn.
  destruct (12 <? month d + 3); [reflexivity | ].
  destruct (month d + 3 <? 1); reflexivity.
Qed.

(** The code's quarter end is the specification's, at the index the code
    computes. *)
Lemma quarter_end_for_index (fy : FinancialYear) (as_of : date) :
  let m := months_elapsed_in_fy (start_date fy) (end_date fy) as_of in
  quarter_end_for fy as_of
  = Spec.quarter_end fy (if m <=? 0 then 1 else Z.min 4 ((m + 2) / 3)).
Proof.
  cbv zeta. unfold quarter_end_for, Spec.quarter_end, date_gtb.
  rewrite rd_add_3_months_less_a_day. unfold add_months at 2 4.
  replace (3 * ((if _ <=? 0 then 1 else Z.min 4 _) - 1))
    with (((if months_elapsed_in_fy (start_date fy) (end_date fy) as_of <=? 0
            then 1
            else Z.min 4 ((months_elapsed_in_fy (start_date fy) (end_date fy)
                             as_of + 2) / 3)) - 1) * 3) by lia.
  reflexivity.
Qed.

Lemma quarter_end_valid (fy : FinancialYear) (q : Z) :
  valid_date (start_date fy) -> valid_date (end_date fy) ->
  valid_date (Spec.quarter_end fy q).
Proof.
  intros Hs He. unfold Spec.quarter_end.
  destruct (date_ltb _ _); [assumption | ].
  apply add_days_spec.
  apply add_months_spec. apply add_months_spec. assumption.
Qed.

Lemma quarter_end_for_valid (fy : FinancialYear) (as_of : date) :
  valid_date (start_date fy) -> valid_date (end_date fy) ->
  valid_date (quarter_end_for fy as_of).
Proof.
  intros Hs He. rewrite quarter_end_for_index. now apply quarter_end_valid.
Qed.

Lemma ceil_div_3 (m : Z) : Spec.is_ceil_div m 3 ((m + 2) / 3).
Proof. unfold Spec.is_ceil_div. divmod. Qed.

End CalendarEngine.

Module CalendarClaims.
Import CalendarFacts RelativeDeltaFacts UtilsTime CalendarEngine.

(** C8.  Before the start of the financial year the month count is 0 and
    the quarter end is the end of the first quarter.  From the start on, the
    as-of date is clamped to the end of the year and the count is the
    1-indexed month of the year the clamped date lies in, the start month
    included.  The quarter count is the month count divided by 3 and rounded
    up, at most 4.  In the year 2024-04-01..2025-03-31 the quarter of
    2024-04-15 ends on 2024-06-30. *)
Theorem months_and_quarters_elapsed (fy : FinancialYear) (as_of : date) :
  let m := months_elapsed_in_fy (start_date fy) (end_date fy) as_of in
  Views.months_elapsed fy as_of = m
  /\ (date_ltb as_of (start_date fy) = true ->
      m = 0 /\ quarter_end_for fy as_of = Spec.quarter_end fy 1)
  /\ (valid_date (start_date fy) -> valid_date (end_date fy) ->
      valid_date as_of -> date_leb (start_date fy) (end_date fy) = true ->
      date_ltb as_of (start_date fy) = false ->
      1 <= m
      /\ Spec.in_fy_month (start_date fy) m (Spec.clamped (end_date fy) as_of)
      /\ forall n, Spec.in_fy_month (start_date fy) n
                     (Spec.clamped (end_date fy) as_of) -> n = m)
  /\ (exists c, Spec.is_ceil_div m 3 c
                /\ Views.quarters_elapsed fy as_of = Z.min 4 c)
  /\ quarter_end_for Sample.fy_2024_25 (mkdate 2024 4 15) = mkdate 2024 6 30.
Proof.
  cbv zeta. split; [reflexivity | ]. split; [ | split; [ | split]].
  - intros Hlt. pose proof (months_elapsed_before _ (end_date fy) _ Hlt) as E.
    split; [exact E | ].
    rewrite quarter_end_for_index. cbv zeta. rewrite E. reflexivity.
  - intros Hs He Ha Hse Hge.
    destruct (months_elapsed_in_fy_ordinal _ _ _ Hs He Ha Hse Hge) as [H1 Hin].
    split; [exact H1 | ]. split; [exact Hin | ].
    intros n Hn. now apply (in_fy_month_unique _ _ _ _ Hs Hn Hin).
  - exists ((months_elapsed_in_fy (start_date fy) (end_date fy) as_of + 2) / 3).
    split; [apply ceil_div_3 | reflexivity].
  - vm_compute. reflexivity.
Qed.

Lemma months_and_quarters_elapsed_witness :
  let fy := Sample.fy_2024_25 in
  let as_of := mkdate 2024 11 20 in
  let m := months_elapsed_in_fy (start_date fy) (end_date fy) as_of in
  m = 8
  /\ Views.months_elapsed fy as_of = m
  /\ (1 <= m
      /\ Spec.in_fy_month (start_date fy) m (Spec.clamped (end_date fy) as_of)
      /\ forall n, Spec.in_fy_month (start_date fy) n
                     (Spec.clamped (end_date fy) as_of) -> n = m)
  /\ Views.quarters_elapsed fy as_of = 3.
Proof.
  cbv zeta.
  destruct (months_and_quarters_elapsed Sample.fy_2024_25 (mkdate 2024 11 20))
    as (E & _ & Hord & _ & _).
  split; [reflexivity | ]. split; [exact E | ]. split; [ | reflexivity].
  apply Hord.
  - apply valid_dateb_spec; reflexivity.
  - apply valid_dateb_spec; reflexivity.
  - apply valid_dateb_spec; reflexivity.
  - reflexivity.
  - reflexivity.
Defined.

(** C5.  The lock reads [KPA_SETTINGS['QUARTER_LOCK']]: its [ENABLED] flag
    and its [GRACE_DAYS], the configured number when there is one and 14
    when there is none.  Without settings, without a [QUARTER_LOCK] entry or
    with [ENABLED] absent or false no period is locked, whatever the dates
    and the grace.  With [ENABLED] true a period is locked exactly when
    today is more than [GRACE_DAYS] days after the end of the quarter of
    [period_end]: [k] days after the quarter end it is locked exactly when
    [GRACE_DAYS < k]; for a grace of 14 days, 13 days after the quarter end
    is not locked and 15 days after is. *)
Theorem is_period_locked_policy (settings : option KPASettings)
    (now : date) (fy : FinancialYear) (period_end : date)
    (today : option date) :
  let t := match today with Some t => t | None => now end in
  let q_end := quarter_end_for fy period_end in
  (settings = None ->
   is_period_locked settings now fy period_end today = false)
  /\ (forall months, settings = Some (mkSettings None months) ->
      is_period_locked settings now fy period_end today = false)
  /\ (forall enabled configured months,
      settings = Some (mkSettings (Some (mkQuarterLock enabled configured))
                                  months) ->
      enabled <> Some true ->
      is_period_locked settings now fy period_end today = false)
  /\ (forall configured months,
      settings = Some (mkSettings (Some (mkQuarterLock (Some true) configured))
                                  months) ->
      let grace_days := match configured with Some g => g | None => 14 end in
      valid_date (start_date fy) -> valid_date (end_date fy) ->
      (valid_date t ->
       (is_period_locked settings now fy period_end today = true
        <-> toordinal t > toordinal q_end + grace_days))
      /\ (forall k,
          is_period_locked settings now fy period_end
            (Some (add_days q_end k)) = (grace_days <? k))
      /\ (grace_days = 14 ->
          is_period_locked settings now fy period_end
            (Some (add_days q_end 13)) = false
          /\ is_period_locked settings now fy period_end
               (Some (add_days q_end 15)) = true)).
Proof.
  cbv zeta. split; [ | split; [ | split]].
  - intros ->. reflexivity.
  - intros months ->. reflexivity.
  - intros enabled configured months -> Hen. unfold is_period_locked.
    cbn [quarter_lock_cfg QUARTER_LOCK ENABLED].
    destruct enabled as [[ | ] | ]; [congruence | reflexivity | reflexivity].
  - intros configured months -> Hs He. unfold is_period_locked.
    cbn [quarter_lock_cfg QUARTER_LOCK ENABLED GRACE_DAYS negb].
    set (g := match configured with Some g => g | None => 14 end).
    pose proof (quarter_end_for_valid fy period_end Hs He) as Hq.
    assert (Hgen : forall t, valid_date t ->
              (date_gtb t (add_days (quarter_end_for fy period_end) g) = true
               <-> toordinal t
                   > toordinal (quarter_end_for fy period_end) + g)).
    { intros t Hv.
      destruct (add_days_spec (quarter_end_for fy period_end) g Hq) as [Hv' Ho].
      unfold date_gtb. rewrite date_ltb_toordinal by assumption. lia. }
    assert (Hk : forall k,
              date_gtb (add_days (quarter_end_for fy period_end) k)
                       (add_days (quarter_end_for fy period_end) g)
              = (g <? k)).
    { intros k.
      destruct (add_days_spec (quarter_end_for fy period_end) k Hq) as [Vk Ok].
      pose proof (Hgen _ Vk) as Hiff. rewrite Ok in Hiff.
      destruct (date_gtb _ _); destruct (Z.ltb_spec g k); try reflexivity.
      - destruct Hiff as [Hiff _]. specialize (Hiff eq_refl). lia.
      - destruct Hiff as [_ Hiff]. apply Hiff. lia. }
    split; [ | split].
    + intros Ht. apply Hgen. exact Ht.
    + exact Hk.
    + intros Hg. rewrite !Hk, Hg. split; reflexivity.
Qed.

Lemma is_period_locked_policy_witness :
  let lock := fun g => Some (mkSettings (Some (mkQuarterLock (Some true) g))
                                        None) in
  let fy := Sample.fy_2024_25 in
  let period_end := mkdate 2024 5 31 in
  let q_end := quarter_end_for fy period_end in
  q_end = mkdate 2024 6 30
  /\ (is_period_locked (lock (Some 30)) (mkdate 2024 1 1) fy period_end
        (Some (mkdate 2024 7 15)) = true
      <-> toordinal (mkdate 2024 7 15) > toordinal q_end + 30)
  /\ is_period_locked (lock (Some 30)) (mkdate 2024 1 1) fy period_end
       (Some (mkdate 2024 7 15)) = false
  /\ is_period_locked (lock (Some 30)) (mkdate 2024 1 1) fy period_end
       (Some (add_days q_end 30)) = false
  /\ is_period_locked (lock (Some 30)) (mkdate 2024 1 1) fy period_end
       (Some (add_days q_end 31)) = true
  /\ is_period_locked (lock (Some 3)) (mkdate 2024 1 1) fy period_end
       (Some (add_days q_end 4)) = true
  /\ is_period_locked (lock None) (mkdate 2024 1 1) fy period_end
       (Some (add_days q_end 13)) = false
  /\ is_period_locked (lock None) (mkdate 2024 1 1) fy period_end
       (Some (add_days q_end 15)) = true.
Proof.
  cbv zeta.
  assert (Hv : forall d, valid_dateb d = true -> valid_date d)
    by (intros d; apply valid_dateb_spec).
  destruct (is_period_locked_policy
              (Some (mkSettings (Some (mkQuarterLock (Some true) (Some 30)))
                                None))
              (mkdate 2024 1 1) Sample.fy_2024_25 (mkdate 2024 5 31)
              (Some (mkdate 2024 7 15)))
    as (_ & _ & _ & H30).
  destruct (H30 (Some 30) None eq_refl (Hv (mkdate 2024 4 1) eq_refl)
              (Hv (mkdate 2025 3 31) eq_refl))
    as (Hiff & Hk30 & _).
  destruct (is_period_locked_policy
              (Some (mkSettings (Some (mkQuarterLock (Some true) (Some 3)))
                                None))
              (mkdate 2024 1 1) Sample.fy_2024_25 (mkdate 2024 5 31) None)
    as (_ & _ & _ & H3).
  destruct (H3 (Some 3) None eq_refl (Hv (mkdate 2024 4 1) eq_refl)
              (Hv (mkdate 2025 3 31) eq_refl))
    as (_ & Hk3 & _).
  destruct (is_period_locked_policy
              (Some (mkSettings (Some (mkQuarterLock (Some true) None)) None))
              (mkdate 2024 1 1) Sample.fy_2024_25 (mkdate 2024 5 31) None)
    as (_ & _ & _ & H14).
  destruct (H14 None None eq_refl (Hv (mkdate 2024 4 1) eq_refl)
              (Hv (mkdate 2025 3 31) eq_refl))
    as (_ & _ & Hb).
  destruct (Hb eq_refl) as [H13 H15].
  split; [reflexivity | ]. split; [apply Hiff; apply Hv; reflexivity | ].
  split; [reflexivity | ].
  split; [exact (Hk30 30) | ]. split; [exact (Hk30 31) | ].
  split; [exact (Hk3 4) | ]. split; [exact H13 | exact H15].
Defined.

End CalendarClaims.

(* ================================================================== *)
(** * Year-to-date targets, percentages and RAG buckets *)
(* ================================================================== *)

Module RatioFacts.
Import CalendarFacts.

Lemma is_zero_iff (x : Q) : Dec.is_zero x = true <-> (x == 0)%Q.
Proof. unfold Dec.is_zero. apply Qeq_bool_iff. Qed.

Lemma geb_iff (x y : Q) : Dec.geb x y = true <-> (y <= x)%Q.
Proof. unfold Dec.geb. apply Qle_bool_iff. Qed.

Lemma geb_false_iff (x y : Q) : Dec.geb x y = false <-> (x < y)%Q.
Proof.
  unfold Dec.geb. rewrite <- not_true_iff_false, Qle_bool_iff.
  split; [apply Qnot_le_lt | apply Qlt_not_le].
Qed.

Lemma div_nonzero (x y : Q) :
  Dec.is_zero y = false -> Dec.div x y = Dec.Ok (x / y)%Q.
Proof. intros H. unfold Dec.div. rewrite H. reflexivity. Qed.

Lemma div_const (x : Q) (p : positive) :
  Dec.div x (Z.pos p # 1) = Dec.Ok (x / (Z.pos p # 1))%Q.
Proof. apply div_nonzero. reflexivity. Qed.

Lemma ofZ_is_zero (z : Z) : Dec.is_zero (Dec.ofZ z) = (z =? 0).
Proof.
  unfold Dec.is_zero, Dec.ofZ, inject_Z, Qeq_bool. cbn.
  rewrite Z.mul_1_r. reflexivity.
Qed.

End RatioFacts.

(* ================================================================== *)
(** * Rounding to 28 digits: error, sign and exact cases *)
(* ================================================================== *)

Module DecimalFacts.
Import Decimal.

Lemma digits_fuel_spec (fuel : nat) :
  forall n, 1 <= n < 2 ^ (Z.of_nat fuel + 1) ->
  1 <= digits_fuel fuel n
  /\ 10 ^ (digits_fuel fuel n - 1) <= n < 10 ^ digits_fuel fuel n.
Proof.
  induction fuel as [ | fuel IH]; intros n Hn.
  - cbn in *. lia.
  - cbn [digits_fuel]. destruct (Z.ltb_spec n 10) as [H10 | H10].
    + cbn. lia.
    + assert (Hq : 1 <= n / 10 < 2 ^ (Z.of_nat fuel + 1)).
      { replace (Z.of_nat (S fuel) + 1) with (Z.succ (Z.of_nat fuel + 1))
          in Hn by lia.
        rewrite Z.pow_succ_r in Hn by lia.
        pose proof (Z.div_mod n 10). pose proof (Z.mod_pos_bound n 10).
        lia. }
      destruct (IH _ Hq) as (H1 & Hlo & Hhi).
      split; [lia | ].
      replace (1 + digits_fuel fuel (n / 10) - 1)
        with (Z.succ (digits_fuel fuel (n / 10) - 1)) by lia.
      replace (1 + digits_fuel fuel (n / 10))
        with (Z.succ (digits_fuel fuel (n / 10))) by lia.
      rewrite !Z.pow_succ_r by lia.
      pose proof (Z.div_mod n 10). pose proof (Z.mod_pos_bound n 10).
      lia.
Qed.

Lemma digits_spec (n : Z) :
  1 <= n -> 1 <= digits n /\ 10 ^ (digits n - 1) <= n < 10 ^ digits n.
Proof.
  intros Hn. apply digits_fuel_spec.
  destruct (Z.log2_spec n) as [_ Hhi]; [lia | ].
  pose proof (Z.log2_nonneg n).
  rewrite Z2Nat.id by assumption.
  replace (Z.log2 n + 1) with (Z.succ (Z.log2 n)) by lia. lia.
Qed.

Lemma ten_pow_pos (k : Z) : (0 < 10 ^ k)%Q.
Proof. apply Qpower_0_lt. reflexivity. Qed.

Lemma ten_not_zero : ~ (10 == 0)%Q.
Proof. discriminate. Qed.

Lemma ten_pow_of_Z (k : Z) : 0 <= k -> (inject_Z (10 ^ k) == 10 ^ k)%Q.
Proof. intros Hk. apply (Zpower_Qpower 10 k Hk). Qed.

Lemma ten_pow_succ (k : Z) : (10 ^ (k + 1) == 10 ^ k * 10)%Q.
Proof. rewrite Qpower_plus by exact ten_not_zero. reflexivity. Qed.

(** [adjusted x] is the exponent of the leading digit. *)
Lemma adjusted_spec (x : Q) :
  ~ (x == 0)%Q ->
  (10 ^ adjusted x <= Qabs x)%Q /\ (Qabs x < 10 ^ (adjusted x + 1))%Q.
Proof.
  intros Hx. destruct x as [n d]. unfold adjusted. cbn [Qnum Qden].
  assert (Hn : 1 <= Z.abs n).
  { assert (n <> 0); [ | lia]. intros ->. apply Hx. reflexivity. }
  destruct (digits_spec (Z.abs n) Hn) as (Ha1 & Halo & Hahi).
  destruct (digits_spec (Z.pos d)) as (Hd1 & Hdlo & Hdhi); [lia | ].
  set (da := digits (Z.abs n)) in *. set (dd := digits (Z.pos d)) in *.
  assert (Eabs : (Qabs (n # d) == inject_Z (Z.abs n) / inject_Z (Z.pos d))%Q).
  { cbn [Qabs]. apply Qmake_Qdiv. }
  assert (Hdpos : (0 < inject_Z (Z.pos d))%Q).
  { rewrite <- (Zlt_Qlt 0). lia. }
  assert (Qalo : (10 ^ (da - 1) <= inject_Z (Z.abs n))%Q).
  { rewrite <- ten_pow_of_Z by lia. rewrite <- Zle_Qle. exact Halo. }
  assert (Qahi : (inject_Z (Z.abs n) < 10 ^ da)%Q).
  { rewrite <- ten_pow_of_Z by lia. rewrite <- Zlt_Qlt. apply Hahi. }
  assert (Qdlo : (10 ^ (dd - 1) <= inject_Z (Z.pos d))%Q).
  { rewrite <- ten_pow_of_Z by lia. rewrite <- Zle_Qle. exact Hdlo. }
  assert (Qdhi : (inject_Z (Z.pos d) < 10 ^ dd)%Q).
  { rewrite <- ten_pow_of_Z by lia. rewrite <- Zlt_Qlt. apply Hdhi. }
  destruct (Qle_bool (10 ^ (da - dd)) (Qabs (n # d))) eqn:T.
  - apply Qle_bool_iff in T. split; [exact T | ].
    rewrite Eabs. apply Qlt_shift_div_r; [exact Hdpos | ].
    (* a < 10^da = 10^(da-dd+1) * 10^(dd-1) <= 10^(da-dd+1) * d *)
    apply Qlt_le_trans with (10 ^ da)%Q; [exact Qahi | ].
    assert (E : (10 ^ da == 10 ^ (da - dd + 1) * 10 ^ (dd - 1))%Q).
    { rewrite <- Qpower_plus by exact ten_not_zero.
      replace (da - dd + 1 + (dd - 1)) with da by lia. reflexivity. }
    rewrite E. apply Qmult_le_l; [apply ten_pow_pos | exact Qdlo].
  - assert (T' : (Qabs (n # d) < 10 ^ (da - dd))%Q).
    { apply Qnot_le_lt. intros H. apply Qle_bool_iff in H. congruence. }
    split.
    + rewrite Eabs. apply Qle_shift_div_l; [exact Hdpos | ].
      apply Qle_trans with (10 ^ (da - 1))%Q; [ | exact Qalo].
      assert (E : (10 ^ (da - 1) == 10 ^ (da - dd - 1) * 10 ^ dd)%Q).
      { rewrite <- Qpower_plus by exact ten_not_zero.
        replace (da - dd - 1 + dd) with (da - 1) by lia. reflexivity. }
      rewrite E. apply Qmult_le_l; [apply ten_pow_pos | ].
      apply Qlt_le_weak. exact Qdhi.
    + replace (da - dd - 1 + 1) with (da - dd) by lia. exact T'.
Qed.

(** Rounding to the nearest integer is off by a half at most. *)
Lemma round_half_even_error (s : Q) :
  (Qabs (inject_Z (Dashboard.round_half_even s) - s) <= 1 # 2)%Q.
Proof.
  unfold Dashboard.round_half_even.
  assert (Ef : Qnum s / Z.pos (Qden s) = Qfloor s)
    by (destruct s; reflexivity).
  rewrite Ef. cbv zeta.
  pose proof (Qfloor_le s) as Hlo. pose proof (Qlt_floor s) as Hhi.
  rewrite inject_Z_plus in Hhi. change (inject_Z 1) with 1%Q in Hhi.
  set (f := Qfloor s) in *.
  apply Qabs_Qle_condition.
  destruct (Qle_bool (s - inject_Z f) (1 # 2)) eqn:A.
  - apply Qle_bool_iff in A.
    destruct (Qle_bool (1 # 2) (s - inject_Z f)) eqn:B.
    + apply Qle_bool_iff in B.
      destruct (Z.even f);
        [ | rewrite inject_Z_plus; change (inject_Z 1) with 1%Q]; split; lra.
    + split; lra.
  - assert (A' : (1 # 2 < s - inject_Z f)%Q).
    { apply Qnot_le_lt. intros H. apply Qle_bool_iff in H. congruence. }
    rewrite inject_Z_plus. change (inject_Z 1) with 1%Q. split; lra.
Qed.

(** The relative error of one rounding: half a unit of the 28th digit. *)
Lemma round_error (x : Q) :
  (Qabs (round x - x) <= half_ulp * Qabs x)%Q.
Proof.
  unfold round. destruct (Dec.is_zero x) eqn:Z0.
  { assert (E : (x - x == 0)%Q) by ring. rewrite E. cbn [Qabs Z.abs Qnum Qden].
    apply Qmult_le_0_compat; [discriminate | apply Qabs_nonneg]. }
  assert (Hx : ~ (x == 0)%Q).
  { intros H. apply Qeq_bool_iff in H. unfold Dec.is_zero in Z0. congruence. }
  destruct (adjusted_spec x Hx) as [Hlo _].
  cbv zeta. set (q := prec - 1 - adjusted x).
  pose proof (round_half_even_error (x * 10 ^ q)) as Herr.
  set (r := inject_Z (Dashboard.round_half_even (x * 10 ^ q))) in *.
  assert (Einv : (10 ^ q * 10 ^ (- q) == 1)%Q).
  { rewrite <- Qpower_plus by exact ten_not_zero.
    replace (q + - q) with 0 by lia. reflexivity. }
  assert (E : (r * 10 ^ (- q) - x == (r - x * 10 ^ q) * 10 ^ (- q))%Q).
  { transitivity (r * 10 ^ (- q) - x * (10 ^ q * 10 ^ (- q)))%Q;
      [rewrite Einv; ring | ring]. }
  rewrite E, Qabs_Qmult.
  rewrite (Qabs_pos (10 ^ (- q))) by (apply Qlt_le_weak, ten_pow_pos).
  apply Qle_trans with ((1 # 2) * 10 ^ (- q))%Q.
  { apply Qmult_le_compat_r; [exact Herr | apply Qlt_le_weak, ten_pow_pos]. }
  (* 10^(-q) = 10^(adjusted x) * 10^(-27) *)
  assert (Eq : (10 ^ (- q) == 10 ^ adjusted x * 10 ^ (-27))%Q).
  { rewrite <- Qpower_plus by exact ten_not_zero.
    replace (- q) with (adjusted x + -27) by (subst q; unfold prec; lia).
    reflexivity. }
  rewrite Eq.
  assert (E27 : ((1 # 2) * (10 ^ adjusted x * 10 ^ (-27))
                 == half_ulp * 10 ^ adjusted x)%Q).
  { assert (Ec : ((1 # 2) * 10 ^ (-27) == half_ulp)%Q) by reflexivity.
    rewrite <- Ec. ring. }
  rewrite E27. apply Qmult_le_l; [reflexivity | exact Hlo].
Qed.

Ltac constants :=
  let h := eval vm_compute in half_ulp in
  let t := eval vm_compute in two_roundings in
  change half_ulp with h in *; change two_roundings with t in *.

Lemma round_sign (x : Q) :
  ((0 <= x -> 0 <= round x) /\ (x <= 0 -> round x <= 0)
   /\ (0 < x -> 0 < round x) /\ (x < 0 -> round x < 0))%Q.
Proof.
  pose proof (round_error x) as H. constants.
  apply Qabs_Qle_condition in H.
  repeat split; intros Hx.
  - rewrite Qabs_pos in H by exact Hx. lra.
  - rewrite Qabs_neg in H by exact Hx. lra.
  - rewrite Qabs_pos in H by (apply Qlt_le_weak; exact Hx). lra.
  - rewrite Qabs_neg in H by (apply Qlt_le_weak; exact Hx). lra.
Qed.

(** Two roundings in a row: a rounded factor, then the rounded product. *)
Lemma round_twice (a a' b : Q) :
  (Qabs (a' - a) <= half_ulp * Qabs a)%Q ->
  (Qabs (round (a' * b) - a * b) <= two_roundings * Qabs (a * b))%Q.
Proof.
  intros Ha. pose proof (round_error (a' * b)) as Hr.
  assert (E : (round (a' * b) - a * b
               == (round (a' * b) - a' * b) + (a' - a) * b)%Q) by ring.
  rewrite E. clear E.
  eapply Qle_trans; [apply Qabs_triangle | ].
  rewrite !Qabs_Qmult in *.
  assert (Ha' : (Qabs a' <= Qabs a + Qabs (a' - a))%Q).
  { assert (E : (a' == a + (a' - a))%Q) by ring.
    rewrite E at 1. apply Qabs_triangle. }
  pose proof (Qabs_nonneg a) as Pa. pose proof (Qabs_nonneg b) as Pb.
  pose proof (Qabs_nonneg (a' - a)) as Pd.
  set (A := Qabs a) in *. set (B := Qabs b) in *.
  set (A' := Qabs a') in *. set (D := Qabs (a' - a)) in *.
  set (R := Qabs (round (a' * b) - a' * b)) in *.
  assert (H1 : (A' * B <= (A + D) * B)%Q)
    by (apply Qmult_le_compat_r; assumption).
  assert (H2 : (D * B <= half_ulp * A * B)%Q)
    by (apply Qmult_le_compat_r; assumption).
  assert (H3 : (0 <= A * B)%Q) by (apply Qmult_le_0_compat; assumption).
  constants. lra.
Qed.

Lemma round_half_even_of_Z (s : Q) (w : Z) :
  (s == inject_Z w)%Q -> Dashboard.round_half_even s = w.
Proof.
  intros Hs. unfold Dashboard.round_half_even.
  assert (Ef : Qnum s / Z.pos (Qden s) = w).
  { transitivity (Qfloor s); [destruct s; reflexivity | ].
    rewrite (Qfloor_comp _ _ Hs). apply Qfloor_Z. }
  rewrite Ef. cbv zeta.
  assert (A : Qle_bool (s - inject_Z w) (1 # 2) = true)
    by (apply Qle_bool_iff; lra).
  assert (B : Qle_bool (1 # 2) (s - inject_Z w) = false).
  { destruct (Qle_bool (1 # 2) (s - inject_Z w)) eqn:B; [ | reflexivity].
    apply Qle_bool_iff in B. lra. }
  rewrite A, B. reflexivity.
Qed.

(** A decimal of at most 28 digits is not rounded. *)
Lemma round_fits (x : Q) : fits x -> (round x == x)%Q.
Proof.
  intros (c & j & Hc & Ex). unfold round.
  destruct (Dec.is_zero x) eqn:Z0; [reflexivity | ].
  assert (Hx : ~ (x == 0)%Q).
  { intros H. apply Qeq_bool_iff in H. unfold Dec.is_zero in Z0. congruence. }
  destruct (adjusted_spec x Hx) as [Hlo _].
  cbv zeta. set (q := prec - 1 - adjusted x).
  assert (Hq : 0 <= j + q).
  { destruct (Z_le_gt_dec 0 (j + q)) as [H | H]; [exact H | exfalso].
    assert (Habs : (Qabs x < 10 ^ (prec + j))%Q).
    { rewrite Ex, Qabs_Qmult.
      rewrite (Qabs_pos (10 ^ j)) by (apply Qlt_le_weak, ten_pow_pos).
      rewrite Qpower_plus by exact ten_not_zero.
      apply Qmult_lt_compat_r; [apply ten_pow_pos | ].
      change (Qabs (inject_Z c)) with (inject_Z (Z.abs c)).
      rewrite <- ten_pow_of_Z by (unfold prec; lia).
      rewrite <- Zlt_Qlt. exact Hc. }
    assert (Hle : (10 ^ (prec + j) <= 10 ^ adjusted x)%Q).
    { apply Qpower_le_compat_l; [subst q; lia | discriminate]. }
    apply (Qlt_irrefl (10 ^ (prec + j))).
    eapply Qle_lt_trans; [exact Hle | ].
    eapply Qle_lt_trans; [exact Hlo | exact Habs]. }
  assert (Es : (x * 10 ^ q == inject_Z (c * 10 ^ (j + q)))%Q).
  { rewrite inject_Z_mult, ten_pow_of_Z by exact Hq.
    rewrite Qpower_plus by exact ten_not_zero. rewrite Ex. ring. }
  rewrite (round_half_even_of_Z _ _ Es).
  rewrite inject_Z_mult, ten_pow_of_Z by exact Hq.
  rewrite Ex. rewrite <- Qmult_assoc.
  rewrite <- Qpower_plus by exact ten_not_zero.
  replace (j + q + - q) with j by lia. reflexivity.
Qed.

End DecimalFacts.

Module DecimalViewsFacts.
Import RatioFacts Decimal DecimalFacts.

Lemma decimal_div_nonzero (x y : Q) :
  Dec.is_zero y = false -> Decimal.div x y = Dec.Ok (round (x / y)).
Proof. intros H. unfold Decimal.div. rewrite H. reflexivity. Qed.

Lemma fits_eq (x y : Q) : (x == y)%Q -> fits x -> fits y.
Proof.
  intros E (c & e & Hc & Hx). exists c, e. split; [exact Hc | ].
  rewrite <- E. exact Hx.
Qed.

(** A rounded quotient or product, rounded once more after a second
    factor: the formula in the arithmetic of the context, how far it is
    from the exact formula, and when it is the exact formula. *)
Lemma rounded_twice (a b : Q) :
  (Qabs (round (round a * b) - a * b) <= two_roundings * Qabs (a * b))%Q
  /\ (fits a -> fits (a * b) -> round (round a * b) == a * b)%Q.
Proof.
  split.
  - apply round_twice. apply round_error.
  - intros Ha Hab. pose proof (round_fits a Ha) as Ea.
    assert (E : (round a * b == a * b)%Q) by (rewrite Ea; reflexivity).
    rewrite <- E. apply round_fits. apply (fits_eq (a * b)); [ | exact Hab].
    symmetry. exact E.
Qed.

End DecimalViewsFacts.


Module DecimalClaims.
Import CalendarFacts RatioFacts Decimal DecimalFacts DecimalViewsFacts.

(** C7.  The year-to-date target is, for MONTHLY, a twelfth of the value
    times the months elapsed; for QUARTERLY, a quarter of the value times the
    quarters elapsed; for ANNUAL, the value times the days elapsed over the
    days of the year, the days elapsed counted from the start of the year to
    the earlier of the as-of date and the end of the year, both included;
    for MILESTONE and any other periodicity, the full value.  The formulas
    are computed in the arithmetic of the [decimal] context, each quotient
    and product rounded to 28 significant digits, in the order written:
    the result is the exact value of the formula whenever the first
    operation and the formula fit in 28 digits, and within 1.1e-27 of it,
    relatively, in every case.  A monthly 1200 gives exactly 300 after
    three months; a monthly 2000 gives 500.0000000000000000000000001. *)
Theorem ytd_target_value_by_periodicity (target : Target)
    (fy : FinancialYear) (as_of : date) :
  let v := value target in
  let per := periodicity target in
  let m := inject_Z (Views.months_elapsed fy as_of) in
  let q := inject_Z (Views.quarters_elapsed fy as_of) in
  let elapsed_days :=
    toordinal (date_min as_of (end_date fy)) - toordinal (start_date fy) + 1 in
  let total_days := toordinal (end_date fy) - toordinal (start_date fy) + 1 in
  let monthly := fun value =>
    mkTarget 1 1 value (mkdate 2025 3 31) "MONTHLY" 95 80 true in
  (per = "MONTHLY"%string ->
   exists r, DecimalViews.ytd_target_value target fy as_of = Dec.Ok r
     /\ r = Decimal.mul (round (v / 12)) m
     /\ (Qabs (r - v / 12 * m) <= two_roundings * Qabs (v / 12 * m))%Q
     /\ (fits (v / 12) -> fits (v / 12 * m) -> r == v / 12 * m)%Q)
  /\ (per = "QUARTERLY"%string ->
      exists r, DecimalViews.ytd_target_value target fy as_of = Dec.Ok r
        /\ r = Decimal.mul (round (v / 4)) q
        /\ (Qabs (r - v / 4 * q) <= two_roundings * Qabs (v / 4 * q))%Q
        /\ (fits (v / 4) -> fits (v / 4 * q) -> r == v / 4 * q)%Q)
  /\ (per = "ANNUAL"%string -> total_days <> 0 ->
      exists r, DecimalViews.ytd_target_value target fy as_of = Dec.Ok r
        /\ r = round (Decimal.mul v (inject_Z elapsed_days)
                      / inject_Z total_days)
        /\ (Qabs (r - v * inject_Z elapsed_days / inject_Z total_days)
            <= two_roundings
               * Qabs (v * inject_Z elapsed_days / inject_Z total_days))%Q
        /\ (fits (v * inject_Z elapsed_days) ->
            fits (v * inject_Z elapsed_days / inject_Z total_days) ->
            r == v * inject_Z elapsed_days / inject_Z total_days)%Q)
  /\ (per = "ANNUAL"%string -> total_days = 0 ->
      DecimalViews.ytd_target_value target fy as_of = Dec.Ok 0%Q)
  /\ (per <> "ANNUAL"%string -> per <> "MONTHLY"%string ->
      per <> "QUARTERLY"%string ->
      DecimalViews.ytd_target_value target fy as_of = Dec.Ok v)
  /\ (exists r,
        DecimalViews.ytd_target_value (monthly 1200%Q) Sample.fy_2024_25
          (mkdate 2024 6 30) = Dec.Ok r
        /\ (r == 300)%Q)
  /\ (exists r,
        DecimalViews.ytd_target_value (monthly 2000%Q) Sample.fy_2024_25
          (mkdate 2024 6 30) = Dec.Ok r
        /\ (r == 5000000000000000000000000001 # 10 ^ 25)%Q
        /\ ~ (r == 2000 / 12 * 3)%Q).
Proof.
  cbv zeta.
  unfold DecimalViews.ytd_target_value, Views.fy_bounds, days_between.
  rewrite (date_min_comm as_of (end_date fy)).
  split; [ | split; [ | split; [ | split; [ | split; [ | split]]]]].
  - intros E. rewrite E. cbn [String.eqb Ascii.eqb Bool.eqb].
    rewrite (decimal_div_nonzero _ 12) by reflexivity. cbn [Dec.bind].
    eexists. split; [reflexivity | ]. split; [reflexivity | ].
    unfold Decimal.mul, Dec.ofZ. apply rounded_twice.
  - intros E. rewrite E. cbn [String.eqb Ascii.eqb Bool.eqb].
    rewrite (decimal_div_nonzero _ 4) by reflexivity. cbn [Dec.bind].
    eexists. split; [reflexivity | ]. split; [reflexivity | ].
    unfold Decimal.mul, Dec.ofZ. apply rounded_twice.
  - intros E Ht. rewrite E. cbn [String.eqb Ascii.eqb Bool.eqb].
    apply Z.eqb_neq in Ht. rewrite Ht. cbn [negb].
    rewrite decimal_div_nonzero by (rewrite ofZ_is_zero; exact Ht).
    eexists. split; [reflexivity | ]. split; [reflexivity | ].
    unfold Decimal.mul, Dec.ofZ, Qdiv. apply rounded_twice.
  - intros E Ht. rewrite E. cbn [String.eqb Ascii.eqb Bool.eqb].
    apply Z.eqb_eq in Ht. rewrite Ht. reflexivity.
  - intros H1 H2 H3.
    apply String.eqb_neq in H1, H2, H3. rewrite H1, H2, H3. reflexivity.
  - eexists. split; [vm_compute; reflexivity | reflexivity].
  - eexists. split; [vm_compute; reflexivity | ].
    split; [reflexivity | discriminate].
Qed.

Lemma ytd_target_value_by_periodicity_witness :
  let fy := Sample.fy_2024_25 in
  let as_of := mkdate 2024 9 30 in
  (exists r,
     DecimalViews.ytd_target_value
       (mkTarget 1 1 1200 (mkdate 2025 3 31) "MONTHLY" 95 80 true) fy as_of
     = Dec.Ok r /\ (r == 600)%Q)
  /\ (exists r,
        DecimalViews.ytd_target_value
          (mkTarget 2 1 1200 (mkdate 2025 3 31) "QUARTERLY" 95 80 true)
          fy as_of
        = Dec.Ok r /\ (r == 600)%Q)
  /\ (exists r,
        DecimalViews.ytd_target_value
          (mkTarget 3 1 730 (mkdate 2025 3 31) "ANNUAL" 95 80 true) fy as_of
        = Dec.Ok r /\ (r == 366)%Q)
  /\ (exists r,
        DecimalViews.ytd_target_value
          (mkTarget 5 1 1000 (mkdate 2025 3 31) "ANNUAL" 95 80 true) fy as_of
        = Dec.Ok r
        /\ (Qabs (r - 1000 * 183 / 365) <= 11 # 10 ^ 25)%Q)
  /\ DecimalViews.ytd_target_value
       (mkTarget 4 1 1200 (mkdate 2025 3 31) "MILESTONE" 95 80 true) fy as_of
     = Dec.Ok 1200%Q.
Proof.
  cbv zeta.
  destruct (ytd_target_value_by_periodicity
              (mkTarget 1 1 1200 (mkdate 2025 3 31) "MONTHLY" 95 80 true)
              Sample.fy_2024_25 (mkdate 2024 9 30)) as (Hm & _).
  destruct (ytd_target_value_by_periodicity
              (mkTarget 2 1 1200 (mkdate 2025 3 31) "QUARTERLY" 95 80 true)
              Sample.fy_2024_25 (mkdate 2024 9 30)) as (_ & Hq & _).
  destruct (ytd_target_value_by_periodicity
              (mkTarget 3 1 730 (mkdate 2025 3 31) "ANNUAL" 95 80 true)
              Sample.fy_2024_25 (mkdate 2024 9 30)) as (_ & _ & Ha & _).
  destruct (ytd_target_value_by_periodicity
              (mkTarget 5 1 1000 (mkdate 2025 3 31) "ANNUAL" 95 80 true)
              Sample.fy_2024_25 (mkdate 2024 9 30)) as (_ & _ & Hb & _).
  destruct (ytd_target_value_by_periodicity
              (mkTarget 4 1 1200 (mkdate 2025 3 31) "MILESTONE" 95 80 true)
              Sample.fy_2024_25 (mkdate 2024 9 30)) as (_ & _ & _ & _ & Ho & _).
  split; [ | split; [ | split; [ | split]]].
  - destruct (Hm eq_refl) as (r & E & _ & _ & Hr). exists r.
    split; [exact E | ]. rewrite Hr.
    + vm_compute. reflexivity.
    + exists 100, 0. split; [reflexivity | vm_compute; reflexivity].
    + exists 600, 0. split; [reflexivity | vm_compute; reflexivity].
  - destruct (Hq eq_refl) as (r & E & _ & _ & Hr). exists r.
    split; [exact E | ]. rewrite Hr.
    + vm_compute. reflexivity.
    + exists 300, 0. split; [reflexivity | vm_compute; reflexivity].
    + exists 600, 0. split; [reflexivity | vm_compute; reflexivity].
  - destruct Ha as (r & E & _ & _ & Hr);
      [reflexivity | vm_compute; discriminate | ].
    exists r. split; [exact E | ]. rewrite Hr.
    + vm_compute. reflexivity.
    + exists 133590, 0. split; [reflexivity | vm_compute; reflexivity].
    + exists 366, 0. split; [reflexivity | vm_compute; reflexivity].
  - destruct Hb as (r & E & _ & Hr & _);
      [reflexivity | vm_compute; discriminate | ].
    exists r. split; [exact E | ].
    eapply Qle_trans; [exact Hr | ]. vm_compute. discriminate.
  - apply Ho; cbn; discriminate.
Defined.

End DecimalClaims.

Module RatioClaims.
Import CalendarFacts RatioFacts Views.

(** C6.  Without a target the thresholds are 95 (green) and 80 (amber),
    with a target they are the target's own; the bucket is GREEN from the
    green threshold up, AMBER from the amber threshold up to the green one,
    RED below.  With 95 and 80: 95 is GREEN, 80 is AMBER, 79.99 is RED. *)
Theorem compute_rag_from_percent_rule (percent : Q) (target : option Target) :
  let green := match target with
               | Some t => green_threshold t | None => 95%Q end in
  let amber := match target with
               | Some t => amber_threshold t | None => 80%Q end in
  ((green <= percent)%Q -> compute_rag_from_percent percent target = GREEN)
  /\ ((percent < green)%Q -> (amber <= percent)%Q ->
      compute_rag_from_percent percent target = AMBER)
  /\ ((percent < green)%Q -> (percent < amber)%Q ->
      compute_rag_from_percent percent target = RED)
  /\ compute_rag_from_percent 95 None = GREEN
  /\ compute_rag_from_percent 80 None = AMBER
  /\ compute_rag_from_percent (7999 # 100) None = RED
  /\ (green == 95 -> amber == 80 ->
      compute_rag_from_percent 95 target = GREEN
      /\ compute_rag_from_percent 80 target = AMBER
      /\ compute_rag_from_percent (7999 # 100) target = RED)%Q.
Proof.
  cbv zeta.
  assert (Hshape : forall p,
    compute_rag_from_percent p target
    = if Dec.geb p (match target with
                    | Some t => green_threshold t | None => 95%Q end)
      then GREEN
      else if Dec.geb p (match target with
                         | Some t => amber_threshold t | None => 80%Q end)
           then AMBER else RED).
  { intros p. unfold compute_rag_from_percent. destruct target; reflexivity. }
  repeat split; try reflexivity.
  - intros Hg. rewrite Hshape. apply geb_iff in Hg. rewrite Hg. reflexivity.
  - intros Hg Ha. rewrite Hshape.
    apply geb_false_iff in Hg. apply geb_iff in Ha. rewrite Hg, Ha. reflexivity.
  - intros Hg Ha. rewrite Hshape.
    apply geb_false_iff in Hg, Ha. rewrite Hg, Ha. reflexivity.
  - rewrite Hshape.
    assert (E : Dec.geb 95 (match target with
                            | Some t => green_threshold t | None => 95%Q end)
                = true) by (apply geb_iff; rewrite H; apply Qle_refl).
    rewrite E. reflexivity.
  - rewrite Hshape.
    assert (E1 : Dec.geb 80 (match target with
                             | Some t => green_threshold t | None => 95%Q end)
                 = false) by (apply geb_false_iff; rewrite H; reflexivity).
    assert (E2 : Dec.geb 80 (match target with
                             | Some t => amber_threshold t | None => 80%Q end)
                 = true) by (apply geb_iff; rewrite H0; apply Qle_refl).
    rewrite E1, E2. reflexivity.
  - rewrite Hshape.
    assert (E1 : Dec.geb (7999 # 100)
                   (match target with
                    | Some t => green_threshold t | None => 95%Q end)
                 = false) by (apply geb_false_iff; rewrite H; reflexivity).
    assert (E2 : Dec.geb (7999 # 100)
                   (match target with
                    | Some t => amber_threshold t | None => 80%Q end)
                 = false) by (apply geb_false_iff; rewrite H0; reflexivity).
    rewrite E1, E2. reflexivity.
Qed.

Lemma compute_rag_from_percent_rule_witness :
  let t := mkTarget 1 1 100 (mkdate 2025 3 31) "ANNUAL" (90 # 1) (70 # 1) true in
  compute_rag_from_percent (90 # 1) (Some t) = GREEN
  /\ compute_rag_from_percent (899 # 10) (Some t) = AMBER
  /\ compute_rag_from_percent (699 # 10) (Some t) = RED.
Proof.
  cbv zeta.
  destruct (compute_rag_from_percent_rule (90 # 1)
              (Some (mkTarget 1 1 100 (mkdate 2025 3 31) "ANNUAL"
                              (90 # 1) (70 # 1) true)))
    as (Hg & _).
  destruct (compute_rag_from_percent_rule (899 # 10)
              (Some (mkTarget 1 1 100 (mkdate 2025 3 31) "ANNUAL"
                              (90 # 1) (70 # 1) true)))
    as (_ & Ha & _).
  destruct (compute_rag_from_percent_rule (699 # 10)
              (Some (mkTarget 1 1 100 (mkdate 2025 3 31) "ANNUAL"
                              (90 # 1) (70 # 1) true)))
    as (_ & _ & Hr & _).
  split; [apply Hg; cbn; discriminate | ].
  split; [apply Ha; cbn; [reflexivity | discriminate] | ].
  apply Hr; reflexivity.
Defined.

End RatioClaims.

(* ================================================================== *)
(** * Zero denominators *)
(* ================================================================== *)

Module ZeroDenominators.
Import RatioFacts Views Models.

Lemma ok_not_raises {A} (r : Dec.result A) (a : A) :
  r = Dec.Ok a -> ~ Dec.raises r.
Proof. intros -> [e He]. discriminate. Qed.

Lemma guarded_ratio (x y k : Q) :
  exists r,
    (if Dec.is_zero y then Dec.Ok Dec.D0
     else q <- Dec.div x y ;; Dec.Ok (q * k)%Q) = Dec.Ok r
    /\ (Dec.is_zero y = true -> r = Dec.D0).
Proof.
  destruct (Dec.is_zero y) eqn:E.
  - exists Dec.D0. split; [reflexivity | reflexivity].
  - rewrite div_nonzero by assumption. cbn.
    eexists; split; [reflexivity | discriminate].
Qed.

Lemma or_zero_eq (v : Q) : (or_zero (Some v) == v)%Q.
Proof.
  unfold or_zero. destruct (Dec.is_zero v) eqn:E; [ | reflexivity].
  apply is_zero_iff in E. rewrite E. reflexivity.
Qed.

Lemma compute_percent_total (a : Q) (t : option Q) :
  exists r, compute_percent a t = Dec.Ok r
            /\ (match t with Some d => (d == 0)%Q | None => True end ->
                r = Dec.D0).
Proof.
  unfold compute_percent. destruct t as [d | ].
  - destruct (guarded_ratio a d Dec.D100) as (r & E & Hz).
    exists r. split; [exact E | ]. intros Hd. apply Hz. now apply is_zero_iff.
  - exists Dec.D0. split; reflexivity.
Qed.

Lemma compute_item_spend_total (db : DB) (item : OperationalPlanItem)
    (fy : FinancialYear) (as_of : date) :
  exists planned actual spend_pct,
    compute_item_spend db item fy as_of = Dec.Ok (planned, actual, spend_pct)
    /\ (planned == input_cost item + output_cost item)%Q
    /\ ((input_cost item + output_cost item == 0)%Q -> spend_pct = Dec.D0).
Proof.
  unfold compute_item_spend, fy_bounds.
  set (planned := (or_zero (Some (input_cost item))
                   + or_zero (Some (output_cost item)))%Q).
  set (actual := fold_left _ _ _).
  assert (Hp : (planned == input_cost item + output_cost item)%Q)
    by (unfold planned; rewrite !or_zero_eq; reflexivity).
  destruct (guarded_ratio actual planned Dec.D100) as (r & E & Hz).
  exists planned, actual, r. rewrite E. cbn [Dec.bind].
  split; [reflexivity | ]. split; [exact Hp | ].
  intros H0. apply Hz. apply is_zero_iff. rewrite Hp. exact H0.
Qed.

Lemma ytd_target_value_total (t : Target) (fy : FinancialYear) (as_of : date) :
  exists r, ytd_target_value t fy as_of = Dec.Ok r.
Proof.
  unfold ytd_target_value, fy_bounds.
  destruct (String.eqb _ "ANNUAL").
  - destruct (Z.eqb_spec (days_between (end_date fy) (start_date fy) + 1) 0)
      as [E | E]; cbn [negb]; [eexists; reflexivity | ].
    rewrite div_nonzero; [eexists; reflexivity | ].
    rewrite ofZ_is_zero. now apply Z.eqb_neq.
  - destruct (String.eqb _ "MONTHLY");
      [rewrite (div_const _ 12); eexists; reflexivity | ].
    destruct (String.eqb _ "QUARTERLY");
      [rewrite (div_const _ 4); eexists; reflexivity | ].
    eexists; reflexivity.
Qed.

Lemma compute_forecast_value_total (db : DB) (t : Target) (a : Q)
    (fy : FinancialYear) (as_of : date) :
  exists r, compute_forecast_value db t a fy as_of = Dec.Ok r.
Proof.
  unfold compute_forecast_value, fy_bounds.
  destruct (match latest_update_in_fy db t fy as_of with
            | Some u => forecast_value u | None => None end);
    [eexists; reflexivity | ].
  assert (Hdiv : forall z k, (z <=? 0) = false ->
            exists r, (x <- Dec.div a (Dec.ofZ z) ;; Dec.Ok (x * k)%Q)
                      = Dec.Ok r).
  { intros z k Hz. rewrite div_nonzero; [eexists; reflexivity | ].
    rewrite ofZ_is_zero. apply Z.leb_gt in Hz. apply Z.eqb_neq. lia. }
  destruct (String.eqb _ "MONTHLY").
  { destruct (_ <=? 0) eqn:E; [eexists; reflexivity | now apply Hdiv]. }
  destruct (String.eqb _ "QUARTERLY").
  { destruct (_ <=? 0) eqn:E; [eexists; reflexivity | now apply Hdiv]. }
  destruct (_ <=? 0) eqn:E; [eexists; reflexivity | now apply Hdiv].
Qed.

Section ModelRatios.
Variable today : date.
Variable float_ratio : Z -> Z -> Q.

Lemma ytd_target_total (t : Target) :
  exists r, ytd_target today float_ratio t = Dec.Ok r.
Proof.
  unfold ytd_target.
  destruct (date_gtb _ _); [eexists; reflexivity | ].
  destruct (String.eqb _ "ANNUAL").
  { destruct (date_ltb _ _); eexists; reflexivity. }
  destruct (String.eqb _ "QUARTERLY");
    [rewrite (div_const _ 4); eexists; reflexivity | ].
  destruct (String.eqb _ "MONTHLY");
    [rewrite (div_const _ 12); eexists; reflexivity | ].
  eexists; reflexivity.
Qed.

Lemma calculate_rag_status_total (db : DB) (t : Target) (a : option Q) :
  exists r, calculate_rag_status today float_ratio db t a = Dec.Ok r.
Proof.
  unfold calculate_rag_status.
  destruct (match a with
            | Some a0 => Some a0
            | None => match get_latest_progress db t with
                      | Some lp => Some (actual_value lp) | None => None end
            end) as [actual | ]; [ | eexists; reflexivity].
  destruct (ytd_target_total t) as (yt & ->). cbn [Dec.bind].
  destruct (Dec.is_zero yt) eqn:E; [eexists; reflexivity | ].
  rewrite div_nonzero by assumption. cbn [Dec.bind].
  destruct (Dec.geb _ _); [eexists; reflexivity | ].
  destruct (Dec.geb _ _); eexists; reflexivity.
Qed.

Lemma percentage_complete_total (db : DB) (u : ProgressUpdate) (t : Target) :
  target_of db u = Dec.Ok t ->
  exists r yt, percentage_complete today float_ratio db u = Dec.Ok r
               /\ ytd_target today float_ratio t = Dec.Ok yt
               /\ ((yt == 0)%Q -> r = Dec.D0).
Proof.
  intros Ht. unfold percentage_complete. rewrite Ht. cbn [Dec.bind].
  destruct (ytd_target_total t) as (yt & Ey). rewrite Ey. cbn [Dec.bind].
  destruct (guarded_ratio (actual_value u) yt 100) as (r & E & Hz).
  exists r, yt. split; [exact E | ]. split; [reflexivity | ].
  intros H0. apply Hz. now apply is_zero_iff.
Qed.

Lemma variance_percentage_total (db : DB) (u : ProgressUpdate) (t : Target) :
  target_of db u = Dec.Ok t ->
  exists r yt, variance_percentage today float_ratio db u = Dec.Ok r
               /\ ytd_target today float_ratio t = Dec.Ok yt
               /\ ((yt == 0)%Q -> r = Dec.D0).
Proof.
  intros Ht. unfold variance_percentage. rewrite Ht. cbn [Dec.bind].
  destruct (ytd_target_total t) as (yt & Ey). rewrite Ey. cbn [Dec.bind].
  destruct (guarded_ratio (actual_value u - yt) yt 100) as (r & E & Hz).
  exists r, yt. split; [exact E | ]. split; [reflexivity | ].
  intros H0. apply Hz. now apply is_zero_iff.
Qed.

End ModelRatios.

Lemma get_progress_percentage_total (db : DB) (t : Target) :
  exists r, get_progress_percentage db t = Dec.Ok r
            /\ ((value t == 0)%Q -> r = 0%Q).
Proof.
  unfold get_progress_percentage.
  destruct (latest_by _ _); [ | exists 0%Q; split; reflexivity].
  destruct (Dec.is_zero (value t)) eqn:E; [exists 0%Q; split; reflexivity | ].
  rewrite div_nonzero by assumption. cbn [Dec.bind].
  eexists; split; [reflexivity | ].
  intros H0. apply is_zero_iff in H0. congruence.
Qed.

Lemma cost_line_ratios_total (cl : CostLine) :
  exists v c s,
    cl_variance_percentage cl = Dec.Ok v
    /\ cl_commitment_percentage cl = Dec.Ok c
    /\ cl_spend_percentage cl = Dec.Ok s
    /\ ((budgeted_amount cl == 0)%Q ->
        v = Dec.D0 /\ c = Dec.D0 /\ s = Dec.D0).
Proof.
  unfold cl_variance_percentage, cl_commitment_percentage, cl_spend_percentage.
  destruct (guarded_ratio (actual_spend cl - budgeted_amount cl)
              (budgeted_amount cl) 100) as (v & Ev & Hv).
  destruct (guarded_ratio (committed_amount cl) (budgeted_amount cl) 100)
    as (c & Ec & Hc).
  destruct (guarded_ratio (actual_spend cl) (budgeted_amount cl) 100)
    as (s & Es & Hs).
  exists v, c, s. repeat split; try assumption;
    apply is_zero_iff in H; auto.
Qed.

End ZeroDenominators.

Module ZeroDenominatorClaims.
Import RatioFacts Views Models ZeroDenominators.

(** C9.  A zero denominator is never an error.  [compute_percent] answers 0
    for a zero (or missing) year-to-date target whatever the actual value,
    [compute_item_spend] answers a spend percentage of 0 when the planned
    budget, input cost plus output cost, is 0, and none of the ratio
    functions of the engine raises: each returns a value on every input, 0
    when its denominator is 0. *)
Theorem zero_denominator_is_not_an_error :
  (forall actual, compute_percent actual (Some 0%Q) = Dec.Ok 0%Q)
  /\ (forall actual t,
        match t with Some d => (d == 0)%Q | None => True end ->
        compute_percent actual t = Dec.Ok 0%Q)
  /\ (forall actual t, ~ Dec.raises (compute_percent actual t))
  /\ (forall db item fy as_of,
        (input_cost item + output_cost item == 0)%Q ->
        exists planned actual,
          compute_item_spend db item fy as_of = Dec.Ok (planned, actual, 0%Q))
  /\ (forall db item fy as_of,
        ~ Dec.raises (compute_item_spend db item fy as_of))
  /\ (forall t fy as_of, ~ Dec.raises (ytd_target_value t fy as_of))
  /\ (forall db t a fy as_of,
        ~ Dec.raises (compute_forecast_value db t a fy as_of))
  /\ (forall db t, ~ Dec.raises (get_progress_percentage db t)
                   /\ ((value t == 0)%Q ->
                       get_progress_percentage db t = Dec.Ok 0%Q))
  /\ (forall cl,
        ~ Dec.raises (cl_variance_percentage cl)
        /\ ~ Dec.raises (cl_commitment_percentage cl)
        /\ ~ Dec.raises (cl_spend_percentage cl)
        /\ ((budgeted_amount cl == 0)%Q ->
            cl_variance_percentage cl = Dec.Ok 0%Q
            /\ cl_commitment_percentage cl = Dec.Ok 0%Q
            /\ cl_spend_percentage cl = Dec.Ok 0%Q))
  /\ (forall today float_ratio db u t yt,
        target_of db u = Dec.Ok t ->
        ytd_target today float_ratio t = Dec.Ok yt ->
        ~ Dec.raises (percentage_complete today float_ratio db u)
        /\ ~ Dec.raises (variance_percentage today float_ratio db u)
        /\ ((yt == 0)%Q ->
            percentage_complete today float_ratio db u = Dec.Ok 0%Q
            /\ variance_percentage today float_ratio db u = Dec.Ok 0%Q)).
Proof.
  repeat apply conj.
  - intros actual. reflexivity.
  - intros actual t Ht.
    destruct (compute_percent_total actual t) as (r & E & Hz).
    rewrite E, (Hz Ht). reflexivity.
  - intros actual t.
    destruct (compute_percent_total actual t) as (r & E & _).
    exact (ok_not_raises _ _ E).
  - intros db item fy as_of H0.
    destruct (compute_item_spend_total db item fy as_of)
      as (p & a & s & E & _ & Hz).
    exists p, a. rewrite E, (Hz H0). reflexivity.
  - intros db item fy as_of.
    destruct (compute_item_spend_total db item fy as_of)
      as (p & a & s & E & _).
    exact (ok_not_raises _ _ E).
  - intros t fy as_of.
    destruct (ytd_target_value_total t fy as_of) as (r & E).
    exact (ok_not_raises _ _ E).
  - intros db t a fy as_of.
    destruct (compute_forecast_value_total db t a fy as_of) as (r & E).
    exact (ok_not_raises _ _ E).
  - intros db t.
    destruct (get_progress_percentage_total db t) as (r & E & Hz).
    split; [exact (ok_not_raises _ _ E) | ].
    intros H0. rewrite E, (Hz H0). reflexivity.
  - intros cl.
    destruct (cost_line_ratios_total cl) as (v & c & s & Ev & Ec & Es & Hz).
    split; [exact (ok_not_raises _ _ Ev) | ].
    split; [exact (ok_not_raises _ _ Ec) | ].
    split; [exact (ok_not_raises _ _ Es) | ].
    intros H0. destruct (Hz H0) as (-> & -> & ->). auto.
  - intros today float_ratio db u t yt Ht Ey.
    destruct (percentage_complete_total today float_ratio db u t Ht)
      as (r1 & y1 & E1 & Ey1 & Hz1).
    destruct (variance_percentage_total today float_ratio db u t Ht)
      as (r2 & y2 & E2 & Ey2 & Hz2).
    assert (y1 = yt) by congruence. assert (y2 = yt) by congruence. subst.
    split; [exact (ok_not_raises _ _ E1) | ].
    split; [exact (ok_not_raises _ _ E2) | ].
    intros H0. rewrite E1, E2, (Hz1 H0), (Hz2 H0). auto.
Qed.

Lemma zero_denominator_is_not_an_error_witness :
  let item := mkItem 1 1 0 0 true in
  let db := mkDB [] [] [item] [] []
              [mkCostLine 1 1 0 0 (250 # 1) (mkdate 2024 4 1)
                          (mkdate 2024 4 30) true] in
  Views.compute_percent (42 # 1) (Some (0 # 7)) = Dec.Ok 0%Q
  /\ exists planned actual,
       Views.compute_item_spend db item Sample.fy_2024_25 (mkdate 2024 6 1)
       = Dec.Ok (planned, actual, 0%Q).
Proof.
  cbv zeta.
  destruct zero_denominator_is_not_an_error as (_ & Hp & _ & Hs & _).
  split.
  - apply Hp. reflexivity.
  - apply Hs. reflexivity.
Defined.

End ZeroDenominatorClaims.

(* ================================================================== *)
(** * The evidence-escalation rule *)
(* ================================================================== *)

Module EvidenceRule.
Import CalendarFacts RatioFacts Models ZeroDenominators.

Section OrderBy.
Context {A : Type} (key : A -> date).

Lemma insert_by_in (x y : A) (l : list A) :
  In y (insert_by key x l) <-> y = x \/ In y l.
Proof.
  induction l as [ | z l IH]; cbn.
  - intuition congruence.
  - destruct (date_ltb (key z) (key x)); cbn; [ | intuition congruence].
    rewrite IH. intuition congruence.
Qed.

Lemma order_by_in (y : A) (l : list A) : In y (order_by key l) <-> In y l.
Proof.
  induction l as [ | z l IH]; cbn; [tauto | ].
  rewrite insert_by_in, IH. intuition congruence.
Qed.

Lemma insert_by_sorted (x : A) (l : list A) :
  StronglySorted (fun a b => date_leb (key a) (key b) = true) l ->
  StronglySorted (fun a b => date_leb (key a) (key b) = true)
                 (insert_by key x l).
Proof.
  induction 1 as [ | z l Hs IH Hz]; cbn.
  - constructor; constructor.
  - destruct (date_ltb (key z) (key x)) eqn:E.
    + constructor; [exact IH | ].
      apply Forall_forall. intros w Hw. apply insert_by_in in Hw.
      destruct Hw as [-> | Hw]; [now apply date_ltb_leb | ].
      rewrite Forall_forall in Hz. auto.
    + constructor; [constructor; assumption | ].
      constructor; [now apply date_leb_total | ].
      apply Forall_forall. intros w Hw.
      rewrite Forall_forall in Hz.
      apply date_leb_trans with (key z); [now apply date_leb_total | auto].
Qed.

Lemma order_by_sorted (l : list A) :
  StronglySorted (fun a b => date_leb (key a) (key b) = true)
                 (order_by key l).
Proof.
  induction l; cbn; [constructor | now apply insert_by_sorted].
Qed.

End OrderBy.

(** The queryset of the rule is the window of the specification, in
    chronological order. *)
Lemma consecutive_updates_window (db : DB) (u : ProgressUpdate)
    (cutoff : date) :
  (forall w, In w (consecutive_updates db u cutoff)
             <-> Spec.in_window db u cutoff w)
  /\ Spec.chronological (consecutive_updates db u cutoff).
Proof.
  split; [ | apply order_by_sorted].
  intros w. unfold consecutive_updates, Spec.in_window.
  rewrite order_by_in, filter_In, !andb_true_iff, Z.eqb_eq.
  unfold date_geb, date_leb. tauto.
Qed.

Section Rule.
Variable today : date.
Variable float_ratio : Z -> Z -> Q.
Variable db : DB.






End Rule.

End EvidenceRule.

Module EvidenceClaims.
Import RatioFacts Models ZeroDenominators EvidenceRule.



End EvidenceClaims.

(* ================================================================== *)
(** * The table of progress updates under INSERT and UPDATE *)
(* ================================================================== *)

Module TableFacts.
Import WritePaths.

Lemma date_eqb_eq (a b : date) : date_eqb a b = true <-> a = b.
Proof.
  unfold date_eqb. rewrite !andb_true_iff, !Z.eqb_eq.
  destruct a, b; cbn. split.
  - intros [[-> ->] ->]. reflexivity.
  - intros [= -> -> ->]. auto.
Qed.

Lemma has_key_iff (t : Z) (ps pe : date) (u : ProgressUpdate) :
  has_key t ps pe u = true
  <-> pu_target u = t /\ period_start u = ps /\ period_end u = pe.
Proof.
  unfold has_key. rewrite !andb_true_iff, Z.eqb_eq, !date_eqb_eq. tauto.
Qed.

Lemma same_key_has_key (a b : ProgressUpdate) :
  same_key a b = has_key (pu_target a) (period_start a) (period_end a) b.
Proof.
  unfold same_key, has_key.
  rewrite (Z.eqb_sym (pu_target a)).
  assert (Hs : forall x y, date_eqb x y = date_eqb y x).
  { intros x y. unfold date_eqb.
    now rewrite (Z.eqb_sym (year x)), (Z.eqb_sym (month x)),
      (Z.eqb_sym (day x)). }
  now rewrite (Hs (period_start a)), (Hs (period_end a)).
Qed.

Lemma same_key_sym (a b : ProgressUpdate) : same_key a b = same_key b a.
Proof.
  unfold same_key. rewrite (Z.eqb_sym (pu_target a)).
  unfold date_eqb.
  now rewrite (Z.eqb_sym (year (period_start a))),
    (Z.eqb_sym (month (period_start a))), (Z.eqb_sym (day (period_start a))),
    (Z.eqb_sym (year (period_end a))), (Z.eqb_sym (month (period_end a))),
    (Z.eqb_sym (day (period_end a))).
Qed.

Lemma filter_none {A} (f : A -> bool) (l : list A) :
  (forall x, In x l -> f x = false) -> filter f l = [].
Proof.
  induction l as [ | a l IH]; cbn; [reflexivity | ]. intros H.
  rewrite (H a (or_introl eq_refl)). apply IH. intros x Hx. apply H. now right.
Qed.

Lemma NoDup_snoc {A} (l : list A) (x : A) :
  NoDup l -> ~ In x l -> NoDup (l ++ [x]).
Proof.
  induction 1 as [ | a l Ha Hl IH]; cbn; intros Hx.
  - constructor; [tauto | constructor].
  - constructor.
    + rewrite in_app_iff. cbn. intros [H | [H | []]]; [tauto | ].
      apply Hx. now left.
    + apply IH. tauto.
Qed.

Lemma ForallOrdPairs_snoc {A} (R : A -> A -> Prop) (l : list A) (x : A) :
  ForallOrdPairs R l -> (forall u, In u l -> R u x) ->
  ForallOrdPairs R (l ++ [x]).
Proof.
  induction 1 as [ | a l Ha Hl IH]; cbn; intros Hx.
  - constructor; constructor.
  - constructor.
    + apply Forall_app. split; [exact Ha | ].
      constructor; [ | constructor]. apply Hx. now left.
    + apply IH. intros u Hu. apply Hx. now right.
Qed.

(** One row at most holds a key. *)
Lemma unique_key_filter (rows : list ProgressUpdate) (t : Z) (ps pe : date)
    (r : ProgressUpdate) :
  ForallOrdPairs (fun a b => same_key a b = false) rows ->
  In r rows -> has_key t ps pe r = true ->
  filter (has_key t ps pe) rows = [r].
Proof.
  intros Hu. induction Hu as [ | a l Ha Hl IH]; [intros [] | ].
  intros Hin Hk. cbn.
  assert (Hrest : forall x, In x l -> has_key t ps pe a = true ->
                            has_key t ps pe x = false).
  { intros x Hx Hka. rewrite Forall_forall in Ha. specialize (Ha x Hx).
    rewrite same_key_has_key in Ha.
    apply has_key_iff in Hka. destruct Hka as (<- & <- & <-). exact Ha. }
  destruct Hin as [-> | Hin].
  - rewrite Hk. f_equal. apply filter_none. intros x Hx. now apply Hrest.
  - destruct (has_key t ps pe a) eqn:Eka.
    + rewrite (Hrest r Hin eq_refl) in Hk. discriminate.
    + now apply IH.
Qed.

Lemma db_insert_ok (db db' : DB) (row row' : ProgressUpdate) :
  db_insert db row = Dec.Ok (db', row') ->
  row' = row
  /\ progress_updates db' = progress_updates db ++ [row]
  /\ (forall u, In u (progress_updates db) -> pu_id u <> pu_id row)
  /\ (forall u, In u (progress_updates db) -> same_key row u = false).
Proof.
  unfold db_insert.
  destruct (existsb (fun u => pu_id u =? pu_id row) (progress_updates db))
    eqn:E1; [discriminate | ].
  destruct (existsb (same_key row) (progress_updates db)) eqn:E2;
    [discriminate | ].
  intros [= <- <-]. cbn. repeat split; try reflexivity.
  - intros u Hu Eid.
    assert (existsb (fun u => pu_id u =? pu_id row) (progress_updates db)
            = true)
      by (apply existsb_exists; exists u; split; [exact Hu | ];
          now apply Z.eqb_eq).
    congruence.
  - intros u Hu. destruct (same_key row u) eqn:Ek; [ | reflexivity].
    assert (existsb (same_key row) (progress_updates db) = true)
      by (apply existsb_exists; eauto).
    congruence.
Qed.

Lemma db_insert_keeps_constraints (db db' : DB) (row row' : ProgressUpdate) :
  unique_ids db -> unique_keys db ->
  db_insert db row = Dec.Ok (db', row') ->
  unique_ids db' /\ unique_keys db'.
Proof.
  intros Hi Hk H. apply db_insert_ok in H.
  destruct H as (-> & Erows & Hfresh & Hnew).
  unfold unique_ids, unique_keys in *. rewrite Erows. split.
  - rewrite map_app. cbn. apply NoDup_snoc; [exact Hi | ].
    intros Hin. apply in_map_iff in Hin.
    destruct Hin as (u & Eu & Hu). now apply (Hfresh u Hu).
  - apply ForallOrdPairs_snoc; [exact Hk | ].
    intros u Hu. rewrite same_key_sym. now apply Hnew.
Qed.

End TableFacts.

Module DraftFacts.
Import WritePaths TableFacts.

Lemma db_update_ok (db db' : DB) (row : ProgressUpdate) :
  db_update db row = Dec.Ok db' ->
  progress_updates db' = map (replace_row row) (progress_updates db)
  /\ (forall u, In u (progress_updates db) -> pu_id u <> pu_id row ->
                same_key row u = false).
Proof.
  unfold db_update.
  destruct (existsb _ (progress_updates db)) eqn:E; [discriminate | ].
  intros [= <-]. split; [reflexivity | ].
  intros u Hu Hne. destruct (same_key row u) eqn:Ek; [ | reflexivity].
  assert (existsb (fun u0 => same_key row u0 && negb (pu_id u0 =? pu_id row))
            (progress_updates db) = true).
  { apply existsb_exists. exists u. split; [exact Hu | ].
    rewrite Ek. apply Z.eqb_neq in Hne. now rewrite Hne. }
  congruence.
Qed.

Lemma replace_row_id (row u : ProgressUpdate) :
  pu_id (replace_row row u) = pu_id u.
Proof.
  unfold replace_row. destruct (Z.eqb_spec (pu_id u) (pu_id row)); congruence.
Qed.

Lemma replace_keeps_keys (row : ProgressUpdate) (rows : list ProgressUpdate) :
  NoDup (map pu_id rows) ->
  ForallOrdPairs (fun a b => same_key a b = false) rows ->
  (forall u, In u rows -> pu_id u <> pu_id row -> same_key row u = false) ->
  ForallOrdPairs (fun a b => same_key a b = false)
                 (map (replace_row row) rows).
Proof.
  intros Hid Hk. induction Hk as [ | a l Ha Hl IH]; cbn; intros Hrow.
  - constructor.
  - inversion Hid as [ | ? ? Hnotin Hid']; subst. constructor.
    + apply Forall_forall. intros x' Hx'. apply in_map_iff in Hx'.
      destruct Hx' as (x & <- & Hx).
      rewrite Forall_forall in Ha. specialize (Ha x Hx).
      assert (Hax : pu_id a <> pu_id x).
      { intros E. apply Hnotin. rewrite E. now apply in_map. }
      unfold replace_row.
      destruct (Z.eqb_spec (pu_id a) (pu_id row)) as [Ea | Ea],
               (Z.eqb_spec (pu_id x) (pu_id row)) as [Ex | Ex].
      * congruence.
      * apply Hrow; [now right | exact Ex].
      * rewrite same_key_sym. apply Hrow; [now left | exact Ea].
      * exact Ha.
    + apply IH; [exact Hid' | ]. intros u Hu. apply Hrow. now right.
Qed.

Lemma db_update_keeps_constraints (db db' : DB) (row : ProgressUpdate) :
  unique_ids db -> unique_keys db ->
  db_update db row = Dec.Ok db' ->
  unique_ids db' /\ unique_keys db'.
Proof.
  intros Hi Hk H. apply db_update_ok in H. destruct H as (Erows & Hrow).
  unfold unique_ids, unique_keys in *. rewrite Erows. split.
  - rewrite map_map.
    erewrite map_ext; [exact Hi | ]. intros u. apply replace_row_id.
  - now apply replace_keeps_keys.
Qed.

Lemma in_replace (row u : ProgressUpdate) (rows : list ProgressUpdate) :
  In u (map (replace_row row) rows)
  <-> (u = row /\ exists old, In old rows /\ pu_id old = pu_id row)
      \/ (In u rows /\ pu_id u <> pu_id row).
Proof.
  rewrite in_map_iff. unfold replace_row. split.
  - intros (x & E & Hx).
    destruct (Z.eqb_spec (pu_id x) (pu_id row)) as [Ex | Ex]; subst; eauto.
  - intros [(-> & old & Hold & Eold) | (Hu & Hne)].
    + exists old. apply Z.eqb_eq in Eold. rewrite Eold. auto.
    + exists u. apply Z.eqb_neq in Hne. rewrite Hne. auto.
Qed.

Section Draft.
Variable settings : option KPASettings.
Variable now : date.
Variable fromisoformat : string -> option date.
Variable run_validation : DB -> Payload -> option ValidatedData.
Variable uuid4 : Z.

(** The three ways a call of the endpoint ends: nothing written, a draft
    updated in place, a draft inserted. *)
Lemma save_draft_cases (db db' : DB) (user : User) (data : Payload)
    (resp : Response) :
  save_draft settings now fromisoformat run_validation uuid4 db user data
  = (db', resp) ->
  (db' = db /\ forall id, resp <> Saved id)
  \/ (exists vd existing,
        run_validation db (set_evidence_and_draft data) = Some vd
        /\ In existing (progress_updates db)
        /\ is_submitted existing = false /\ is_active existing = true
        /\ db_update db (apply_validated existing vd) = Dec.Ok db'
        /\ resp = Saved (pu_id existing))
  \/ (exists vd row,
        run_validation db (set_evidence_and_draft data) = Some vd
        /\ db_insert db (instance_of uuid4 vd) = Dec.Ok (db', row)
        /\ resp = Saved (pu_id row)).
Proof.
  unfold WritePaths.save_draft.
  destruct (match py_or (p_target data) (p_target_id data) with
            | Some id => find (fun t => target_id t =? id) (targets db)
            | None => None end) as [target | ];
    [ | intros [= <- <-]; left; split; [reflexivity | discriminate]].
  destruct (negb _);
    [intros [= <- <-]; left; split; [reflexivity | discriminate] | ].
  destruct (financial_year_of db target) as [fin_year | e];
    [ | intros [= <- <-]; left; split; [reflexivity | discriminate]].
  match goal with |- (if ?c then _ else _) = _ -> _ => destruct c end;
    [intros [= <- <-]; left; split; [reflexivity | discriminate] | ].
  destruct (run_validation db (set_evidence_and_draft data)) as [vd | ];
    [ | intros [= <- <-]; left; split; [reflexivity | discriminate]].
  destruct (find _ (progress_updates db)) as [existing | ] eqn:Ef.
  - apply find_some in Ef. destruct Ef as [Hin Hp].
    rewrite !andb_true_iff, negb_true_iff in Hp.
    destruct Hp as [[_ Hsub] Hact].
    destruct (db_update db (apply_validated existing vd)) as [db2 | e] eqn:Eu;
      intros [= <- <-].
    + right; left. exists vd, existing. auto 10.
    + left; split; [reflexivity | discriminate].
  - destruct (db_insert db (instance_of uuid4 vd)) as [[db2 obj] | e] eqn:Ei;
      intros [= <- <-].
    + right; right. exists vd, obj. auto.
    + left; split; [reflexivity | discriminate].
Qed.

(** A saved draft leaves the constraints of the table in place and one row
    with the key and the value of the validated data. *)
Lemma save_draft_saved (db db' : DB) (user : User) (data : Payload) (id : Z) :
  unique_ids db -> unique_keys db ->
  save_draft settings now fromisoformat run_validation uuid4 db user data
  = (db', Saved id) ->
  unique_ids db' /\ unique_keys db'
  /\ exists vd row,
       run_validation db (set_evidence_and_draft data) = Some vd
       /\ In row (progress_updates db') /\ pu_id row = id
       /\ has_key (vd_target vd) (vd_period_start vd) (vd_period_end vd) row
          = true
       /\ actual_value row = vd_actual_value vd
       /\ is_submitted row
          = match vd_is_submitted vd with Some b => b | None => false end
       /\ (forall old, In old (progress_updates db) -> pu_id old = id ->
                       is_submitted old = false /\ is_active old = true)
       /\ (forall u, In u (progress_updates db) -> pu_id u <> id ->
                     In u (progress_updates db'))
       /\ (forall u, In u (progress_updates db') -> pu_id u <> id ->
                     In u (progress_updates db)).
Proof.
  intros Hi Hk H. apply save_draft_cases in H.
  destruct H as [[_ Hno] | [(vd & existing & Ev & Hin & Hsub & Hact & Eu & Er)
                           | (vd & row & Ev & Ei & Er)]].
  - exfalso. now apply (Hno id).
  - injection Er as ->.
    destruct (db_update_keeps_constraints _ _ _ Hi Hk Eu) as [Hi' Hk'].
    apply db_update_ok in Eu. destruct Eu as (Erows & _).
    split; [exact Hi' | ]. split; [exact Hk' | ].
    exists vd, (apply_validated existing vd).
    split; [exact Ev | ]. rewrite Erows. split.
    { apply in_replace. left. split; [reflexivity | ].
      exists existing. split; [exact Hin | reflexivity]. }
    split; [reflexivity | ].
    split; [apply has_key_iff; cbn; auto | ].
    split; [reflexivity | ].
    split; [cbn; rewrite Hsub; reflexivity | ].
    split.
    { intros old Hold Eold.
      assert (old = existing); [ | subst; auto].
      unfold unique_ids in Hi. clear - Hi Hold Hin Eold.
      induction (progress_updates db) as [ | a l IH]; [destruct Hin | ].
      cbn in Hi. inversion Hi as [ | ? ? Hn Hl]; subst.
      destruct Hold as [-> | Hold], Hin as [-> | Hin]; auto.
      - exfalso. apply Hn. rewrite Eold. now apply in_map.
      - exfalso. apply Hn. rewrite <- Eold. now apply in_map. }
    split.
    { intros u Hu Hne. apply in_replace. right. auto. }
    { intros u Hu Hne. apply in_replace in Hu.
      destruct Hu as [(-> & _) | (Hu & _)]; [ | exact Hu].
      exfalso. now apply Hne. }
  - injection Er as ->.
    destruct (db_insert_keeps_constraints _ _ _ _ Hi Hk Ei) as [Hi' Hk'].
    apply db_insert_ok in Ei.
    destruct Ei as (-> & Erows & Hfresh & _).
    split; [exact Hi' | ]. split; [exact Hk' | ].
    exists vd, (instance_of uuid4 vd). split; [exact Ev | ]. rewrite Erows.
    split; [apply in_or_app; right; now left | ].
    split; [reflexivity | ].
    split; [apply has_key_iff; cbn; auto | ].
    split; [reflexivity | ].
    split; [cbn; destruct (vd_is_submitted vd); reflexivity | ].
    split.
    { intros old Hold Eold. exfalso. now apply (Hfresh old Hold). }
    split.
    { intros u Hu _. apply in_or_app. now left. }
    { intros u Hu Hne. apply in_app_or in Hu.
      destruct Hu as [Hu | [<- | []]]; [exact Hu | ]. now elim Hne. }
Qed.

End Draft.

End DraftFacts.

Module DraftClaims.
Import WritePaths TableFacts DraftFacts.

Lemma sample_serializer_is_submitted (db : DB) (p : Payload)
    (vd : ValidatedData) (b : bool) :
  Sample.serializer db p = Some vd -> vd_is_submitted vd = Some b ->
  p_is_submitted p = Some b.
Proof.
  unfold Sample.serializer.
  destruct (p_target p), (p_period_start p) as [ps | ],
    (p_period_end p) as [pe | ], (p_period_name p), (p_actual_value p),
    (p_narrative p); try discriminate.
  destruct (Sample.parse_iso ps), (Sample.parse_iso pe); try discriminate.
  intros [= <-]. cbn. auto.
Qed.

(** The update-in-place branch of [save_draft], for a serializer that lets
    a second post for a stored key through: two saved posts for the same
    target, period start and period end leave exactly one row for that key,
    holding the actual value of the second post. *)
Lemma upsert_branch_updates_in_place
    (settings : option KPASettings) (now : date)
    (fromisoformat : string -> option date)
    (run_validation : DB -> Payload -> option ValidatedData)
    (uuid1 uuid2 : Z)
    (db db1 db2 : DB) (user1 user2 : User) (data1 data2 : Payload)
    (id1 id2 : Z) (vd1 vd2 : ValidatedData)
    (Hids : unique_ids db) (Hkeys : unique_keys db)
    (Hpost1 : save_draft settings now fromisoformat run_validation uuid1
                db user1 data1 = (db1, Saved id1))
    (Hpost2 : save_draft settings now fromisoformat run_validation uuid2
                db1 user2 data2 = (db2, Saved id2))
    (Hvd1 : run_validation db (set_evidence_and_draft data1) = Some vd1)
    (Hvd2 : run_validation db1 (set_evidence_and_draft data2) = Some vd2)
    (Htarget : vd_target vd1 = vd_target vd2)
    (Hstart : vd_period_start vd1 = vd_period_start vd2)
    (Hend : vd_period_end vd1 = vd_period_end vd2) :
  exists row,
    rows_with_key db2 (vd_target vd2) (vd_period_start vd2) (vd_period_end vd2)
    = [row]
    /\ actual_value row = vd_actual_value vd2
    /\ pu_id row = id1 /\ id2 = id1
    /\ List.length (progress_updates db2)
       = List.length (progress_updates db1).
Proof.
  destruct (save_draft_saved _ _ _ _ _ _ _ _ _ _ Hids Hkeys Hpost1)
    as (Hids1 & Hkeys1 & vd1' & row1 & Ev1 & Hin1 & Eid1 & Hkey1 & _).
  assert (vd1' = vd1) by congruence. subst vd1'.
  rewrite Htarget, Hstart, Hend in Hkey1.
  destruct (save_draft_saved _ _ _ _ _ _ _ _ _ _ Hids1 Hkeys1 Hpost2)
    as (Hids2 & Hkeys2 & vd2' & row2 & Ev2 & Hin2 & Eid2 & Hkey2 & Eact & _).
  assert (vd2' = vd2) by congruence. subst vd2'.
  exists row2.
  split; [now apply unique_key_filter | ]. split; [exact Eact | ].
  apply save_draft_cases in Hpost2.
  destruct Hpost2 as [[_ Hno] | [(vd & existing & Ev & Hin & _ & _ & Eu & Er)
                                | (vd & row & Ev & Ei & Er)]].
  - exfalso. now apply (Hno id2).
  - assert (vd = vd2) by congruence. subst vd.
    injection Er as Er. apply db_update_ok in Eu. destruct Eu as (Erows & Hrow).
    assert (Eid : pu_id existing = id1).
    { destruct (Z.eq_dec (pu_id row1) (pu_id existing)) as [E | Hne];
        [congruence | ].
      specialize (Hrow row1 Hin1 Hne).
      rewrite same_key_has_key in Hrow. cbn in Hrow. congruence. }
    split; [congruence | ]. split; [congruence | ].
    rewrite Erows. apply length_map.
  - assert (vd = vd2) by congruence. subst vd.
    apply db_insert_ok in Ei.
    destruct Ei as (_ & _ & _ & Hnew).
    specialize (Hnew row1 Hin1).
    rewrite same_key_has_key in Hnew. cbn in Hnew. congruence.
Qed.

(** C3.  A second draft post for a stored key is refused before the upsert
    is reached.  [save_draft] builds [ProgressUpdateSerializer(data=payload)]
    without an instance, so the check the serializer derives from
    [unique_together] runs against the whole table before the view looks
    for the draft to update.  Once a first draft post has been saved, a
    second post for the same target, period start and period end is never
    saved: the serializer refuses it, the table stays as the first post
    left it, with exactly one row for the key and in it the actual value of
    the first post, not of the latest, and the answer is 400 unless an
    earlier check of the view (target, permission, quarter lock) has
    already answered.  The two posts of [test_autosave_upserts_draft], 5
    and then 7, end in 400 with one row holding 5, where the test asserts
    200 and 7. *)
Theorem draft_second_post_is_refused
    (settings : option KPASettings) (now : date)
    (fromisoformat : string -> option date)
    (to_internal_value : DB -> Payload -> option ValidatedData)
    (uuid1 uuid2 : Z)
    (db db1 : DB) (user1 user2 : User) (data1 data2 : Payload)
    (id1 : Z) (vd1 vd2 : ValidatedData)
    (Hids : unique_ids db) (Hkeys : unique_keys db)
    (Hpost1 : save_draft settings now fromisoformat
                (serializer_without_instance to_internal_value) uuid1
                db user1 data1 = (db1, Saved id1))
    (Hvd1 : to_internal_value db (set_evidence_and_draft data1) = Some vd1)
    (Hvd2 : to_internal_value db1 (set_evidence_and_draft data2) = Some vd2)
    (Htarget : vd_target vd1 = vd_target vd2)
    (Hstart : vd_period_start vd1 = vd_period_start vd2)
    (Hend : vd_period_end vd1 = vd_period_end vd2) :
  let second :=
    save_draft settings now fromisoformat
      (serializer_without_instance to_internal_value) uuid2
      db1 user2 data2 in
  let test_post uuid db actual text :=
    save_draft Sample.lock_off (mkdate 2024 7 1) Sample.parse_iso
      (serializer_without_instance Sample.serializer) uuid db
      Sample.programme_manager (Sample.draft_payload actual text) in
  serializer_without_instance to_internal_value db1
    (set_evidence_and_draft data2) = None
  /\ fst second = db1
  /\ (forall id2, snd second <> Saved id2)
  /\ status_code (snd second) <> 200
  /\ (snd second = ValidationErrors \/ snd second = TargetRequired
      \/ snd second = NotAuthorized \/ snd second = QuarterLocked
      \/ exists e, snd second = Unhandled e)
  /\ (exists row,
        rows_with_key db1 (vd_target vd2) (vd_period_start vd2)
          (vd_period_end vd2) = [row]
        /\ pu_id row = id1
        /\ actual_value row = vd_actual_value vd1)
  /\ (let db1 := fst (test_post 11 (Sample.db_of []) (5 # 1) "A"%string) in
      snd (test_post 11 (Sample.db_of []) (5 # 1) "A"%string) = Saved 11
      /\ test_post 12 db1 (7 # 1) "B"%string = (db1, ValidationErrors)
      /\ status_code (snd (test_post 12 db1 (7 # 1) "B"%string)) = 400
      /\ map actual_value (progress_updates db1) = [(5 # 1)%Q]).
Proof.
  cbv zeta.
  destruct (save_draft_saved _ _ _ _ _ _ _ _ _ _ Hids Hkeys Hpost1)
    as (Hids1 & Hkeys1 & vd1' & row1 & Ev1 & Hin1 & Eid1 & Hkey1 & Eact1 & _).
  assert (vd1' = vd1).
  { unfold serializer_without_instance in Ev1. rewrite Hvd1 in Ev1.
    destruct (unique_together_validator db vd1); congruence. }
  subst vd1'. rewrite Htarget, Hstart, Hend in Hkey1.
  assert (Hnone : serializer_without_instance to_internal_value db1
                    (set_evidence_and_draft data2) = None).
  { unfold serializer_without_instance. rewrite Hvd2.
    unfold unique_together_validator.
    assert (E : existsb (has_key (vd_target vd2) (vd_period_start vd2)
                                 (vd_period_end vd2))
                        (progress_updates db1) = true).
    { apply existsb_exists. exists row1. split; assumption. }
    rewrite E. reflexivity. }
  split; [exact Hnone | ].
  assert (Hsecond :
    fst (save_draft settings now fromisoformat
           (serializer_without_instance to_internal_value) uuid2
           db1 user2 data2) = db1
    /\ (snd (save_draft settings now fromisoformat
               (serializer_without_instance to_internal_value) uuid2
               db1 user2 data2) = ValidationErrors
        \/ snd (save_draft settings now fromisoformat
                  (serializer_without_instance to_internal_value) uuid2
                  db1 user2 data2) = TargetRequired
        \/ snd (save_draft settings now fromisoformat
                  (serializer_without_instance to_internal_value) uuid2
                  db1 user2 data2) = NotAuthorized
        \/ snd (save_draft settings now fromisoformat
                  (serializer_without_instance to_internal_value) uuid2
                  db1 user2 data2) = QuarterLocked
        \/ exists e,
             snd (save_draft settings now fromisoformat
                    (serializer_without_instance to_internal_value) uuid2
                    db1 user2 data2) = Unhandled e)).
  { unfold save_draft. rewrite Hnone.
    repeat match goal with
           | |- context [match ?x with _ => _ end] => destruct x
           end; cbn [fst snd]; split; eauto 6. }
  destruct Hsecond as [Hdb Hresp].
  split; [exact Hdb | ].
  split.
  { intros id2 E. rewrite E in Hresp.
    destruct Hresp as [H | [H | [H | [H | [e H]]]]]; discriminate H. }
  split.
  { destruct Hresp as [H | [H | [H | [H | [e H]]]]]; rewrite H; cbn;
      discriminate. }
  split; [exact Hresp | ].
  split.
  { exists row1. split; [now apply unique_key_filter | ]. split; assumption. }
  repeat split; reflexivity.
Qed.

Lemma draft_second_post_is_refused_witness :
  let post uuid db actual text :=
    save_draft Sample.lock_off (mkdate 2024 7 1) Sample.parse_iso
      (serializer_without_instance Sample.serializer) uuid db
      Sample.programme_manager (Sample.draft_payload actual text) in
  let db1 := fst (post 11 (Sample.db_of []) (5 # 1) "A"%string) in
  post 11 (Sample.db_of []) (5 # 1) "A"%string = (db1, Saved 11)
  /\ fst (post 12 db1 (7 # 1) "B"%string) = db1
  /\ status_code (snd (post 12 db1 (7 # 1) "B"%string)) <> 200
  /\ exists row,
       rows_with_key db1 1 (mkdate 2024 4 1) (mkdate 2024 6 30) = [row]
       /\ pu_id row = 11
       /\ actual_value row = (5 # 1)%Q.
Proof.
  cbv zeta. split; [reflexivity | ].
  destruct (draft_second_post_is_refused
              Sample.lock_off (mkdate 2024 7 1) Sample.parse_iso
              Sample.serializer 11 12 (Sample.db_of [])
              (fst (save_draft Sample.lock_off (mkdate 2024 7 1)
                      Sample.parse_iso
                      (serializer_without_instance Sample.serializer) 11
                      (Sample.db_of []) Sample.programme_manager
                      (Sample.draft_payload (5 # 1) "A")))
              Sample.programme_manager Sample.programme_manager
              (Sample.draft_payload (5 # 1) "A")
              (Sample.draft_payload (7 # 1) "B") 11
              (mkVD 1 (Some "MONTHLY"%string) (mkdate 2024 4 1)
                    (mkdate 2024 6 30) "Q1 2024/25" (5 # 1) "A" None
                    None None None None None (Some false) None)
              (mkVD 1 (Some "MONTHLY"%string) (mkdate 2024 4 1)
                    (mkdate 2024 6 30) "Q1 2024/25" (7 # 1) "B" None
                    None None None None None (Some false) None))
    as (_ & Hdb & _ & Hstatus & _ & Hrow & _);
    try reflexivity.
  - constructor.
  - constructor.
  - split; [exact Hdb | ]. split; [exact Hstatus | exact Hrow].
Defined.

(** C10.  Whatever the payload says, a row the draft endpoint creates or
    updates is a draft afterwards ([is_submitted] is false); the row it
    updates in place was an active draft before; no other row is created
    or changed, so a submitted update stays as it was; and a call that does
    not answer 200 writes nothing.  The serializer is taken to hand back
    the [is_submitted] it is given. *)
Theorem draft_autosave_keeps_submitted_rows
    (settings : option KPASettings) (now : date)
    (fromisoformat : string -> option date)
    (run_validation : DB -> Payload -> option ValidatedData)
    (Hser : forall db p vd b,
        run_validation db p = Some vd -> vd_is_submitted vd = Some b ->
        p_is_submitted p = Some b)
    (uuid4 : Z)
    (db db' : DB) (user : User) (data : Payload) (resp : Response)
    (Hids : unique_ids db) (Hkeys : unique_keys db)
    (Hcall : save_draft settings now fromisoformat run_validation uuid4
               db user data = (db', resp)) :
  (forall id, resp = Saved id ->
     (exists row, In row (progress_updates db') /\ pu_id row = id
                  /\ is_submitted row = false)
     /\ (forall old, In old (progress_updates db) -> pu_id old = id ->
                     is_submitted old = false /\ is_active old = true)
     /\ (forall u, In u (progress_updates db') -> pu_id u <> id ->
                   In u (progress_updates db)))
  /\ (forall u, In u (progress_updates db) -> is_submitted u = true ->
                In u (progress_updates db'))
  /\ ((forall id, resp <> Saved id) -> db' = db).
Proof.
  assert (Hsaved : forall id, resp = Saved id ->
    exists row, In row (progress_updates db') /\ pu_id row = id
                /\ is_submitted row = false
                /\ (forall old, In old (progress_updates db) ->
                      pu_id old = id ->
                      is_submitted old = false /\ is_active old = true)
                /\ (forall u, In u (progress_updates db) -> pu_id u <> id ->
                              In u (progress_updates db'))
                /\ (forall u, In u (progress_updates db') -> pu_id u <> id ->
                              In u (progress_updates db))).
  { intros id ->.
    destruct (save_draft_saved _ _ _ _ _ _ _ _ _ _ Hids Hkeys Hcall)
      as (_ & _ & vd & row & Ev & Hin & Eid & _ & _ & Esub & Hold & Hkeep & Hrev).
    exists row. repeat split; try assumption; try (now apply Hold).
    rewrite Esub. destruct (vd_is_submitted vd) as [b | ] eqn:Eb; [ | reflexivity].
    specialize (Hser _ _ _ _ Ev Eb). cbn in Hser. congruence. }
  split; [ | split].
  - intros id Er. destruct (Hsaved id Er) as (row & H1 & H2 & H3 & H4 & _ & H6).
    split; [eauto | ]. split; assumption.
  - intros u Hu Hsub.
    apply save_draft_cases in Hcall.
    destruct Hcall as [[-> _] | Hs]; [exact Hu | ].
    assert (exists id, resp = Saved id) as [id Er].
    { destruct Hs as [(? & ? & _ & _ & _ & _ & _ & ->)
                     | (? & ? & _ & _ & ->)]; eauto. }
    destruct (Hsaved id Er) as (_ & _ & _ & _ & Hold & Hkeep & _).
    apply Hkeep; [exact Hu | ]. intros E.
    destruct (Hold u Hu E). congruence.
  - intros Hno. apply save_draft_cases in Hcall.
    destruct Hcall as [[-> _] | [(? & ? & _ & _ & _ & _ & _ & Er)
                                | (? & ? & _ & _ & Er)]];
      [reflexivity | | ]; exfalso; eapply Hno; exact Er.
Qed.

Lemma draft_autosave_keeps_submitted_rows_witness :
  let submitted :=
    mkPU 1 1 "MONTHLY" (mkdate 2024 4 1) (mkdate 2024 4 30) "April 2024"
         (90 # 1) "done" [] "LOW" "" "" None "MEDIUM" true false true in
  let db := Sample.db_of [submitted] in
  let call := save_draft Sample.lock_off (mkdate 2024 7 1) Sample.parse_iso
                Sample.serializer 12 db Sample.programme_manager
                (Sample.draft_payload (5 # 1) "A") in
  WritePaths.p_is_submitted (Sample.draft_payload (5 # 1) "A") = Some true
  /\ snd call = Saved 12
  /\ (exists row, In row (progress_updates (fst call)) /\ pu_id row = 12
                  /\ is_submitted row = false)
  /\ In submitted (progress_updates (fst call)).
Proof.
  cbv zeta. split; [reflexivity | ]. split; [reflexivity | ].
  destruct (draft_autosave_keeps_submitted_rows
              Sample.lock_off (mkdate 2024 7 1) Sample.parse_iso
              Sample.serializer sample_serializer_is_submitted 12
              (Sample.db_of
                 [mkPU 1 1 "MONTHLY" (mkdate 2024 4 1) (mkdate 2024 4 30)
                       "April 2024" (90 # 1) "done" [] "LOW" "" "" None
                       "MEDIUM" true false true])
              (fst (save_draft Sample.lock_off (mkdate 2024 7 1)
                      Sample.parse_iso Sample.serializer 12
                      (Sample.db_of
                         [mkPU 1 1 "MONTHLY" (mkdate 2024 4 1)
                               (mkdate 2024 4 30) "April 2024" (90 # 1) "done"
                               [] "LOW" "" "" None "MEDIUM" true false true])
                      Sample.programme_manager
                      (Sample.draft_payload (5 # 1) "A")))
              Sample.programme_manager (Sample.draft_payload (5 # 1) "A")
              (Saved 12))
    as (Hsaved & Hkeep & _).
  - repeat constructor. cbn. tauto.
  - repeat constructor.
  - reflexivity.
  - split; [apply (Hsaved 12 eq_refl) | ].
    apply Hkeep; [now left | reflexivity].
Defined.

End DraftClaims.

(* ================================================================== *)
(** * The quarter lock at the write paths *)
(* ================================================================== *)

Module LockFacts.
Import WritePaths.

(** The draft endpoint refuses a locked period it can read, and writes
    nothing. *)
Lemma save_draft_refuses_locked_period
    (settings : option KPASettings) (now : date)
    (fromisoformat : string -> option date)
    (run_validation : DB -> Payload -> option ValidatedData) (uuid4 : Z)
    (db : DB) (user : User) (data : Payload) (target : Target)
    (fin_year : FinancialYear) (raw : string) (period_end_dt : date) :
  match py_or (p_target data) (p_target_id data) with
  | Some id => find (fun t => target_id t =? id) (targets db)
  | None => None
  end = Some target ->
  can_edit user target = true ->
  financial_year_of db target = Dec.Ok fin_year ->
  p_period_end data = Some raw ->
  fromisoformat raw = Some period_end_dt ->
  UtilsTime.is_period_locked settings now fin_year period_end_dt None = true ->
  save_draft settings now fromisoformat run_validation uuid4 db user data
  = (db, QuarterLocked).
Proof.
  intros Ht Hedit Hfy Hraw Hiso Hlock. unfold save_draft.
  rewrite Ht. unfold can_edit in Hedit. rewrite Hedit. cbn [negb].
  rewrite Hfy, Hraw, Hiso, Hlock. reflexivity.
Qed.

(** When [datetime.fromisoformat] raises on the period end, the draft
    endpoint goes on without the lock check: what the serializer makes of
    the same string is saved, whatever quarter it falls in. *)
Lemma save_draft_skips_lock_on_unreadable_date
    (settings : option KPASettings) (now : date)
    (fromisoformat : string -> option date)
    (run_validation : DB -> Payload -> option ValidatedData) (uuid4 : Z)
    (db : DB) (user : User) (data : Payload) (target : Target)
    (fin_year : FinancialYear) (raw : string) (vd : ValidatedData) :
  match py_or (p_target data) (p_target_id data) with
  | Some id => find (fun t => target_id t =? id) (targets db)
  | None => None
  end = Some target ->
  can_edit user target = true ->
  financial_year_of db target = Dec.Ok fin_year ->
  p_period_end data = Some raw ->
  fromisoformat raw = None ->
  run_validation db (set_evidence_and_draft data) = Some vd ->
  progress_updates db = [] ->
  save_draft settings now fromisoformat run_validation uuid4 db user data
  = (set_updates db [instance_of uuid4 vd], Saved uuid4).
Proof.
  intros Ht Hedit Hfy Hraw Hiso Hvd Hrows. unfold save_draft.
  rewrite Ht. unfold can_edit in Hedit. rewrite Hedit. cbn [negb].
  rewrite Hfy, Hraw, Hiso, Hvd. unfold db_insert. rewrite Hrows. reflexivity.
Qed.

(** The wizard saves nothing for a locked period. *)
Lemma update_wizard_refuses_locked_period
    (settings : option KPASettings) (now : date)
    (float_ratio : Z -> Z -> Q) (post_clean : DB -> ProgressUpdate -> bool)
    (uuid4 : Z) (db : DB) (user : User) (target_pk : Z) (req : FormRequest)
    (target : Target) (fin_year : FinancialYear) (pe : date) :
  find (fun t => target_id t =? target_pk) (targets db) = Some target ->
  financial_year_of db target = Dec.Ok fin_year ->
  c_period_end (cleaned req) = Some pe ->
  UtilsTime.is_period_locked settings now fin_year pe None = true ->
  fst (update_wizard_view settings now float_ratio post_clean uuid4 db user
         target_pk req) = db
  /\ forall id, snd (update_wizard_view settings now float_ratio post_clean
                       uuid4 db user target_pk req) <> RedirectSaved id.
Proof.
  intros Ht Hfy Hpe Hlock. unfold update_wizard_view. rewrite Ht.
  destruct (negb (can_edit user target)); [split; [reflexivity | discriminate] | ].
  destruct (method req); [split; [reflexivity | discriminate] | ].
  match goal with |- context [if ?c then _ else _] => destruct c end;
    [ | split; [reflexivity | discriminate]].
  rewrite Hfy, Hpe, Hlock. split; [reflexivity | discriminate].
Qed.

(** The progress form of the manager page does not depend on the quarter
    lock: whatever [QUARTER_LOCK] holds, it does the same. *)
Lemma manager_view_ignores_quarter_lock
    (lock lock' : option QuarterLock) (evidence_months : option Z)
    (now : date) (float_ratio : Z -> Z -> Q)
    (strftime : string -> date -> string) (str_of_int : Z -> string)
    (post_clean : DB -> ProgressUpdate -> bool) (uuid4 : Z)
    (db : DB) (user : User) (target_pk : Z) (req : FormRequest) :
  manager_progress_update_view (Some (mkSettings lock evidence_months)) now
    float_ratio strftime str_of_int post_clean uuid4 db user target_pk req
  = manager_progress_update_view (Some (mkSettings lock' evidence_months)) now
      float_ratio strftime str_of_int post_clean uuid4 db user target_pk req.
Proof. reflexivity. Qed.

End LockFacts.

Module LockClaims.
Import WritePaths.

(** C4.  Not every write path honours the quarter lock.  With the lock
    enabled and a grace of 14 days, on 2024-08-01 the period ending
    2024-05-31 is locked (its quarter ended on 2024-06-30): the draft
    endpoint answers 423 and the wizard shows the lock error, both writing
    nothing, but the progress form of the manager page, which never asks
    [is_period_locked], saves the update. *)
Theorem manager_view_saves_into_locked_quarter
    (float_ratio : Z -> Z -> Q) (strftime : string -> date -> string)
    (str_of_int : Z -> string) :
  let today := mkdate 2024 8 1 in
  let uuid4 := 21 in
  let db := Sample.db_of [] in
  let locked_draft :=
    mkPayload (Some 1) None (Some "MONTHLY"%string) (Some "2024-05-01"%string)
      (Some "2024-05-31"%string) (Some "May 2024"%string) (Some (400 # 1))
      (Some "progress"%string) EvAbsent None None None None None None None in
  UtilsTime.is_period_locked Sample.lock_on today Sample.fy_2024_25
    (mkdate 2024 5 31) None = true
  /\ save_draft Sample.lock_on today Sample.parse_iso Sample.serializer uuid4
       db Sample.programme_manager locked_draft = (db, QuarterLocked)
  /\ status_code QuarterLocked = 423
  /\ update_wizard_view Sample.lock_on today float_ratio (fun _ _ => true)
       uuid4 db Sample.programme_manager 1 (Sample.may_form (400 # 1))
     = (db, Rendered true)
  /\ exists row,
       manager_progress_update_view Sample.lock_on today float_ratio
         strftime str_of_int (fun _ _ => true) uuid4 db
         Sample.programme_manager 1 (Sample.may_form (400 # 1))
       = (set_updates db [row], RedirectSaved uuid4)
       /\ period_start row = mkdate 2024 5 1
       /\ period_end row = mkdate 2024 5 31
       /\ actual_value row = (400 # 1)%Q
       /\ is_submitted row = true.
Proof.
  cbv zeta. split; [reflexivity | ]. split; [reflexivity | ].
  split; [reflexivity | ]. split; [reflexivity | ].
  eexists. split; [reflexivity | ]. repeat split; reflexivity.
Qed.

End LockClaims.

(* ================================================================== *)
(** * No data is GREY *)
(* ================================================================== *)

Module NoDataFacts.
Import RatioFacts Views Models.

Lemma no_updates_in_window (db : DB) (t : Target) (start end_ : date) :
  active_updates_of db t = [] -> updates_in_window db t start end_ = [].
Proof.
  unfold active_updates_of, updates_in_window. intros H.
  apply TableFacts.filter_none. intros u Hu.
  destruct ((pu_target u =? target_id t) && is_active u) eqn:E.
  - assert (In u (filter (fun u => (pu_target u =? target_id t) && is_active u)
                         (progress_updates db)))
      by (apply filter_In; auto).
    rewrite H in H0. destruct H0.
  - apply andb_false_iff in E. destruct E as [-> | ->];
      [reflexivity | apply andb_false_r].
Qed.

(** The model methods answer GREY for a target without an active update. *)
Lemma model_rag_without_updates (today : date) (float_ratio : Z -> Z -> Q)
    (db : DB) (t : Target) :
  active_updates_of db t = [] ->
  calculate_rag_status today float_ratio db t None = Dec.Ok GREY
  /\ get_rag_status db t = GREY.
Proof.
  intros H.
  unfold calculate_rag_status, get_latest_progress, get_rag_status.
  rewrite H. cbn. auto.
Qed.

(** The drilldown answers RED for it, whenever its amber threshold is
    above zero. *)
Lemma drilldown_rag_without_updates (db : DB) (t : Target)
    (fy : FinancialYear) (as_of : date) (yt p : Q) :
  active_updates_of db t = [] ->
  (0 < amber_threshold t)%Q -> (0 < green_threshold t)%Q ->
  compute_percent (sum_actuals_ytd db t fy as_of) (Some yt) = Dec.Ok p ->
  compute_rag_from_percent p (Some t) = RED.
Proof.
  intros H Ha Hg. unfold sum_actuals_ytd, fy_bounds.
  rewrite no_updates_in_window by assumption. cbn [fold_left].
  unfold compute_percent.
  assert (Hp : forall q, (q == 0)%Q -> compute_rag_from_percent q (Some t) = RED).
  { intros q Hq. unfold compute_rag_from_percent.
    assert (E1 : Dec.geb q (green_threshold t) = false)
      by (apply geb_false_iff; rewrite Hq; exact Hg).
    assert (E2 : Dec.geb q (amber_threshold t) = false)
      by (apply geb_false_iff; rewrite Hq; exact Ha).
    rewrite E1, E2. reflexivity. }
  destruct (Dec.is_zero yt) eqn:E.
  - intros [= <-]. apply Hp. reflexivity.
  - rewrite div_nonzero by assumption. cbn [Dec.bind]. intros [= <-].
    apply Hp. unfold Dec.D0, Dec.D100. field.
    intros Hz. apply is_zero_iff in Hz. congruence.
Qed.

End NoDataFacts.

Module NoDataClaims.
Import Views Models NoDataFacts.

(** C1.  No data is GREY in the model methods but RED in the drilldown.
    The monthly target of the sample has no progress update:
    [calculate_rag_status] and [get_rag_status] answer GREY for it, while
    [kpa_drilldown_view] sums no actuals, computes 0 percent, and
    [compute_rag_from_percent] answers RED, which the row of the plan item
    then carries. *)
Theorem drilldown_reports_no_data_as_red
    (today : date) (float_ratio : Z -> Z -> Q) :
  let db := Sample.db_of [] in
  let t := Sample.monthly_target in
  let fy := Sample.fy_2024_25 in
  let as_of := mkdate 2024 6 30 in
  active_updates_of db t = []
  /\ calculate_rag_status today float_ratio db t None = Dec.Ok GREY
  /\ get_rag_status db t = GREY
  /\ (exists yt p,
        ytd_target_value t fy as_of = Dec.Ok yt
        /\ compute_percent (sum_actuals_ytd db t fy as_of) (Some yt) = Dec.Ok p
        /\ (p == 0)%Q
        /\ compute_rag_from_percent p (Some t) = RED)
  /\ (exists row,
        drilldown_row db fy as_of (mkItem 1 1 0 0 true) = Dec.Ok row
        /\ row_rag row = RED)
  /\ compute_rag_from_percent 0 None = RED.
Proof.
  cbv zeta. split; [reflexivity | ].
  split; [apply model_rag_without_updates; reflexivity | ].
  split; [reflexivity | ].
  split; [eexists; eexists; repeat split; reflexivity | ].
  split; [eexists; split; reflexivity | reflexivity].
Qed.

End NoDataClaims.

(* ================================================================== *)
(** * Further properties of the engine and of the views around it *)
(* ================================================================== *)

Module QuarterFacts.
Import CalendarFacts RelativeDeltaFacts CalendarEngine UtilsTime.

Lemma date_leb_toordinal (a b : date) :
  valid_date a -> valid_date b ->
  (date_leb a b = true <-> toordinal a <= toordinal b).
Proof.
  intros Ha Hb. unfold date_leb. rewrite negb_true_iff.
  apply date_ltb_false_toordinal; assumption.
Qed.

Lemma add_months_valid (d : date) (k : Z) :
  valid_date d -> valid_date (add_months d k).
Proof. intros H. apply (add_months_spec d k H). Qed.

Lemma add_months_le (d : date) (j k : Z) :
  valid_date d -> j <= k ->
  toordinal (add_months d j) <= toordinal (add_months d k).
Proof.
  intros Hd Hjk.
  destruct (Z.eq_dec j k) as [-> | Hne]; [lia | ].
  assert (H : date_ltb (add_months d j) (add_months d k) = true)
    by (apply add_months_lt; [assumption | lia]).
  apply date_ltb_toordinal in H; try apply add_months_valid; try assumption.
  lia.
Qed.

Lemma in_fy_month_mono (start d d' : date) (n n' : Z) :
  valid_date start -> valid_date d -> valid_date d' ->
  Spec.in_fy_month start n d -> Spec.in_fy_month start n' d' ->
  toordinal d <= toordinal d' -> n <= n'.
Proof.
  intros Hs Hd Hd' [Hlo _] [_ Hhi] Hle.
  apply date_leb_toordinal in Hlo; try apply add_months_valid; try assumption.
  apply date_ltb_toordinal in Hhi; try apply add_months_valid; try assumption.
  destruct (Z_le_gt_dec n n') as [H | H]; [assumption | exfalso].
  assert (Hm := add_months_le start n' (n - 1) Hs ltac:(lia)).
  lia.
Qed.

Lemma clamped_toordinal (end_ a : date) :
  valid_date end_ -> valid_date a ->
  toordinal (Spec.clamped end_ a) = Z.min (toordinal a) (toordinal end_).
Proof.
  intros He Ha. unfold Spec.clamped, date_gtb.
  destruct (date_ltb end_ a) eqn:E.
  - apply date_ltb_toordinal in E; try assumption. lia.
  - apply date_ltb_false_toordinal in E; try assumption. lia.
Qed.

Lemma months_elapsed_in_fy_mono (start end_ a b : date) :
  valid_date start -> valid_date end_ -> valid_date a -> valid_date b ->
  date_leb start end_ = true -> date_leb a b = true ->
  0 <= months_elapsed_in_fy start end_ a
       <= months_elapsed_in_fy start end_ b.
Proof.
  intros Hs He Ha Hb Hse Hab.
  apply date_leb_toordinal in Hab; try assumption.
  destruct (date_ltb a start) eqn:Ea.
  - rewrite (months_elapsed_before start end_ a Ea).
    destruct (date_ltb b start) eqn:Eb.
    + rewrite (months_elapsed_before start end_ b Eb). lia.
    + destruct (months_elapsed_in_fy_ordinal start end_ b Hs He Hb Hse Eb). lia.
  - assert (Eb : date_ltb b start = false).
    { apply date_ltb_false_toordinal; try assumption.
      apply date_ltb_false_toordinal in Ea; try assumption. lia. }
    destruct (months_elapsed_in_fy_ordinal start end_ a Hs He Ha Hse Ea)
      as [H1 Hina].
    destruct (months_elapsed_in_fy_ordinal start end_ b Hs He Hb Hse Eb)
      as [_ Hinb].
    split; [lia | ].
    destruct (clamped_valid start end_ a Hs He Ha Hse Ea) as [Hva _].
    destruct (clamped_valid start end_ b Hs He Hb Hse Eb) as [Hvb _].
    apply (in_fy_month_mono start _ _ _ _ Hs Hva Hvb Hina Hinb).
    rewrite !clamped_toordinal by assumption. lia.
Qed.

Lemma months_elapsed_in_fy_saturates (start end_ a : date) :
  valid_date start -> valid_date end_ -> valid_date a ->
  date_leb start end_ = true -> date_leb end_ a = true ->
  months_elapsed_in_fy start end_ a = months_elapsed_in_fy start end_ end_.
Proof.
  intros Hs He Ha Hse Hea.
  unfold months_elapsed_in_fy, date_gtb.
  assert (E1 : date_ltb a start = false).
  { apply date_ltb_false_toordinal; try assumption.
    apply date_leb_toordinal in Hse, Hea; try assumption. lia. }
  assert (E2 : date_ltb end_ start = false).
  { unfold date_leb in Hse. now apply negb_true_iff in Hse. }
  rewrite E1, E2, date_ltb_irrefl.
  destruct (date_ltb end_ a) eqn:E3; [reflexivity | ].
  unfold date_leb in Hea. apply negb_true_iff in Hea.
  rewrite (date_ltb_antisym _ _ E3 Hea). reflexivity.
Qed.


(** ** A year that starts on a day every month has *)

Lemma add_months_day28 (d : date) (k : Z) :
  valid_date d -> day d <= 28 -> day (add_months d k) = day d.
Proof.
  intros Hd H28.
  destruct (add_months_spec d k Hd) as [[Hm _] [_ Hday]].
  rewrite Hday.
  pose proof (days_in_month_pos (year (add_months d k)) _ Hm). lia.
Qed.

Lemma date_eq_index (a b : date) :
  1 <= month a <= 12 -> 1 <= month b <= 12 ->
  month_index a = month_index b -> day a = day b -> a = b.
Proof.
  destruct a as [ya ma da], b as [yb mb db]. unfold month_index. cbn.
  intros Ha Hb Hi Hd.
  assert (ya = yb) by lia. assert (ma = mb) by lia. congruence.
Qed.

Lemma add_months_add (d : date) (j k : Z) :
  valid_date d -> day d <= 28 ->
  add_months (add_months d j) k = add_months d (j + k).
Proof.
  intros Hd H28.
  pose proof (add_months_valid d j Hd) as Hj.
  pose proof (add_months_day28 d j Hd H28) as Hdj.
  destruct (add_months_spec d j Hd) as [_ [Hij _]].
  destruct (add_months_spec (add_months d j) k Hj) as [[Hm1 _] [Hi1 _]].
  destruct (add_months_spec d (j + k) Hd) as [[Hm2 _] [Hi2 _]].
  apply date_eq_index; try assumption.
  - lia.
  - rewrite (add_months_day28 _ k Hj) by lia.
    rewrite (add_months_day28 d (j + k) Hd H28). assumption.
Qed.

(** The end of quarter [q], before it is clamped to the end of the year. *)
Lemma quarter_end_ordinal (fy : FinancialYear) (q : Z) :
  valid_date (start_date fy) -> valid_date (end_date fy) ->
  day (start_date fy) <= 28 ->
  toordinal (Spec.quarter_end fy q)
  = Z.min (toordinal (end_date fy))
          (toordinal (add_months (start_date fy) (3 * q)) - 1).
Proof.
  intros Hs He H28. unfold Spec.quarter_end.
  rewrite (add_months_add _ _ _ Hs H28).
  replace (3 * (q - 1) + 3) with (3 * q) by lia.
  pose proof (add_months_valid (start_date fy) (3 * q) Hs) as Hv.
  destruct (add_days_spec _ (-1) Hv) as [Hv' Ho].
  destruct (date_ltb _ _) eqn:E.
  - apply date_ltb_toordinal in E; try assumption. lia.
  - apply date_ltb_false_toordinal in E; try assumption. lia.
Qed.

(** A year of at most twelve months has at most twelve months elapsed. *)
Lemma months_elapsed_at_most_12 (start end_ as_of : date) :
  valid_date start -> valid_date end_ -> valid_date as_of ->
  date_leb start end_ = true ->
  date_ltb end_ (add_months start 12) = true ->
  months_elapsed_in_fy start end_ as_of <= 12.
Proof.
  intros Hs He Ha Hse H12.
  destruct (date_ltb as_of start) eqn:Ea.
  - rewrite (months_elapsed_before _ _ _ Ea). lia.
  - destruct (months_elapsed_in_fy_ordinal start end_ as_of Hs He Ha Hse Ea)
      as [H1 [Hlo _]].
    destruct (clamped_valid start end_ as_of Hs He Ha Hse Ea) as [Hvc _].
    apply date_leb_toordinal in Hlo; try apply add_months_valid; try assumption.
    rewrite clamped_toordinal in Hlo by assumption.
    apply date_ltb_toordinal in H12; try apply add_months_valid; try assumption.
    destruct (Z_le_gt_dec (months_elapsed_in_fy start end_ as_of) 12)
      as [H | H]; [assumption | exfalso].
    pose proof (add_months_le start 12
                  (months_elapsed_in_fy start end_ as_of - 1) Hs ltac:(lia)).
    lia.
Qed.

Lemma quarter_end_for_covers (fy : FinancialYear) (as_of : date) :
  valid_date (start_date fy) -> valid_date (end_date fy) -> valid_date as_of ->
  day (start_date fy) <= 28 ->
  date_ltb (end_date fy) (add_months (start_date fy) 12) = true ->
  date_leb (start_date fy) as_of = true ->
  date_leb as_of (end_date fy) = true ->
  toordinal as_of <= toordinal (quarter_end_for fy as_of)
                  <= toordinal (end_date fy).
Proof.
  intros Hs He Ha H28 H12 Hsa Hae.
  assert (Hse : date_leb (start_date fy) (end_date fy) = true)
    by (eapply date_leb_trans; eassumption).
  assert (Ea : date_ltb as_of (start_date fy) = false)
    by (unfold date_leb in Hsa; now apply negb_true_iff in Hsa).
  rewrite quarter_end_for_index.
  pose proof (months_elapsed_at_most_12 _ _ _ Hs He Ha Hse H12) as Hm12.
  destruct (months_elapsed_in_fy_ordinal _ _ _ Hs He Ha Hse Ea)
    as [H1 [_ Hhi]].
  destruct (clamped_valid _ _ _ Hs He Ha Hse Ea) as [Hvc _].
  apply date_ltb_toordinal in Hhi; try apply add_months_valid; try assumption.
  rewrite clamped_toordinal in Hhi by assumption.
  apply date_leb_toordinal in Hae; try assumption.
  set (m := months_elapsed_in_fy (start_date fy) (end_date fy) as_of) in *.
  destruct (m <=? 0) eqn:E0; [apply Z.leb_le in E0; lia | ].
  rewrite quarter_end_ordinal by assumption.
  assert (Hq : m <= 3 * Z.min 4 ((m + 2) / 3)).
  { apply Z.min_case_strong; intros; [lia | divmod]. }
  pose proof (add_months_le (start_date fy) m (3 * Z.min 4 ((m + 2) / 3))
                Hs Hq).
  lia.
Qed.


(** The end of the quarter lies in the quarter it ends. *)
Lemma quarter_end_for_idempotent (fy : FinancialYear) (as_of : date) :
  valid_date (start_date fy) -> valid_date (end_date fy) -> valid_date as_of ->
  day (start_date fy) <= 28 ->
  date_ltb (end_date fy) (add_months (start_date fy) 12) = true ->
  date_leb (start_date fy) as_of = true ->
  date_leb as_of (end_date fy) = true ->
  quarter_end_for fy (quarter_end_for fy as_of) = quarter_end_for fy as_of.
Proof.
  intros Hs He Ha H28 H12 Hsa Hae.
  pose proof (quarter_end_for_covers fy as_of Hs He Ha H28 H12 Hsa Hae)
    as [Hlo Hhi].
  pose proof (quarter_end_for_valid fy as_of Hs He) as Hv.
  assert (Hse : date_leb (start_date fy) (end_date fy) = true)
    by (eapply date_leb_trans; eassumption).
  assert (Ea : date_ltb as_of (start_date fy) = false)
    by (unfold date_leb in Hsa; now apply negb_true_iff in Hsa).
  assert (Ee : date_ltb (quarter_end_for fy as_of) (start_date fy) = false).
  { apply date_ltb_false_toordinal; try assumption.
    apply date_leb_toordinal in Hsa; try assumption. lia. }
  assert (Hmono : months_elapsed_in_fy (start_date fy) (end_date fy) as_of
                  <= months_elapsed_in_fy (start_date fy) (end_date fy)
                       (quarter_end_for fy as_of)).
  { apply months_elapsed_in_fy_mono; try assumption.
    apply date_leb_toordinal; assumption. }
  pose proof (months_elapsed_at_most_12 _ _ as_of Hs He Ha Hse H12) as Hm12.
  destruct (months_elapsed_in_fy_ordinal _ _ _ Hs He Ha Hse Ea) as [H1 _].
  destruct (months_elapsed_in_fy_ordinal _ _ _ Hs He Hv Hse Ee)
    as [_ [Hlo' _]].
  destruct (clamped_valid _ _ _ Hs He Hv Hse Ee) as [Hvc _].
  apply date_leb_toordinal in Hlo'; try apply add_months_valid; try assumption.
  rewrite clamped_toordinal in Hlo' by assumption.
  rewrite (quarter_end_for_index fy (quarter_end_for fy as_of)).
  rewrite (quarter_end_for_index fy as_of) in Hlo', Hmono |- *.
  cbv zeta in Hlo', Hmono |- *.
  set (m := months_elapsed_in_fy (start_date fy) (end_date fy) as_of) in *.
  destruct (m <=? 0) eqn:E0; [apply Z.leb_le in E0; lia | ].
  remember (Z.min 4 ((m + 2) / 3)) as q eqn:Hqd in *.
  remember (months_elapsed_in_fy (start_date fy) (end_date fy)
              (Spec.quarter_end fy q)) as m' eqn:Hmd in *.
  assert (Hq : 3 * (q - 1) < m <= 3 * q /\ q <= 4).
  { subst q. apply Z.min_case_strong; intros; divmod. }
  rewrite quarter_end_ordinal in Hlo' by assumption.
  assert (Hm' : m' <= 3 * q).
  { destruct (Z_le_gt_dec m' (3 * q)) as [H | H]; [assumption | exfalso].
    pose proof (add_months_le (start_date fy) (3 * q) (m' - 1) Hs ltac:(lia)).
    lia. }
  destruct (m' <=? 0) eqn:E0'; [apply Z.leb_le in E0'; lia | ].
  assert (Hd : (m' + 2) / 3 = q) by divmod.
  rewrite Hd. rewrite Z.min_r by lia. reflexivity.
Qed.

End QuarterFacts.

Module LockOrder.
Import CalendarFacts RelativeDeltaFacts CalendarEngine UtilsTime QuarterFacts.

(** The lock, once enabled, in day numbers. *)
Lemma is_period_locked_ordinal (settings : option KPASettings) (now : date)
    (fy : FinancialYear) (period_end : date) (today : option date) :
  valid_date (start_date fy) -> valid_date (end_date fy) ->
  valid_date (match today with Some t => t | None => now end) ->
  ENABLED (quarter_lock_cfg settings) = Some true ->
  (is_period_locked settings now fy period_end today = true
   <-> toordinal (quarter_end_for fy period_end)
       + match GRACE_DAYS (quarter_lock_cfg settings) with
         | Some g => g | None => 14 end
       < toordinal (match today with Some t => t | None => now end)).
Proof.
  intros Hs He Ht Hen. unfold is_period_locked. rewrite Hen. cbn [negb].
  cbv zeta. unfold date_gtb.
  pose proof (quarter_end_for_valid fy period_end Hs He) as Hq.
  destruct (add_days_spec (quarter_end_for fy period_end)
              (match GRACE_DAYS (quarter_lock_cfg settings) with
               | Some g => g | None => 14 end) Hq) as [Hv Ho].
  rewrite date_ltb_toordinal by assumption. lia.
Qed.

Lemma is_period_locked_disabled (settings : option KPASettings) (now : date)
    (fy : FinancialYear) (period_end : date) (today : option date) :
  ENABLED (quarter_lock_cfg settings) <> Some true ->
  is_period_locked settings now fy period_end today = false.
Proof.
  intros Hen. unfold is_period_locked.
  destruct (ENABLED (quarter_lock_cfg settings)) as [[|]|];
    try reflexivity. congruence.
Qed.

End LockOrder.

Module CalendarProperties.
Import CalendarFacts RelativeDeltaFacts CalendarEngine UtilsTime QuarterFacts
       LockOrder.

(** X1 ([months_elapsed]): the month count is never negative, never
    decreases as the as-of date advances, and from the last day of the year
    on it stays at the count of that day. *)
Theorem months_elapsed_is_monotone (fy : FinancialYear) (a b : date) :
  valid_date (start_date fy) -> valid_date (end_date fy) ->
  valid_date a -> valid_date b ->
  date_leb (start_date fy) (end_date fy) = true ->
  date_leb a b = true ->
  0 <= Views.months_elapsed fy a <= Views.months_elapsed fy b
  /\ Views.months_elapsed fy b <= Views.months_elapsed fy (end_date fy)
  /\ (date_leb (end_date fy) a = true ->
      Views.months_elapsed fy a = Views.months_elapsed fy (end_date fy)).
Proof.
  intros Hs He Ha Hb Hse Hab. rewrite !months_elapsed_same.
  split; [apply months_elapsed_in_fy_mono; assumption | ].
  split.
  - destruct (date_ltb (end_date fy) b) eqn:E.
    + rewrite (months_elapsed_in_fy_saturates _ _ b); try assumption; [lia | ].
      now apply date_ltb_leb.
    + apply months_elapsed_in_fy_mono; try assumption.
      unfold date_leb. now rewrite E.
  - intros Hea. apply months_elapsed_in_fy_saturates; assumption.
Qed.

Lemma months_elapsed_is_monotone_witness :
  let fy := Sample.fy_2024_25 in
  0 <= Views.months_elapsed fy (mkdate 2024 6 30)
    <= Views.months_elapsed fy (mkdate 2025 7 1)
  /\ Views.months_elapsed fy (mkdate 2025 7 1)
     <= Views.months_elapsed fy (end_date fy).
Proof.
  pose proof (months_elapsed_is_monotone Sample.fy_2024_25
                (mkdate 2024 6 30) (mkdate 2025 7 1)) as H.
  cbv zeta. split; apply H; try reflexivity; cbv; intuition congruence.
Defined.

(** X2 ([quarters_elapsed]): the quarter count lies between 0 and 4, is 0
    exactly before the start of the year, and never decreases as the as-of
    date advances. *)
Theorem quarters_elapsed_range (fy : FinancialYear) (a b : date) :
  valid_date (start_date fy) -> valid_date (end_date fy) ->
  valid_date a -> valid_date b ->
  date_leb (start_date fy) (end_date fy) = true ->
  date_leb a b = true ->
  0 <= Views.quarters_elapsed fy a <= Views.quarters_elapsed fy b
  /\ Views.quarters_elapsed fy b <= 4
  /\ (Views.quarters_elapsed fy a = 0
      <-> date_ltb a (start_date fy) = true).
Proof.
  intros Hs He Ha Hb Hse Hab. unfold Views.quarters_elapsed.
  rewrite !months_elapsed_same.
  pose proof (months_elapsed_in_fy_mono _ _ _ _ Hs He Ha Hb Hse Hab) as Hm.
  set (ma := months_elapsed_in_fy _ _ a) in *.
  set (mb := months_elapsed_in_fy _ _ b) in *.
  assert (Hqa : 0 <= (ma + 2) / 3 <= (mb + 2) / 3) by divmod.
  split; [lia | ]. split; [lia | ].
  destruct (date_ltb a (start_date fy)) eqn:Ea.
  - assert (ma = 0) by (apply months_elapsed_before; assumption).
    split; [reflexivity | intros _]. rewrite H. reflexivity.
  - destruct (months_elapsed_in_fy_ordinal _ _ _ Hs He Ha Hse Ea) as [H1 _].
    fold ma in H1. split; [ | discriminate].
    intros H0. exfalso.
    assert (1 <= (ma + 2) / 3) by divmod. lia.
Qed.

Lemma quarters_elapsed_range_witness :
  let fy := Sample.fy_2024_25 in
  0 <= Views.quarters_elapsed fy (mkdate 2024 3 31)
    <= Views.quarters_elapsed fy (mkdate 2024 11 20)
  /\ Views.quarters_elapsed fy (mkdate 2024 11 20) <= 4.
Proof.
  pose proof (quarters_elapsed_range Sample.fy_2024_25
                (mkdate 2024 3 31) (mkdate 2024 11 20)) as H.
  cbv zeta. split; apply H; try reflexivity; cbv; intuition congruence.
Defined.


(** X3 ([quarter_end_for]): in a year of at most twelve months that starts
    on a day every month has, the quarter end computed for a date of the year
    is on or after that date, not after the end of the year, and is its own
    quarter end. *)
Theorem quarter_end_for_contains_date (fy : FinancialYear) (as_of : date) :
  valid_date (start_date fy) -> valid_date (end_date fy) -> valid_date as_of ->
  day (start_date fy) <= 28 ->
  date_ltb (end_date fy) (add_months (start_date fy) 12) = true ->
  date_leb (start_date fy) as_of = true ->
  date_leb as_of (end_date fy) = true ->
  date_leb as_of (quarter_end_for fy as_of) = true
  /\ date_leb (quarter_end_for fy as_of) (end_date fy) = true
  /\ quarter_end_for fy (quarter_end_for fy as_of) = quarter_end_for fy as_of.
Proof.
  intros Hs He Ha H28 H12 Hsa Hae.
  pose proof (quarter_end_for_covers fy as_of Hs He Ha H28 H12 Hsa Hae)
    as [Hlo Hhi].
  pose proof (quarter_end_for_valid fy as_of Hs He) as Hv.
  split; [apply date_leb_toordinal; assumption | ].
  split; [apply date_leb_toordinal; assumption | ].
  apply quarter_end_for_idempotent; assumption.
Qed.

Lemma quarter_end_for_contains_date_witness :
  let fy := Sample.fy_2024_25 in
  let as_of := mkdate 2024 8 17 in
  quarter_end_for fy as_of = mkdate 2024 9 30
  /\ date_leb as_of (quarter_end_for fy as_of) = true
  /\ date_leb (quarter_end_for fy as_of) (end_date fy) = true
  /\ quarter_end_for fy (quarter_end_for fy as_of) = quarter_end_for fy as_of.
Proof.
  cbv zeta. split; [reflexivity | ].
  apply (quarter_end_for_contains_date Sample.fy_2024_25 (mkdate 2024 8 17));
    try reflexivity; cbv; intuition congruence.
Defined.

(** X4 ([is_period_locked]): with a grace period that is not negative, a
    period of the year is never locked on or before the day it ends,
    whatever the lock settings. *)
Theorem open_period_is_not_locked (settings : option KPASettings)
    (now : date) (fy : FinancialYear) (period_end : date)
    (today : option date) :
  let t := match today with Some t => t | None => now end in
  let grace_days := match GRACE_DAYS (quarter_lock_cfg settings) with
                    | Some g => g | None => 14 end in
  valid_date (start_date fy) -> valid_date (end_date fy) ->
  valid_date period_end -> valid_date t ->
  day (start_date fy) <= 28 ->
  date_ltb (end_date fy) (add_months (start_date fy) 12) = true ->
  date_leb (start_date fy) period_end = true ->
  date_leb period_end (end_date fy) = true ->
  0 <= grace_days ->
  date_leb t period_end = true ->
  is_period_locked settings now fy period_end today = false.
Proof.
  intros t grace_days Hs He Hp Ht H28 H12 Hsp Hpe Hg Htp.
  destruct (ENABLED (quarter_lock_cfg settings)) as [[|]|] eqn:Hen;
    try (apply is_period_locked_disabled; rewrite Hen; congruence).
  destruct (is_period_locked settings now fy period_end today) eqn:E;
    [exfalso | reflexivity].
  apply (is_period_locked_ordinal settings now fy period_end today Hs He Ht Hen)
    in E.
  pose proof (quarter_end_for_covers fy period_end Hs He Hp H28 H12 Hsp Hpe)
    as [Hlo _].
  apply date_leb_toordinal in Htp; try assumption.
  fold t grace_days in E. lia.
Qed.

Lemma open_period_is_not_locked_witness :
  is_period_locked Sample.lock_on (mkdate 2024 5 31) Sample.fy_2024_25
    (mkdate 2024 5 31) None = false.
Proof.
  apply (open_period_is_not_locked Sample.lock_on (mkdate 2024 5 31)
           Sample.fy_2024_25 (mkdate 2024 5 31) None);
    try reflexivity; cbv; intuition congruence.
Defined.

(** X5 ([is_period_locked]): a lock is permanent and grace only delays it:
    a period locked on one day is locked on every later day, and a period
    locked under some grace period is locked under every shorter one. *)
Theorem lock_is_monotone (enabled : option bool) (g1 g2 : Z)
    (evidence_months : option Z) (now : date) (fy : FinancialYear)
    (period_end t1 t2 : date) :
  let settings g :=
    Some (mkSettings (Some (mkQuarterLock enabled (Some g))) evidence_months) in
  valid_date (start_date fy) -> valid_date (end_date fy) ->
  valid_date t1 -> valid_date t2 ->
  date_leb t1 t2 = true -> g1 <= g2 ->
  is_period_locked (settings g2) now fy period_end (Some t1) = true ->
  is_period_locked (settings g2) now fy period_end (Some t2) = true
  /\ is_period_locked (settings g1) now fy period_end (Some t1) = true.
Proof.
  intros settings Hs He H1 H2 H12 Hg Hlock.
  assert (Hen : enabled = Some true).
  { destruct enabled as [[|]|]; try reflexivity;
      unfold is_period_locked in Hlock; cbn in Hlock; discriminate. }
  subst enabled.
  apply (is_period_locked_ordinal (settings g2) now fy period_end (Some t1)
           Hs He H1 eq_refl) in Hlock.
  apply date_leb_toordinal in H12; try assumption.
  cbn in Hlock.
  split.
  - apply (is_period_locked_ordinal (settings g2) now fy period_end (Some t2)
             Hs He H2 eq_refl). cbn. lia.
  - apply (is_period_locked_ordinal (settings g1) now fy period_end (Some t1)
             Hs He H1 eq_refl). cbn. lia.
Qed.

Lemma lock_is_monotone_witness :
  let settings g :=
    Some (mkSettings (Some (mkQuarterLock (Some true) (Some g))) None) in
  is_period_locked (settings 14) (mkdate 2024 1 1) Sample.fy_2024_25
    (mkdate 2024 5 31) (Some (mkdate 2024 7 15)) = true
  /\ is_period_locked (settings 14) (mkdate 2024 1 1) Sample.fy_2024_25
       (mkdate 2024 5 31) (Some (mkdate 2024 8 1)) = true
  /\ is_period_locked (settings 7) (mkdate 2024 1 1) Sample.fy_2024_25
       (mkdate 2024 5 31) (Some (mkdate 2024 7 15)) = true.
Proof.
  cbv zeta. split; [reflexivity | ].
  apply (lock_is_monotone (Some true) 7 14 None (mkdate 2024 1 1)
           Sample.fy_2024_25 (mkdate 2024 5 31) (mkdate 2024 7 15)
           (mkdate 2024 8 1));
    try reflexivity; cbv; intuition congruence.
Defined.

End CalendarProperties.

Module YtdFacts.
Import CalendarFacts CalendarEngine RatioFacts UtilsTime Views QuarterFacts.

Lemma date_min_toordinal (a b : date) :
  valid_date a -> valid_date b ->
  toordinal (date_min a b) = Z.min (toordinal a) (toordinal b).
Proof.
  intros Ha Hb. unfold date_min.
  destruct (date_ltb b a) eqn:E.
  - apply date_ltb_toordinal in E; try assumption. lia.
  - apply date_ltb_false_toordinal in E; try assumption. lia.
Qed.

Lemma scale_mono (c : Q) (x y : Z) :
  (0 <= c)%Q -> x <= y -> (c * inject_Z x <= c * inject_Z y)%Q.
Proof.
  intros Hc Hxy. rewrite !(Qmult_comm c).
  apply Qmult_le_compat_r; [ | assumption].
  rewrite <- Zle_Qle. assumption.
Qed.

Lemma div_pos_nonneg (v : Q) (p : positive) :
  (0 <= v)%Q -> (0 <= v / (Z.pos p # 1))%Q.
Proof.
  intros Hv. unfold Qdiv. apply Qmult_le_0_compat; [assumption | ].
  apply Qinv_le_0_compat. discriminate.
Qed.

(** The three prorated branches, with the divisions carried out. *)
Lemma ytd_target_value_monthly (t : Target) (fy : FinancialYear) (d : date) :
  periodicity t = "MONTHLY"%string ->
  ytd_target_value t fy d
  = Dec.Ok (value t / 12 * Dec.ofZ (months_elapsed fy d))%Q.
Proof.
  intros E. unfold ytd_target_value. rewrite E.
  cbn [String.eqb Ascii.eqb Bool.eqb]. rewrite (div_const _ 12). reflexivity.
Qed.

Lemma ytd_target_value_quarterly (t : Target) (fy : FinancialYear) (d : date) :
  periodicity t = "QUARTERLY"%string ->
  ytd_target_value t fy d
  = Dec.Ok (value t / 4 * Dec.ofZ (quarters_elapsed fy d))%Q.
Proof.
  intros E. unfold ytd_target_value. rewrite E.
  cbn [String.eqb Ascii.eqb Bool.eqb]. rewrite (div_const _ 4). reflexivity.
Qed.

Lemma ytd_target_value_annual (t : Target) (fy : FinancialYear) (d : date) :
  periodicity t = "ANNUAL"%string ->
  valid_date (start_date fy) -> valid_date (end_date fy) -> valid_date d ->
  date_leb (start_date fy) (end_date fy) = true ->
  let total_days := toordinal (end_date fy) - toordinal (start_date fy) + 1 in
  let elapsed_days :=
    Z.min (toordinal (end_date fy)) (toordinal d)
    - toordinal (start_date fy) + 1 in
  1 <= total_days
  /\ ytd_target_value t fy d
     = Dec.Ok (value t * Dec.ofZ elapsed_days / Dec.ofZ total_days)%Q.
Proof.
  intros E Hs He Hd Hse total_days elapsed_days.
  apply date_leb_toordinal in Hse; try assumption.
  assert (Ht : 1 <= total_days) by (subst total_days; lia).
  split; [assumption | ].
  unfold ytd_target_value, fy_bounds, days_between. rewrite E.
  cbn [String.eqb Ascii.eqb Bool.eqb].
  rewrite date_min_toordinal by assumption.
  fold total_days. fold elapsed_days.
  assert (E0 : (total_days =? 0) = false) by (apply Z.eqb_neq; lia).
  rewrite E0. cbn [negb].
  rewrite div_nonzero by (rewrite ofZ_is_zero; exact E0).
  reflexivity.
Qed.

Lemma ytd_target_value_other (t : Target) (fy : FinancialYear) (d : date) :
  periodicity t <> "ANNUAL"%string -> periodicity t <> "MONTHLY"%string ->
  periodicity t <> "QUARTERLY"%string ->
  ytd_target_value t fy d = Dec.Ok (value t).
Proof.
  intros H1 H2 H3. unfold ytd_target_value.
  apply String.eqb_neq in H1, H2, H3. rewrite H1, H2, H3. reflexivity.
Qed.

End YtdFacts.

Module YtdProperties.
Import CalendarFacts CalendarEngine RatioFacts UtilsTime Views QuarterFacts
       YtdFacts.

(** X6 ([ytd_target_value]): for a target whose value is not negative, the
    year-to-date target never decreases as the as-of date advances, whatever
    the periodicity. *)
Theorem ytd_target_value_never_decreases (t : Target) (fy : FinancialYear)
    (a b : date) :
  valid_date (start_date fy) -> valid_date (end_date fy) ->
  valid_date a -> valid_date b ->
  date_leb (start_date fy) (end_date fy) = true ->
  date_leb a b = true -> (0 <= value t)%Q ->
  exists ra rb,
    ytd_target_value t fy a = Dec.Ok ra
    /\ ytd_target_value t fy b = Dec.Ok rb /\ (ra <= rb)%Q.
Proof.
  intros Hs He Ha Hb Hse Hab Hv.
  destruct (string_dec (periodicity t) "ANNUAL") as [EA | NA].
  { destruct (ytd_target_value_annual t fy a EA Hs He Ha Hse) as [Ht Hra].
    destruct (ytd_target_value_annual t fy b EA Hs He Hb Hse) as [_ Hrb].
    do 2 eexists. split; [exact Hra | ]. split; [exact Hrb | ].
    apply date_leb_toordinal in Hab; try assumption.
    unfold Qdiv. apply Qmult_le_compat_r.
    - apply scale_mono; [assumption | lia].
    - apply Qinv_le_0_compat. unfold Dec.ofZ. rewrite <- (Zle_Qle 0). lia. }
  destruct (string_dec (periodicity t) "MONTHLY") as [EM | NM].
  { rewrite !(ytd_target_value_monthly t fy _ EM).
    do 2 eexists. split; [reflexivity | ]. split; [reflexivity | ].
    apply scale_mono; [apply div_pos_nonneg; assumption | ].
    rewrite !months_elapsed_same.
    apply months_elapsed_in_fy_mono; assumption. }
  destruct (string_dec (periodicity t) "QUARTERLY") as [EQ | NQ].
  { rewrite !(ytd_target_value_quarterly t fy _ EQ).
    do 2 eexists. split; [reflexivity | ]. split; [reflexivity | ].
    apply scale_mono; [apply div_pos_nonneg; assumption | ].
    unfold quarters_elapsed. rewrite !months_elapsed_same.
    pose proof (months_elapsed_in_fy_mono _ _ _ _ Hs He Ha Hb Hse Hab).
    apply Z.min_le_compat_l. divmod. }
  rewrite !(ytd_target_value_other t fy _ NA NM NQ).
  do 2 eexists. split; [reflexivity | ]. split; [reflexivity | ].
  apply Qle_refl.
Qed.


Lemma ytd_target_value_never_decreases_witness :
  exists ra rb,
    ytd_target_value Sample.monthly_target Sample.fy_2024_25 (mkdate 2024 6 30)
    = Dec.Ok ra
    /\ ytd_target_value Sample.monthly_target Sample.fy_2024_25
         (mkdate 2024 9 30) = Dec.Ok rb
    /\ (ra <= rb)%Q.
Proof.
  apply (ytd_target_value_never_decreases Sample.monthly_target
           Sample.fy_2024_25 (mkdate 2024 6 30) (mkdate 2024 9 30));
    try reflexivity; cbv; intuition congruence.
Defined.

End YtdProperties.

Module ReadFacts.
Import CalendarFacts RelativeDeltaFacts RatioFacts Views.

(** [order_by('-key').first()] answers a row with the greatest key. *)
Lemma latest_by_spec {A} (key : A -> date) (l : list A) :
  match latest_by key l with
  | None => l = []
  | Some x => In x l
              /\ forall y, In y l -> date_leb (key y) (key x) = true
  end.
Proof.
  induction l as [ | a l IH]; cbn; [reflexivity | ].
  destruct (latest_by key l) as [y | ].
  - destruct IH as [Hin Hmax].
    destruct (date_ltb (key a) (key y)) eqn:E.
    + split; [now right | ].
      intros z [<- | Hz]; [now apply date_ltb_leb | now apply Hmax].
    + split; [now left | ].
      intros z [<- | Hz]; [unfold date_leb; now rewrite date_ltb_irrefl | ].
      apply (date_leb_trans _ (key y)); [now apply Hmax | ].
      unfold date_leb. now rewrite E.
  - subst l. split; [now left | ].
    intros z [<- | []]. unfold date_leb. now rewrite date_ltb_irrefl.
Qed.


(** Appending a row to the table of progress updates. *)
Lemma updates_in_window_snoc (db : DB) (t : Target) (start end_ : date)
    (u : ProgressUpdate) :
  updates_in_window
    (WritePaths.set_updates db (progress_updates db ++ [u])) t start end_
  = updates_in_window db t start end_
    ++ (if (pu_target u =? target_id t) && date_geb (period_end u) start
           && date_leb (period_end u) end_ && is_active u
        then [u] else []).
Proof.
  unfold updates_in_window, WritePaths.set_updates.
  cbn [progress_updates]. rewrite filter_app. reflexivity.
Qed.

(** The window reads the table of progress updates only. *)
Lemma updates_in_window_ext (db1 db2 : DB) (t : Target) (start end_ : date) :
  progress_updates db1 = progress_updates db2 ->
  updates_in_window db1 t start end_ = updates_in_window db2 t start end_.
Proof. intros E. unfold updates_in_window. rewrite E. reflexivity. Qed.

Lemma sum_actuals_ytd_ext (db1 db2 : DB) (t : Target) (fy : FinancialYear)
    (as_of : date) :
  progress_updates db1 = progress_updates db2 ->
  sum_actuals_ytd db1 t fy as_of = sum_actuals_ytd db2 t fy as_of.
Proof.
  intros E. unfold sum_actuals_ytd, fy_bounds.
  rewrite (updates_in_window_ext db1 db2 _ _ _ E). reflexivity.
Qed.

Lemma sum_actuals_ytd_snoc (db : DB) (t : Target) (fy : FinancialYear)
    (as_of : date) (u : ProgressUpdate) :
  sum_actuals_ytd
    (WritePaths.set_updates db (progress_updates db ++ [u])) t fy as_of
  = if (pu_target u =? target_id t)
       && date_geb (period_end u) (start_date fy)
       && date_leb (period_end u) (date_min (end_date fy) as_of)
       && is_active u
    then (sum_actuals_ytd db t fy as_of + actual_value u)%Q
    else sum_actuals_ytd db t fy as_of.
Proof.
  unfold sum_actuals_ytd, fy_bounds. rewrite updates_in_window_snoc.
  rewrite fold_left_app.
  destruct (_ && is_active u); reflexivity.
Qed.

End ReadFacts.

Module ReadProperties.
Import CalendarFacts RelativeDeltaFacts RatioFacts Views WritePaths
       TableFacts DraftFacts ReadFacts YtdFacts.

(** X8 ([save_draft], [sum_actuals_ytd]): a draft counts.  When the draft
    endpoint saves a new row for a target and the period of the row ends
    inside the year-to-date window, the year-to-date actual of the target
    grows by the actual value of the draft at once, although the row is
    neither submitted nor approved. *)
Theorem new_draft_counts_in_ytd_actual
    (settings : option KPASettings) (now : date)
    (fromisoformat : string -> option date)
    (run_validation : DB -> Payload -> option ValidatedData) (uuid4 : Z)
    (db db' : DB) (user : User) (data : Payload) (id : Z)
    (vd : ValidatedData) (t : Target) (fy : FinancialYear) (as_of : date) :
  save_draft settings now fromisoformat run_validation uuid4 db user data
  = (db', Saved id) ->
  run_validation db (set_evidence_and_draft data) = Some vd ->
  (forall u, In u (progress_updates db) -> pu_id u <> id) ->
  vd_target vd = target_id t ->
  date_leb (start_date fy) (vd_period_end vd) = true ->
  date_leb (vd_period_end vd) (date_min (end_date fy) as_of) = true ->
  sum_actuals_ytd db' t fy as_of
  = (sum_actuals_ytd db t fy as_of + vd_actual_value vd)%Q.
Proof.
  intros Hs Ev Hnew Ht Hlo Hhi.
  apply save_draft_cases in Hs.
  destruct Hs as [[_ Hno] | [(vd' & existing & _ & Hin & _ & _ & _ & Er)
                            | (vd' & row & Ev' & Ei & Er)]].
  - exfalso. now apply (Hno id).
  - exfalso. injection Er as ->. now apply (Hnew existing).
  - rewrite Ev in Ev'. injection Ev' as <-.
    apply db_insert_ok in Ei. destruct Ei as (_ & Erows & _ & _).
    rewrite (sum_actuals_ytd_ext db'
               (set_updates db (progress_updates db ++ [instance_of uuid4 vd])))
      by exact Erows.
    rewrite sum_actuals_ytd_snoc.
    cbn [instance_of apply_validated pu_target period_end is_active
         actual_value blank_update].
    rewrite Ht, Z.eqb_refl. unfold date_geb. unfold date_leb in Hlo.
    rewrite Hlo, Hhi. reflexivity.
Qed.

Lemma new_draft_counts_in_ytd_actual_witness :
  let db := Sample.db_of [] in
  let data := Sample.draft_payload (250 # 1) "first draft" in
  exists db',
    save_draft Sample.lock_off (mkdate 2024 7 1) Sample.parse_iso
      Sample.serializer 11 db Sample.programme_manager data = (db', Saved 11)
    /\ sum_actuals_ytd db' Sample.monthly_target Sample.fy_2024_25
         (mkdate 2024 7 1)
       = (sum_actuals_ytd db Sample.monthly_target Sample.fy_2024_25
            (mkdate 2024 7 1) + (250 # 1))%Q.
Proof.
  cbv zeta. eexists. split; [reflexivity | ].
  apply (new_draft_counts_in_ytd_actual Sample.lock_off (mkdate 2024 7 1)
           Sample.parse_iso Sample.serializer 11 (Sample.db_of []) _
           Sample.programme_manager
           (Sample.draft_payload (250 # 1) "first draft") 11
           (mkVD 1 (Some "MONTHLY"%string) (mkdate 2024 4 1) (mkdate 2024 6 30)
                 "Q1 2024/25" (250 # 1) "first draft" None None None None
                 None None (Some false) None)
           Sample.monthly_target Sample.fy_2024_25 (mkdate 2024 7 1));
    try reflexivity.
  intros u [].
Defined.


(** X9 ([get_latest_progress], [latest_update_in_fy]): the latest update of
    a target is one of its active rows and no active row of the target ends
    later; inside a financial year the same holds among the rows that end in
    the year-to-date window.  There is none exactly when no row qualifies. *)
Theorem latest_update_is_the_latest (db : DB) (t : Target)
    (fy : FinancialYear) (as_of : date) :
  match Models.get_latest_progress db t with
  | Some u =>
      In u (progress_updates db) /\ pu_target u = target_id t
      /\ is_active u = true
      /\ forall w, In w (progress_updates db) -> pu_target w = target_id t ->
                   is_active w = true ->
                   date_leb (period_end w) (period_end u) = true
  | None =>
      forall w, In w (progress_updates db) -> pu_target w = target_id t ->
                is_active w = false
  end
  /\ match latest_update_in_fy db t fy as_of with
     | Some u =>
         In u (updates_in_window db t (start_date fy)
                 (date_min (end_date fy) as_of))
         /\ forall w, In w (updates_in_window db t (start_date fy)
                              (date_min (end_date fy) as_of)) ->
                      date_leb (period_end w) (period_end u) = true
     | None =>
         updates_in_window db t (start_date fy) (date_min (end_date fy) as_of)
         = []
     end.
Proof.
  split.
  - unfold Models.get_latest_progress.
    pose proof (latest_by_spec period_end (Models.active_updates_of db t)) as H.
    destruct (latest_by period_end (Models.active_updates_of db t)) as [u | ].
    + destruct H as [Hin Hmax].
      unfold Models.active_updates_of in Hin, Hmax.
      apply filter_In in Hin. destruct Hin as [Hin Hp].
      apply andb_true_iff in Hp. destruct Hp as [Ht Ha].
      apply Z.eqb_eq in Ht. repeat split; try assumption.
      intros w Hw Hwt Hwa. apply Hmax. apply filter_In. split; [assumption | ].
      rewrite Hwt, Z.eqb_refl, Hwa. reflexivity.
    + intros w Hw Hwt.
      destruct (is_active w) eqn:Ea; [exfalso | reflexivity].
      assert (Hin : In w (Models.active_updates_of db t)).
      { apply filter_In. split; [assumption | ].
        rewrite Hwt, Z.eqb_refl, Ea. reflexivity. }
      rewrite H in Hin. destruct Hin.
  - unfold latest_update_in_fy, fy_bounds.
    apply (latest_by_spec period_end).
Qed.

End ReadProperties.

(* ================================================================== *)
(** * Year-to-date targets and forecasts as the context rounds them *)
(* ================================================================== *)

Module DecimalYtdFacts.
Import CalendarFacts CalendarEngine RatioFacts UtilsTime Views QuarterFacts
       YtdFacts Decimal DecimalFacts DecimalViewsFacts.

(** The ANNUAL branch in the arithmetic of the context. *)
Lemma decimal_ytd_target_value_annual (t : Target) (fy : FinancialYear)
    (d : date) :
  periodicity t = "ANNUAL"%string ->
  valid_date (start_date fy) -> valid_date (end_date fy) -> valid_date d ->
  date_leb (start_date fy) (end_date fy) = true ->
  let total_days := toordinal (end_date fy) - toordinal (start_date fy) + 1 in
  let elapsed_days :=
    Z.min (toordinal (end_date fy)) (toordinal d)
    - toordinal (start_date fy) + 1 in
  1 <= total_days
  /\ DecimalViews.ytd_target_value t fy d
     = Dec.Ok (round (round (value t * inject_Z elapsed_days)
                      * / inject_Z total_days)).
Proof.
  intros E Hs He Hd Hse total_days elapsed_days.
  apply date_leb_toordinal in Hse; try assumption.
  assert (Ht : 1 <= total_days) by (subst total_days; lia).
  split; [assumption | ].
  unfold DecimalViews.ytd_target_value, fy_bounds, days_between. rewrite E.
  cbn [String.eqb Ascii.eqb Bool.eqb].
  rewrite date_min_toordinal by assumption.
  fold total_days. fold elapsed_days.
  assert (E0 : (total_days =? 0) = false) by (apply Z.eqb_neq; lia).
  rewrite E0. cbn [negb].
  rewrite decimal_div_nonzero by (rewrite ofZ_is_zero; exact E0).
  reflexivity.
Qed.

Lemma inject_Z_pos (n : Z) : 1 <= n -> (0 < inject_Z n)%Q.
Proof. intros H. rewrite <- (Zlt_Qlt 0). lia. Qed.

End DecimalYtdFacts.

Module DecimalProperties.
Import CalendarFacts CalendarEngine RatioFacts UtilsTime Views QuarterFacts
       YtdFacts ReadFacts Decimal DecimalFacts DecimalViewsFacts
       DecimalYtdFacts.

(** X7 ([ytd_target_value]): the edges of the ANNUAL proration, in the
    arithmetic of the context.  From the last day of the year on the
    year-to-date target is the whole value, when the value times the days of
    the year fits in 28 digits (as every value of the column does).  On the
    first day it is one day's share, rounded: positive for a positive value
    and within 1.1e-27 of the value over the days of the year, relatively;
    1200 over the 365 days of 2024/25 gives 3.287671232876712328767123288.
    Before the year starts it is not clamped at zero: it is at most 0 for a
    value that is not negative, and negative from two days before the start
    for a positive value. *)
Theorem annual_ytd_target_edges (t : Target) (fy : FinancialYear) (d : date) :
  periodicity t = "ANNUAL"%string ->
  valid_date (start_date fy) -> valid_date (end_date fy) -> valid_date d ->
  date_leb (start_date fy) (end_date fy) = true ->
  let total_days := toordinal (end_date fy) - toordinal (start_date fy) + 1 in
  let annual := fun value =>
    mkTarget 3 1 value (mkdate 2025 3 31) "ANNUAL" 95 80 true in
  (exists r,
     DecimalViews.ytd_target_value t fy d = Dec.Ok r
     /\ (date_leb (end_date fy) d = true ->
         fits (value t) -> fits (value t * inject_Z total_days) ->
         (r == value t)%Q)
     /\ (d = start_date fy ->
         (Qabs (r - value t / inject_Z total_days)
          <= two_roundings * Qabs (value t / inject_Z total_days))%Q
         /\ ((0 < value t)%Q -> (0 < r)%Q))
     /\ (date_ltb d (start_date fy) = true -> (0 <= value t)%Q -> (r <= 0)%Q)
     /\ (toordinal d + 1 < toordinal (start_date fy) -> (0 < value t)%Q ->
         (r < 0)%Q))
  /\ (exists r,
        DecimalViews.ytd_target_value (annual 1200%Q) Sample.fy_2024_25
          (mkdate 2024 4 1) = Dec.Ok r
        /\ (r == 3287671232876712328767123288 # 10 ^ 27)%Q
        /\ ~ (r == 1200 / 365)%Q).
Proof.
  intros E Hs He Hd Hse total_days annual.
  split;
    [ | eexists; split; [vm_compute; reflexivity | ];
        split; [reflexivity | discriminate]].
  destruct (decimal_ytd_target_value_annual t fy d E Hs He Hd Hse) as [Ht Hr].
  fold total_days in Ht, Hr.
  eexists. split; [exact Hr | ].
  pose proof Hse as Hse'. apply date_leb_toordinal in Hse'; try assumption.
  pose proof (inject_Z_pos _ Ht) as Htd.
  assert (Hinv : (0 < / inject_Z total_days)%Q)
    by (apply Qinv_lt_0_compat; exact Htd).
  assert (Hnz : ~ (inject_Z total_days == 0)%Q).
  { intros H0. rewrite H0 in Htd. discriminate. }
  split; [ | split; [ | split]].
  - intros Hed Hv Hvn. apply date_leb_toordinal in Hed; try assumption.
    rewrite Z.min_l by lia. fold total_days.
    destruct (rounded_twice (value t * inject_Z total_days)
                            (/ inject_Z total_days)) as [_ Hexact].
    rewrite Hexact.
    + field. exact Hnz.
    + exact Hvn.
    + apply (fits_eq (value t)); [ | exact Hv]. field. exact Hnz.
  - intros ->. rewrite Z.min_r by lia.
    replace (toordinal (start_date fy) - toordinal (start_date fy) + 1)
      with 1 by lia.
    destruct (rounded_twice (value t * inject_Z 1) (/ inject_Z total_days))
      as [Hclose _].
    assert (E1 : (value t * inject_Z 1 * / inject_Z total_days
                  == value t / inject_Z total_days)%Q)
      by (field; exact Hnz).
    rewrite E1 in Hclose. split; [exact Hclose | ].
    intros Hv. apply round_sign.
    apply Qmult_lt_0_compat; [ | exact Hinv].
    apply round_sign. change (inject_Z 1) with 1%Q. lra.
  - intros Hlt Hv. apply date_ltb_toordinal in Hlt; try assumption.
    rewrite Z.min_r by lia.
    apply round_sign.
    rewrite <- (Qmult_0_l (/ inject_Z total_days)).
    apply Qmult_le_compat_r; [ | apply Qlt_le_weak; exact Hinv].
    apply round_sign.
    rewrite <- (Qmult_0_r (value t)).
    apply scale_mono; [assumption | lia].
  - intros Hlt Hv.
    rewrite Z.min_r by lia.
    apply round_sign.
    rewrite <- (Qmult_0_l (/ inject_Z total_days)).
    apply Qmult_lt_compat_r; [exact Hinv | ].
    apply round_sign.
    rewrite <- (Qmult_0_r (value t)).
    apply Qmult_lt_l; [assumption | ].
    rewrite <- (Zlt_Qlt _ 0). lia.
Qed.

Lemma annual_ytd_target_edges_witness :
  let t := mkTarget 3 1 730 (mkdate 2025 3 31) "ANNUAL" 95 80 true in
  (exists r,
     DecimalViews.ytd_target_value t Sample.fy_2024_25 (mkdate 2024 3 20)
     = Dec.Ok r
     /\ (r < 0)%Q)
  /\ (exists r,
        DecimalViews.ytd_target_value t Sample.fy_2024_25 (mkdate 2025 6 1)
        = Dec.Ok r
        /\ (r == 730)%Q).
Proof.
  cbv zeta.
  assert (Hv : forall d, valid_dateb d = true -> valid_date d)
    by (intros d; apply valid_dateb_spec).
  split.
  - destruct (annual_ytd_target_edges
                (mkTarget 3 1 730 (mkdate 2025 3 31) "ANNUAL" 95 80 true)
                Sample.fy_2024_25 (mkdate 2024 3 20) eq_refl
                (Hv (mkdate 2024 4 1) eq_refl) (Hv (mkdate 2025 3 31) eq_refl)
                (Hv (mkdate 2024 3 20) eq_refl) eq_refl)
      as [[r [Hr [_ [_ [_ Hneg]]]]] _].
    exists r. split; [exact Hr | ]. apply Hneg; reflexivity.
  - destruct (annual_ytd_target_edges
                (mkTarget 3 1 730 (mkdate 2025 3 31) "ANNUAL" 95 80 true)
                Sample.fy_2024_25 (mkdate 2025 6 1) eq_refl
                (Hv (mkdate 2024 4 1) eq_refl) (Hv (mkdate 2025 3 31) eq_refl)
                (Hv (mkdate 2025 6 1) eq_refl) eq_refl)
      as [[r [Hr [Hend _]]] _].
    exists r. split; [exact Hr | ]. apply Hend.
    + reflexivity.
    + exists 730, 0. split; [reflexivity | vm_compute; reflexivity].
    + exists 266450, 0. split; [reflexivity | vm_compute; reflexivity].
Defined.

(** X10 ([compute_forecast_value]): a forecast entered on the latest update
    of the window is returned as it is; without one, the extrapolation is 0
    before the year has started, whatever the periodicity.  For a target
    that is neither MONTHLY nor QUARTERLY the extrapolation, from the last
    day of the year on, is the year-to-date actual divided by the days of
    the year and multiplied by them again, each time rounded to 28 digits:
    within 1.1e-27 of the year-to-date actual, relatively, and equal to it
    when the daily share fits in 28 digits.  An actual of 500 in the 366
    days of 2023/24 is forecast as 499.9999999999999999999999998. *)
Theorem compute_forecast_value_edges (db : DB) (t : Target) (ytd_actual : Q)
    (fy : FinancialYear) (as_of : date) :
  valid_date (start_date fy) -> valid_date (end_date fy) ->
  valid_date as_of -> date_leb (start_date fy) (end_date fy) = true ->
  let total_days := toordinal (end_date fy) - toordinal (start_date fy) + 1 in
  let annual := mkTarget 3 1 730 (mkdate 2024 3 31) "ANNUAL" 95 80 true in
  let fy_2023_24 := mkFY 1 (mkdate 2023 4 1) (mkdate 2024 3 31) in
  (forall u f, latest_update_in_fy db t fy as_of = Some u ->
               forecast_value u = Some f ->
               DecimalViews.compute_forecast_value db t ytd_actual fy as_of
               = Dec.Ok f)
  /\ ((forall u, latest_update_in_fy db t fy as_of = Some u ->
                 forecast_value u = None) ->
      (date_ltb as_of (start_date fy) = true ->
       DecimalViews.compute_forecast_value db t ytd_actual fy as_of
       = Dec.Ok 0%Q)
      /\ (date_leb (end_date fy) as_of = true ->
          periodicity t <> "MONTHLY"%string ->
          periodicity t <> "QUARTERLY"%string ->
          exists r,
            DecimalViews.compute_forecast_value db t ytd_actual fy as_of
            = Dec.Ok r
            /\ r = Decimal.mul (round (ytd_actual / inject_Z total_days))
                               (inject_Z total_days)
            /\ (Qabs (r - ytd_actual) <= two_roundings * Qabs ytd_actual)%Q
            /\ (fits (ytd_actual / inject_Z total_days) -> fits ytd_actual ->
                r == ytd_actual)%Q))
  /\ (exists r,
        DecimalViews.compute_forecast_value (Sample.db_of []) annual 500
          fy_2023_24 (mkdate 2024 3 31) = Dec.Ok r
        /\ (r == 4999999999999999999999999998 # 10 ^ 25)%Q
        /\ ~ (r == 500)%Q).
Proof.
  intros Hs He Ha Hse total_days annual fy_2023_24.
  split.
  { intros u f Hu Hf. unfold DecimalViews.compute_forecast_value.
    rewrite Hu, Hf. reflexivity. }
  split;
    [ | eexists; split; [vm_compute; reflexivity | ];
        split; [reflexivity | discriminate]].
  intros Hnone.
  assert (Hl : match latest_update_in_fy db t fy as_of with
               | Some u => forecast_value u | None => None end = None).
  { destruct (latest_update_in_fy db t fy as_of) as [u | ];
      [now apply Hnone | reflexivity]. }
  pose proof Hse as Hse'. apply QuarterFacts.date_leb_toordinal in Hse';
    try assumption.
  split.
  - intros Hlt. unfold DecimalViews.compute_forecast_value. rewrite Hl.
    unfold quarters_elapsed. rewrite !CalendarEngine.months_elapsed_same.
    rewrite (CalendarEngine.months_elapsed_before _ _ _ Hlt).
    cbn [Z.leb Z.compare Z.add Z.div Z.min].
    destruct (String.eqb _ "MONTHLY"); [reflexivity | ].
    destruct (String.eqb _ "QUARTERLY"); [reflexivity | ].
    unfold fy_bounds, days_between.
    rewrite date_min_toordinal by assumption.
    apply date_ltb_toordinal in Hlt; try assumption.
    assert (E : (Z.min (toordinal as_of) (toordinal (end_date fy))
                 - toordinal (start_date fy) + 1 <=? 0) = true)
      by (apply Z.leb_le; lia).
    rewrite E. reflexivity.
  - intros Hea HM HQ. unfold DecimalViews.compute_forecast_value. rewrite Hl.
    apply String.eqb_neq in HM, HQ. rewrite HM, HQ.
    unfold fy_bounds, days_between.
    rewrite date_min_toordinal by assumption.
    apply QuarterFacts.date_leb_toordinal in Hea; try assumption.
    rewrite Z.min_r by lia.
    fold total_days.
    assert (E : (total_days <=? 0) = false)
      by (apply Z.leb_gt; subst total_days; lia).
    rewrite E.
    assert (E0 : Dec.is_zero (Dec.ofZ total_days) = false)
      by (rewrite ofZ_is_zero; apply Z.eqb_neq; subst total_days; lia).
    rewrite (decimal_div_nonzero _ _ E0). cbn [Dec.bind].
    eexists. split; [reflexivity | ]. split; [reflexivity | ].
    assert (Hnz : ~ (inject_Z total_days == 0)%Q).
    { intros H0. apply is_zero_iff in H0. unfold Dec.ofZ in E0. congruence. }
    assert (Eq : (ytd_actual / inject_Z total_days * inject_Z total_days
                  == ytd_actual)%Q) by (field; exact Hnz).
    destruct (rounded_twice (ytd_actual / inject_Z total_days)
                            (inject_Z total_days)) as [Hclose Hexact].
    unfold Decimal.mul, Dec.ofZ. rewrite Eq in Hclose.
    split; [exact Hclose | ].
    intros Hd Hy. rewrite Hexact; [exact Eq | exact Hd | ].
    apply (fits_eq ytd_actual); [symmetry; exact Eq | exact Hy].
Qed.

Lemma compute_forecast_value_edges_witness :
  let t := mkTarget 3 1 730 (mkdate 2025 3 31) "ANNUAL" 95 80 true in
  DecimalViews.compute_forecast_value (Sample.db_of []) t (500 # 1)
    Sample.fy_2024_25 (mkdate 2024 3 1) = Dec.Ok 0%Q
  /\ (exists r,
        DecimalViews.compute_forecast_value (Sample.db_of []) t (500 # 1)
          Sample.fy_2024_25 (mkdate 2025 6 1) = Dec.Ok r
        /\ (Qabs (r - 500) <= 11 # 10 ^ 25)%Q)
  /\ (exists r,
        DecimalViews.compute_forecast_value (Sample.db_of []) t (730 # 1)
          Sample.fy_2024_25 (mkdate 2025 6 1) = Dec.Ok r
        /\ (r == 730)%Q).
Proof.
  cbv zeta.
  assert (Hv : forall d, valid_dateb d = true -> valid_date d)
    by (intros d; apply valid_dateb_spec).
  pose proof (fun a d Hd =>
    compute_forecast_value_edges (Sample.db_of [])
      (mkTarget 3 1 730 (mkdate 2025 3 31) "ANNUAL" 95 80 true)
      a Sample.fy_2024_25 d
      (Hv (mkdate 2024 4 1) eq_refl) (Hv (mkdate 2025 3 31) eq_refl)
      Hd eq_refl) as H.
  cbv zeta in H.
  split; [ | split].
  - destruct (H (500 # 1) (mkdate 2024 3 1) (Hv (mkdate 2024 3 1) eq_refl))
      as (_ & Hno & _).
    apply Hno; [discriminate | reflexivity].
  - destruct (H (500 # 1) (mkdate 2025 6 1) (Hv (mkdate 2025 6 1) eq_refl))
      as (_ & Hno & _).
    destruct Hno as [_ Hend]; [discriminate | ].
    destruct Hend as (r & Er & _ & Hclose & _);
      [reflexivity | discriminate | discriminate | ].
    exists r. split; [exact Er | ].
    eapply Qle_trans; [exact Hclose | ]. vm_compute. discriminate.
  - destruct (H (730 # 1) (mkdate 2025 6 1) (Hv (mkdate 2025 6 1) eq_refl))
      as (_ & Hno & _).
    destruct Hno as [_ Hend]; [discriminate | ].
    destruct Hend as (r & Er & _ & _ & Hexact);
      [reflexivity | discriminate | discriminate | ].
    exists r. split; [exact Er | ]. apply Hexact.
    + exists 2, 0. split; [reflexivity | vm_compute; reflexivity].
    + exists 730, 0. split; [reflexivity | vm_compute; reflexivity].
Defined.

End DecimalProperties.

Module DrilldownFacts.
Import RatioFacts Views ZeroDenominators.

Lemma compute_rag_from_percent_not_grey (p : Q) (t : option Target) :
  compute_rag_from_percent p t <> GREY.
Proof.
  unfold compute_rag_from_percent.
  destruct t as [t | ];
    repeat match goal with |- context [if ?c then _ else _] => destruct c end;
    discriminate.
Qed.

(** The votes of the targets of a row, one RAG each. *)
Lemma drilldown_targets_votes (db : DB) (fy : FinancialYear) (as_of : date)
    (ts : list Target) :
  forall acc,
  exists ytd_target ytd_actual forecast rags,
    drilldown_targets db fy as_of ts acc
    = Dec.Ok (ytd_target, ytd_actual, forecast,
              fold_left count_rag rags (snd acc))
    /\ Forall2 (fun t r =>
                  exists yt p,
                    ytd_target_value t fy as_of = Dec.Ok yt
                    /\ compute_percent (sum_actuals_ytd db t fy as_of) (Some yt)
                       = Dec.Ok p
                    /\ r = compute_rag_from_percent p (Some t))
               ts rags.
Proof.
  induction ts as [ | t ts IH]; intros [[[a b] c] counts].
  - exists a, b, c, []. split; [reflexivity | constructor].
  - cbn [drilldown_targets].
    destruct (ytd_target_value_total t fy as_of) as [yt Hyt].
    destruct (compute_percent_total (sum_actuals_ytd db t fy as_of) (Some yt))
      as [p [Hp _]].
    destruct (compute_forecast_value_total db t
                (sum_actuals_ytd db t fy as_of) fy as_of) as [f Hf].
    rewrite Hyt. cbn [Dec.bind]. rewrite Hp. cbn [Dec.bind].
    rewrite Hf. cbn [Dec.bind].
    destruct (IH ((a + yt)%Q, (b + sum_actuals_ytd db t fy as_of)%Q,
                  (c + f)%Q,
                  count_rag counts (compute_rag_from_percent p (Some t))))
      as (a' & b' & c' & rags & Hrun & Hall).
    exists a', b', c', (compute_rag_from_percent p (Some t) :: rags).
    split; [exact Hrun | ].
    constructor; [ | exact Hall]. exists yt, p. auto.
Qed.

Lemma count_rag_votes (rags : list RAG) :
  forall c,
    let c' := fold_left count_rag rags c in
    0 <= n_green c -> 0 <= n_amber c -> 0 <= n_red c ->
    (n_red c' = 0 <-> n_red c = 0 /\ ~ In RED rags)
    /\ (n_amber c' = 0 <-> n_amber c = 0 /\ ~ In AMBER rags)
    /\ (n_green c' = 0 <-> n_green c = 0 /\ ~ In GREEN rags).
Proof.
  induction rags as [ | r rags IH]; intros c; cbv zeta; cbn [fold_left].
  - cbn. intuition.
  - intros Hg Ha Hr.
    specialize (IH (count_rag c r)). cbv zeta in IH.
    destruct r; cbn [count_rag n_green n_amber n_red] in IH |- *;
      cbn [In];
      destruct IH as (I1 & I2 & I3); try lia;
      rewrite I1, I2, I3;
      repeat split; intros; intuition (try discriminate; try lia).
Qed.

End DrilldownFacts.

Module DrilldownProperties.
Import RatioFacts Views ZeroDenominators DrilldownFacts.

(** X11 ([kpa_drilldown_view]): the RAG of a plan item row is the worst of
    the RAGs of its active targets.  The row is RED when one target is RED,
    AMBER when none is RED and one is AMBER, GREEN when all are GREEN, and
    GREY exactly when the plan item has no active target. *)
Theorem drilldown_row_rag_is_worst_case (db : DB) (fy : FinancialYear)
    (as_of : date) (item : OperationalPlanItem) :
  exists row rags,
    drilldown_row db fy as_of item = Dec.Ok row
    /\ Forall2 (fun t r =>
                  exists yt p,
                    ytd_target_value t fy as_of = Dec.Ok yt
                    /\ compute_percent (sum_actuals_ytd db t fy as_of) (Some yt)
                       = Dec.Ok p
                    /\ r = compute_rag_from_percent p (Some t))
               (active_targets_of db item) rags
    /\ (row_rag row = RED <-> In RED rags)
    /\ (row_rag row = AMBER <-> ~ In RED rags /\ In AMBER rags)
    /\ (row_rag row = GREEN
        <-> ~ In RED rags /\ ~ In AMBER rags /\ In GREEN rags)
    /\ (row_rag row = GREY <-> active_targets_of db item = []).
Proof.
  unfold drilldown_row.
  destruct (drilldown_targets_votes db fy as_of (active_targets_of db item)
              (Dec.D0, Dec.D0, Dec.D0, mkCounts 0 0 0))
    as (a & b & c & rags & Hrun & Hall).
  rewrite Hrun. cbn [Dec.bind snd].
  destruct (compute_item_spend_total db item fy as_of)
    as (planned & actual & spend_pct & Hsp & _).
  rewrite Hsp. cbn [Dec.bind].
  destruct (compute_percent_total b (Some a)) as [pp [Hpp _]].
  rewrite Hpp. cbn [Dec.bind].
  eexists. exists rags. split; [reflexivity | ]. split; [exact Hall | ].
  cbn [row_rag].
  destruct (count_rag_votes rags (mkCounts 0 0 0)) as (Hr & Ha & Hg);
    cbn [n_green n_amber n_red]; try lia.
  cbn [n_green n_amber n_red] in Hr, Ha, Hg.
  assert (Hnogrey : ~ In GREY rags).
  { clear - Hall. induction Hall as [ | t r ts rs (yt & p & _ & _ & ->) _ IH];
      [intros [] | ].
    intros [H | H]; [ | now apply IH].
    now apply (compute_rag_from_percent_not_grey p (Some t)). }
  assert (Hempty : active_targets_of db item = [] <-> rags = []).
  { split; intros E; rewrite E in Hall; inversion Hall; reflexivity. }
  assert (Hsome : rags = []
                  <-> ~ In RED rags /\ ~ In AMBER rags /\ ~ In GREEN rags).
  { split; [intros ->; cbn; tauto | ].
    intros (H1 & H2 & H3). destruct rags as [ | r rs]; [reflexivity | ].
    exfalso. destruct r; cbn in *; tauto. }
  assert (Hdec : forall r, In r rags \/ ~ In r rags).
  { intros r. destruct (in_dec (fun x y : RAG =>
                                  ltac:(decide equality) : {x = y} + {x <> y})
                               r rags); [now left | now right]. }
  assert (HR : In RED rags
               <-> n_red (fold_left count_rag rags (mkCounts 0 0 0)) <> 0)
    by (destruct (Hdec RED); tauto).
  assert (HA : In AMBER rags
               <-> n_amber (fold_left count_rag rags (mkCounts 0 0 0)) <> 0)
    by (destruct (Hdec AMBER); tauto).
  assert (HG : In GREEN rags
               <-> n_green (fold_left count_rag rags (mkCounts 0 0 0)) <> 0)
    by (destruct (Hdec GREEN); tauto).
  clear Hr Ha Hg.
  rewrite Hempty, Hsome, HR, HA, HG.
  destruct (Z.eqb_spec (n_red (fold_left count_rag rags (mkCounts 0 0 0))) 0)
    as [Er | Er];
    destruct (Z.eqb_spec
                (n_amber (fold_left count_rag rags (mkCounts 0 0 0))) 0)
      as [Ea | Ea];
    destruct (Z.eqb_spec
                (n_green (fold_left count_rag rags (mkCounts 0 0 0))) 0)
      as [Eg | Eg];
    cbn [negb]; repeat split; intros; try discriminate; try tauto.
Qed.

End DrilldownProperties.

Module ModelFacts.
Import CalendarFacts RelativeDeltaFacts CalendarEngine RatioFacts UtilsTime
       QuarterFacts YtdFacts.

(** The April to March year that holds [today]. *)
Lemma april_year_holds_today (today : date) (id : Z) :
  valid_date today ->
  let y := if 4 <=? month today then year today else year today - 1 in
  let fy := mkFY id (mkdate y 4 1) (mkdate (y + 1) 3 31) in
  valid_date (start_date fy) /\ valid_date (end_date fy)
  /\ date_leb (start_date fy) (end_date fy) = true
  /\ date_ltb today (start_date fy) = false
  /\ date_ltb (end_date fy) today = false.
Proof.
  intros [Hm Hd] y fy. subst fy. cbn [start_date end_date].
  pose proof (days_in_month_pos (year today) (month today) Hm) as Hdim.
  repeat split; cbn; try lia.
  - unfold date_leb, date_ltb. cbn.
    apply negb_true_iff.
    destruct (Z.ltb_spec (y + 1) y); [lia | ].
    destruct (Z.eqb_spec (y + 1) y); [lia | reflexivity].
  - unfold date_ltb. cbn. subst y.
    destruct (Z.leb_spec 4 (month today)).
    + rewrite Z.ltb_irrefl, Z.eqb_refl. cbn.
      destruct (Z.ltb_spec (month today) 4); [lia | ].
      destruct (Z.ltb_spec (day today) 1); [lia | ].
      now rewrite andb_false_r.
    + destruct (Z.ltb_spec (year today) (year today - 1)); [lia | ].
      destruct (Z.eqb_spec (year today) (year today - 1)); [lia | reflexivity].
  - unfold date_ltb. cbn. subst y.
    destruct (Z.leb_spec 4 (month today)).
    + destruct (Z.ltb_spec (year today + 1) (year today)); [lia | ].
      destruct (Z.eqb_spec (year today + 1) (year today)); [lia | reflexivity].
    + replace (year today - 1 + 1) with (year today) by lia.
      rewrite Z.ltb_irrefl, Z.eqb_refl. cbn.
      destruct (Z.ltb_spec 3 (month today)); [lia | ].
      destruct (Z.ltb_spec 31 (day today)); [lia | ].
      now rewrite andb_false_r.
Qed.

(** The month count of [Target.ytd_target] is the month count of the
    dashboard in the April to March year that holds [today]. *)
Lemma months_elapsed_in_april_year (today : date) (id : Z) :
  valid_date today ->
  let y := if 4 <=? month today then year today else year today - 1 in
  let fy := mkFY id (mkdate y 4 1) (mkdate (y + 1) 3 31) in
  Views.months_elapsed fy today
  = if 4 <=? month today then month today - 3 else month today + 9.
Proof.
  intros Ht y fy.
  destruct (april_year_holds_today today id Ht) as (Hs & He & Hse & Hlo & Hhi).
  fold y in Hs, He, Hse, Hlo, Hhi. fold fy in Hs, He, Hse, Hlo, Hhi.
  rewrite months_elapsed_same.
  destruct (months_elapsed_in_fy_ordinal _ _ _ Hs He Ht Hse Hlo) as [_ Hin].
  assert (Ec : Spec.clamped (end_date fy) today = today).
  { unfold Spec.clamped, date_gtb. rewrite Hhi. reflexivity. }
  rewrite Ec in Hin.
  apply (in_fy_month_unique (start_date fy) today _ _ Hs Hin).
  set (k := if 4 <=? month today then month today - 3 else month today + 9).
  destruct Ht as [Hm Hd].
  assert (Hidx : month_index today = month_index (start_date fy) + k - 1).
  { unfold month_index. subst fy k y. cbn [start_date year month].
    destruct (Z.leb_spec 4 (month today)); lia. }
  destruct (add_months_spec (start_date fy) (k - 1) Hs) as [[Hm1 _] [Hi1 Hd1]].
  destruct (add_months_spec (start_date fy) k Hs) as [[Hm2 _] [Hi2 Hd2]].
  pose proof (days_in_month_pos
                (year (add_months (start_date fy) (k - 1))) _ Hm1).
  pose proof (days_in_month_pos
                (year (add_months (start_date fy) k)) _ Hm2).
  assert (Hday : day (start_date fy) = 1) by reflexivity.
  split.
  - unfold date_leb. apply negb_true_iff.
    destruct (date_ltb today (add_months (start_date fy) (k - 1))) eqn:E;
      [ | reflexivity].
    apply date_ltb_month_index in E; try assumption. lia.
  - apply date_ltb_month_index; try assumption. lia.
Qed.


(** A percentage against a positive base, without the division. *)
Lemma percent_ge (a b k : Q) :
  (0 < b)%Q -> (k <= a / b * 100 <-> k * b <= 100 * a)%Q.
Proof.
  intros Hb.
  assert (Hnz : ~ (b == 0)%Q)
    by (intros H0; rewrite H0 in Hb; discriminate).
  rewrite <- (Qmult_le_r k (a / b * 100) b Hb).
  assert (E : (a / b * 100 * b == 100 * a)%Q) by (field; exact Hnz).
  rewrite E. reflexivity.
Qed.

Lemma gtb_iff (x y : Q) : Dec.gtb x y = true <-> (y < x)%Q.
Proof.
  unfold Dec.gtb. rewrite negb_true_iff, <- not_true_iff_false, Qle_bool_iff.
  split; [apply Qnot_le_lt | apply Qlt_not_le].
Qed.

Lemma gtb_false_iff (x y : Q) : Dec.gtb x y = false <-> (x <= y)%Q.
Proof.
  unfold Dec.gtb. rewrite negb_false_iff. apply Qle_bool_iff.
Qed.

Lemma positive_not_zero (b : Q) : (0 < b)%Q -> Dec.is_zero b = false.
Proof.
  intros Hb. apply not_true_iff_false. intros H0.
  apply is_zero_iff in H0. rewrite H0 in Hb. discriminate.
Qed.


(** The counter of the evidence rule grows by at most one per update. *)
Lemma count_consecutive_bound (today : date) (float_ratio : Z -> Z -> Q)
    (db : DB) (l : list ProgressUpdate) :
  forall c n,
    Models.count_consecutive today float_ratio db c l = Dec.Ok n ->
    0 <= c -> 0 <= n <= c + Z.of_nat (List.length l).
Proof.
  induction l as [ | w l IH]; intros c n H Hc.
  - cbn in H. injection H as <-. cbn. lia.
  - cbn [Models.count_consecutive] in H.
    destruct (Models.rag_status today float_ratio db w) as [r | e];
      [ | discriminate].
    cbn [Dec.bind] in H. apply IH in H.
    + cbn [List.length]. destruct (Models.red_or_amber r); lia.
    + destruct (Models.red_or_amber r); lia.
Qed.

(** A ratio to a positive base, as a percentage, against its numerator. *)
Lemma percent_sign (x y : Q) :
  (0 < y)%Q ->
  ((0 <= x / y * 100 <-> 0 <= x) /\ (x / y * 100 <= 0 <-> x <= 0))%Q.
Proof.
  intros Hy.
  assert (Hk : (0 < / y * 100)%Q).
  { apply Qmult_lt_0_compat; [apply Qinv_lt_0_compat; exact Hy | reflexivity]. }
  assert (E : (x / y * 100 == x * (/ y * 100))%Q)
    by (unfold Qdiv; ring).
  rewrite E. set (k := (/ y * 100)%Q) in *.
  split; split; intros H.
  - destruct (Qlt_le_dec x 0) as [Hx | Hx]; [exfalso | exact Hx].
    assert (x * k < 0 * k)%Q by (apply Qmult_lt_compat_r; assumption). lra.
  - apply Qmult_le_0_compat; [exact H | apply Qlt_le_weak; exact Hk].
  - destruct (Qlt_le_dec 0 x) as [Hx | Hx]; [exfalso | exact Hx].
    assert (0 * k < x * k)%Q by (apply Qmult_lt_compat_r; assumption). lra.
  - assert (x * k <= 0 * k)%Q
      by (apply Qmult_le_compat_r; [exact H | apply Qlt_le_weak; exact Hk]).
    lra.
Qed.

Lemma percent_side (x y : Q) :
  (0 < y)%Q ->
  ((y <= x -> 100 <= x / y * 100) /\ (x <= y -> x / y * 100 <= 100))%Q.
Proof.
  intros Hy.
  assert (Hnz : ~ (y == 0)%Q) by (intros H; rewrite H in Hy; discriminate).
  assert (E : (x / y * 100 - 100 == (x - y) / y * 100)%Q) by (field; exact Hnz).
  destruct (percent_sign (x - y) y Hy) as [[_ H1] [_ H2]].
  split; intros H.
  - assert (0 <= (x - y) / y * 100)%Q by (apply H1; lra). lra.
  - assert ((x - y) / y * 100 <= 0)%Q by (apply H2; lra). lra.
Qed.

End ModelFacts.

Module ModelProperties.
Import CalendarFacts RelativeDeltaFacts CalendarEngine RatioFacts UtilsTime
       QuarterFacts YtdFacts ModelFacts Models.

(** X12 ([Target.ytd_target], [ytd_target_value]): for a MONTHLY or
    QUARTERLY target that is not past its due date, the year-to-date target
    of the model is the year-to-date target the dashboard computes for the
    April to March financial year that holds today. *)
Theorem model_ytd_target_matches_dashboard (today : date)
    (float_ratio : Z -> Z -> Q) (t : Target) (id : Z) :
  valid_date today ->
  date_gtb today (due_date t) = false ->
  periodicity t = "MONTHLY"%string \/ periodicity t = "QUARTERLY"%string ->
  let y := if 4 <=? month today then year today else year today - 1 in
  let fy := mkFY id (mkdate y 4 1) (mkdate (y + 1) 3 31) in
  ytd_target today float_ratio t = Views.ytd_target_value t fy today.
Proof.
  intros Ht Hdue Hper y fy.
  pose proof (months_elapsed_in_april_year today id Ht) as Hm.
  cbv zeta in Hm. subst fy y.
  destruct Ht as [Hmonth _].
  unfold ytd_target. rewrite Hdue.
  destruct Hper as [E | E].
  - rewrite (ytd_target_value_monthly t _ today E), Hm. rewrite E.
    cbn [String.eqb Ascii.eqb Bool.eqb]. rewrite (div_const _ 12).
    cbn [Dec.bind]. do 3 f_equal.
    destruct (Z.leb_spec 4 (month today)); lia.
  - rewrite (ytd_target_value_quarterly t _ today E).
    unfold Views.quarters_elapsed. rewrite Hm. rewrite E.
    cbn [String.eqb Ascii.eqb Bool.eqb]. rewrite (div_const _ 4).
    cbn [Dec.bind]. do 3 f_equal.
    destruct (Z.leb_spec 4 (month today)).
    + replace ((month today - 3 + 2) / 3) with ((month today - 4) / 3 + 1)
        by divmod. lia.
    + replace ((month today + 9 + 2) / 3) with ((month today + 8) / 3 + 1)
        by divmod. lia.
Qed.

Lemma model_ytd_target_matches_dashboard_witness :
  ytd_target (mkdate 2024 11 20) (fun _ _ => 0%Q) Sample.monthly_target
  = Views.ytd_target_value Sample.monthly_target Sample.fy_2024_25
      (mkdate 2024 11 20).
Proof.
  apply (model_ytd_target_matches_dashboard (mkdate 2024 11 20)
           (fun _ _ => 0%Q) Sample.monthly_target 1);
    try reflexivity; [cbv; intuition congruence | now left].
Defined.


(** X13 ([Target.ytd_target], [calculate_rag_status]): an ANNUAL target
    that is not past its due date has a year-to-date target of 0 from
    January to March, the last quarter of the April to March year.  Its RAG
    is GREY whatever the actual value, its updates are 0 percent complete
    and never ask for evidence. *)
Theorem annual_target_is_grey_from_january_to_march (today : date)
    (float_ratio : Z -> Z -> Q) (settings : option KPASettings) (db : DB)
    (t : Target) :
  periodicity t = "ANNUAL"%string -> month today < 4 ->
  date_gtb today (due_date t) = false ->
  ytd_target today float_ratio t = Dec.Ok 0%Q
  /\ (forall a, calculate_rag_status today float_ratio db t a = Dec.Ok GREY)
  /\ (forall u, target_of db u = Dec.Ok t ->
        rag_status today float_ratio db u = Dec.Ok GREY
        /\ percentage_complete today float_ratio db u = Dec.Ok 0%Q
        /\ variance_percentage today float_ratio db u = Dec.Ok 0%Q
        /\ is_evidence_required today float_ratio settings db u
           = Dec.Ok false).
Proof.
  intros E Hm Hdue.
  assert (Hyt : ytd_target today float_ratio t = Dec.Ok 0%Q).
  { unfold ytd_target. rewrite Hdue, E. cbn [String.eqb Ascii.eqb Bool.eqb].
    assert (Hlt : date_ltb today (mkdate (year today) 4 1) = true).
    { unfold date_ltb. cbn. rewrite Z.ltb_irrefl, Z.eqb_refl.
      destruct (Z.ltb_spec (month today) 4); [reflexivity | lia]. }
    rewrite Hlt. reflexivity. }
  assert (Hrag : forall a,
            calculate_rag_status today float_ratio db t a = Dec.Ok GREY).
  { intros a. unfold calculate_rag_status.
    destruct (match a with
              | Some a0 => Some a0
              | None => match get_latest_progress db t with
                        | Some p => Some (actual_value p)
                        | None => None end end); [ | reflexivity].
    rewrite Hyt. reflexivity. }
  split; [exact Hyt | ]. split; [exact Hrag | ].
  intros u Hu.
  assert (Hr : rag_status today float_ratio db u = Dec.Ok GREY).
  { unfold rag_status. rewrite Hu. cbn [Dec.bind]. apply Hrag. }
  split; [exact Hr | ].
  split; [unfold percentage_complete; rewrite Hu; cbn [Dec.bind];
          rewrite Hyt; reflexivity | ].
  split; [unfold variance_percentage; rewrite Hu; cbn [Dec.bind];
          rewrite Hyt; reflexivity | ].
  unfold is_evidence_required. rewrite Hr. reflexivity.
Qed.

Lemma annual_target_is_grey_from_january_to_march_witness :
  let t := mkTarget 1 1 730 (mkdate 2025 3 31) "ANNUAL" 95 80 true in
  calculate_rag_status (mkdate 2025 2 14) (fun _ _ => 1%Q)
    (mkDB [] [] [] [t] [] []) t (Some (700 # 1)) = Dec.Ok GREY.
Proof.
  cbv zeta.
  apply (annual_target_is_grey_from_january_to_march (mkdate 2025 2 14)
           (fun _ _ => 1%Q) None
           (mkDB [] [] []
              [mkTarget 1 1 730 (mkdate 2025 3 31) "ANNUAL" 95 80 true] [] [])
           (mkTarget 1 1 730 (mkdate 2025 3 31) "ANNUAL" 95 80 true));
    reflexivity.
Defined.

(** X14 ([get_current_period], [is_overdue_for_update]): the periodicities
    a target can hold are upper case, the two methods test lower-case
    names.  So the current period of every target is the single day today,
    a target with an active update is never overdue, and one without is
    overdue exactly after its due date. *)
Theorem stored_periodicity_matches_no_branch (today : date)
    (strftime : string -> date -> string) (str_of_int : Z -> string)
    (db : DB) (t : Target) :
  In (periodicity t)
     ["MONTHLY"; "QUARTERLY"; "ANNUAL"; "MILESTONE"]%string ->
  get_current_period today strftime str_of_int t
  = (today, today, strftime "%Y-%m-%d"%string today)
  /\ TargetStatus.is_overdue_for_update today db t
     = match get_latest_progress db t with
       | Some _ => false
       | None => date_gtb today (due_date t)
       end.
Proof.
  intros Hper. unfold get_current_period, TargetStatus.is_overdue_for_update,
    get_latest_progress.
  destruct Hper as [<- | [<- | [<- | [<- | []]]]];
    (split; [reflexivity | ]);
    destruct (latest_by period_end (active_updates_of db t)); reflexivity.
Qed.

Lemma stored_periodicity_matches_no_branch_witness :
  let today := mkdate 2025 1 15 in
  let db := Sample.db_of [Sample.april (100 # 1)] in
  get_current_period today (fun _ _ => ""%string) (fun _ => ""%string)
    Sample.monthly_target = (today, today, ""%string)
  /\ TargetStatus.is_overdue_for_update today db Sample.monthly_target = false.
Proof.
  cbv zeta.
  apply (stored_periodicity_matches_no_branch (mkdate 2025 1 15)
           (fun _ _ => ""%string) (fun _ => ""%string)
           (Sample.db_of [Sample.april (100 # 1)]) Sample.monthly_target).
  now left.
Defined.


(** X15 ([get_progress_percentage]): the progress percentage of a target is
    capped at 100.  It is 100 as soon as the latest actual value reaches a
    positive target value, and 0 without an active update. *)
Theorem progress_percentage_is_capped (db : DB) (t : Target) :
  exists r,
    get_progress_percentage db t = Dec.Ok r
    /\ (r <= 100)%Q
    /\ (get_latest_progress db t = None -> r = 0%Q)
    /\ (forall u, get_latest_progress db t = Some u ->
                  (0 < value t)%Q -> (value t <= actual_value u)%Q ->
                  (r == 100)%Q).
Proof.
  unfold get_progress_percentage, get_latest_progress.
  destruct (latest_by period_end (active_updates_of db t)) as [u | ].
  2:{ eexists. split; [reflexivity | ]. split; [discriminate | ].
      split; [reflexivity | discriminate]. }
  destruct (Dec.is_zero (value t)) eqn:Ez.
  { eexists. split; [reflexivity | ]. split; [discriminate | ].
    split; [discriminate | ].
    intros u' _ Hpos _. rewrite (positive_not_zero _ Hpos) in Ez.
    discriminate. }
  rewrite (div_nonzero _ _ Ez). cbn [Dec.bind].
  eexists. split; [reflexivity | ].
  destruct (Dec.gtb 100 (actual_value u / value t * 100)) eqn:Eg.
  - apply gtb_iff in Eg. split; [now apply Qlt_le_weak | ].
    split; [discriminate | ].
    intros u' [= <-] Hpos Hge. exfalso.
    apply (Qlt_not_le _ _ Eg). apply (percent_ge _ _ _ Hpos).
    apply Qmult_le_l; [reflexivity | exact Hge].
  - split; [apply Qle_refl | ]. split; [discriminate | ].
    intros; reflexivity.
Qed.

(** X17 ([CostLine.get_spend_status], [is_overspent]): against a positive
    budget the status is OVERSPENT exactly when the line is overspent,
    FULLY_SPENT exactly when the spend equals the budget, and otherwise
    HIGH, MODERATE or LOW by the 80 and 50 percent marks.  A line without a
    budget is LOW_SPEND even when it is overspent. *)
Theorem spend_status_against_budget (cl : CostLine) :
  let budget := budgeted_amount cl in
  let spend := actual_spend cl in
  ((budget == 0)%Q ->
   CostLines.get_spend_status cl = Dec.Ok CostLines.LOW_SPEND
   /\ ((0 < spend)%Q -> CostLines.is_overspent cl = true))
  /\ ((0 < budget)%Q ->
      exists s,
        CostLines.get_spend_status cl = Dec.Ok s
        /\ (s = CostLines.OVERSPENT <-> CostLines.is_overspent cl = true)
        /\ (s = CostLines.OVERSPENT <-> (budget < spend)%Q)
        /\ (s = CostLines.FULLY_SPENT <-> (spend == budget)%Q)
        /\ (s = CostLines.HIGH_SPEND
            <-> (80 * budget <= 100 * spend)%Q /\ (spend < budget)%Q)
        /\ (s = CostLines.MODERATE_SPEND
            <-> (50 * budget <= 100 * spend)%Q
                /\ (100 * spend < 80 * budget)%Q)
        /\ (s = CostLines.LOW_SPEND <-> (100 * spend < 50 * budget)%Q)).
Proof.
  cbv zeta. split.
  - intros Hz. split.
    + unfold CostLines.get_spend_status, cl_spend_percentage.
      apply is_zero_iff in Hz. rewrite Hz. reflexivity.
    + intros Hs. apply gtb_iff. rewrite Hz. exact Hs.
  - intros Hb.
    unfold CostLines.get_spend_status, cl_spend_percentage.
    rewrite (positive_not_zero _ Hb).
    rewrite (div_nonzero _ _ (positive_not_zero _ Hb)). cbn [Dec.bind].
    set (pct := (actual_spend cl / budgeted_amount cl * 100)%Q).
    pose proof (percent_ge (actual_spend cl) (budgeted_amount cl) 100 Hb)
      as H100.
    pose proof (percent_ge (actual_spend cl) (budgeted_amount cl) 80 Hb)
      as H80.
    pose proof (percent_ge (actual_spend cl) (budgeted_amount cl) 50 Hb)
      as H50.
    fold pct in H100, H80, H50.
    assert (G : forall k, (k <= pct <-> k * budgeted_amount cl
                                         <= 100 * actual_spend cl)%Q)
      by (intros k; apply percent_ge; exact Hb).
    assert (L : forall k, (Dec.geb pct k = false
                           <-> 100 * actual_spend cl
                               < k * budgeted_amount cl)%Q).
    { intros k. rewrite geb_false_iff. split; intros H.
      - apply Qnot_le_lt. intros H'. apply G in H'.
        apply (Qlt_not_le _ _ H H').
      - apply Qnot_le_lt. intros H'. apply G in H'.
        apply (Qlt_not_le _ _ H H'). }
    destruct (Dec.geb pct 100) eqn:E100;
      [apply geb_iff, G in E100 | apply L in E100 ];
      [destruct (CostLines.is_overspent cl) eqn:Eo;
         [apply (gtb_iff (actual_spend cl)) in Eo
         | apply (gtb_false_iff (actual_spend cl)) in Eo]
      | destruct (Dec.geb pct 80) eqn:E80;
          [apply geb_iff, G in E80
          | apply L in E80;
            destruct (Dec.geb pct 50) eqn:E50;
              [apply geb_iff, G in E50 | apply L in E50]]];
      (eexists; split; [reflexivity | ]);
      clear G L; clearbody pct;
      repeat split; intros;
        repeat match goal with
               | H : _ /\ _ |- _ => destruct H
               | H : CostLines.is_overspent cl = true |- _ =>
                   apply (gtb_iff (actual_spend cl)) in H
               end;
        try discriminate; try reflexivity; try lra; try (exfalso; lra).
Qed.

Lemma spend_status_against_budget_witness :
  let cl := mkCostLine 1 1 (1000 # 1) 0 (1200 # 1) (mkdate 2024 4 1)
                       (mkdate 2024 4 30) true in
  exists s, CostLines.get_spend_status cl = Dec.Ok s
            /\ (s = CostLines.OVERSPENT <-> CostLines.is_overspent cl = true).
Proof.
  cbv zeta.
  destruct (spend_status_against_budget
              (mkCostLine 1 1 (1000 # 1) 0 (1200 # 1) (mkdate 2024 4 1)
                          (mkdate 2024 4 30) true)) as [_ H].
  destruct (H eq_refl) as (s & Hs & Ho & _).
  exists s. split; [exact Hs | exact Ho].
Defined.


(** X18 ([is_evidence_required]): evidence is required only for an update
    that is RED or AMBER itself and only when at least as many active
    updates of its target end in the window as the rule asks consecutive
    periods.  With a rule of one period or more, some saved active update of
    the target ends on or before the update's period end. *)
Theorem evidence_needs_enough_updates (today : date)
    (float_ratio : Z -> Z -> Q) (settings : option KPASettings) (db : DB)
    (u : ProgressUpdate) :
  is_evidence_required today float_ratio settings db u = Dec.Ok true ->
  let N := evidence_months_of settings in
  let window := consecutive_updates db u
                  (rd_sub (period_end u) (rd_make N 0)) in
  (exists r, rag_status today float_ratio db u = Dec.Ok r
             /\ red_or_amber r = true)
  /\ N <= Z.of_nat (List.length window)
  /\ (1 <= N ->
      exists w, In w (progress_updates db) /\ pu_target w = pu_target u
                /\ is_active w = true
                /\ date_leb (period_end w) (period_end u) = true).
Proof.
  intros H N window. unfold is_evidence_required in H.
  destruct (rag_status today float_ratio db u) as [r | e] eqn:Er;
    [ | discriminate].
  cbn [Dec.bind] in H.
  destruct (red_or_amber r) eqn:Era; [ | discriminate].
  fold N in H. fold window in H.
  destruct (count_consecutive today float_ratio db 0 window) as [n | e] eqn:Ec;
    [ | discriminate].
  cbn [Dec.bind] in H. injection H as H. apply Z.leb_le in H.
  apply count_consecutive_bound in Ec; [ | lia].
  split; [exists r; auto | ]. split; [lia | ].
  intros HN.
  destruct window as [ | w ws] eqn:Ew; [cbn in Ec; lia | ].
  assert (Hin : In w (consecutive_updates db u
                        (rd_sub (period_end u) (rd_make N 0))))
    by (fold window; rewrite Ew; now left).
  apply (proj1 (EvidenceRule.consecutive_updates_window db u _)) in Hin.
  destruct Hin as (Hi & Ht & Ha & _ & Hle).
  exists w. auto.
Qed.

Lemma evidence_needs_enough_updates_witness :
  let db2 := Sample.db_of [Sample.april (250 # 1); Sample.may (250 # 1)] in
  2 <= Z.of_nat (List.length
                   (consecutive_updates db2 (Sample.may (250 # 1))
                      (rd_sub (period_end (Sample.may (250 # 1)))
                              (rd_make 2 0)))).
Proof.
  cbv zeta.
  apply (evidence_needs_enough_updates (mkdate 2024 6 30) (fun _ _ => 0%Q)
           None
           (Sample.db_of [Sample.april (250 # 1); Sample.may (250 # 1)])
           (Sample.may (250 # 1))).
  reflexivity.
Defined.

End ModelProperties.

Module DecimalModelFacts.
Import RatioFacts Decimal DecimalFacts DecimalViewsFacts.

Ltac all_constants :=
  let h := eval vm_compute in half_ulp in
  let t := eval vm_compute in two_roundings in
  let u := eval vm_compute in three_roundings in
  change half_ulp with h in *; change two_roundings with t in *;
  change three_roundings with u in *.

(** A third rounding after two. *)
Lemma round_thrice (a a' b : Q) :
  (Qabs (a' - a) <= two_roundings * Qabs a)%Q ->
  (Qabs (round (a' * b) - a * b) <= three_roundings * Qabs (a * b))%Q.
Proof.
  intros Ha. pose proof (round_error (a' * b)) as Hr.
  assert (E : (round (a' * b) - a * b
               == (round (a' * b) - a' * b) + (a' - a) * b)%Q) by ring.
  rewrite E. clear E.
  eapply Qle_trans; [apply Qabs_triangle | ].
  rewrite !Qabs_Qmult in *.
  assert (Ha' : (Qabs a' <= Qabs a + Qabs (a' - a))%Q).
  { assert (E : (a' == a + (a' - a))%Q) by ring.
    rewrite E at 1. apply Qabs_triangle. }
  pose proof (Qabs_nonneg a) as Pa. pose proof (Qabs_nonneg b) as Pb.
  pose proof (Qabs_nonneg (a' - a)) as Pd.
  set (A := Qabs a) in *. set (B := Qabs b) in *.
  set (A' := Qabs a') in *. set (D := Qabs (a' - a)) in *.
  set (R := Qabs (round (a' * b) - a' * b)) in *.
  assert (H1 : (A' * B <= (A + D) * B)%Q)
    by (apply Qmult_le_compat_r; assumption).
  assert (H2 : (D * B <= two_roundings * A * B)%Q)
    by (apply Qmult_le_compat_r; assumption).
  assert (H3 : (0 <= A * B)%Q) by (apply Qmult_le_0_compat; assumption).
  all_constants. lra.
Qed.

Lemma Qabs_minus_le (x y : Q) : (Qabs (x - y) <= Qabs x + Qabs y)%Q.
Proof.
  unfold Qminus. eapply Qle_trans; [apply Qabs_triangle | ].
  rewrite Qabs_opp. apply Qle_refl.
Qed.

(** The two percentages of a cost line against a budget that is not zero,
    operation by operation, and their distance from the exact ratios. *)
Lemma cl_percentages (cl : CostLine) :
  ~ (budgeted_amount cl == 0)%Q ->
  let s := actual_spend cl in
  let b := budgeted_amount cl in
  let v := round (round (round (s - b) / b) * 100) in
  let p := round (round (s / b) * 100) in
  DecimalModels.cl_variance_percentage cl = Dec.Ok v
  /\ DecimalModels.cl_spend_percentage cl = Dec.Ok p
  /\ (Qabs (v - (s - b) / b * 100)
      <= three_roundings * Qabs ((s - b) / b * 100))%Q
  /\ (Qabs (p - s / b * 100) <= two_roundings * Qabs (s / b * 100))%Q.
Proof.
  intros Hb s b v p.
  assert (Eb : Dec.is_zero b = false)
    by (apply not_true_iff_false; intros H; now apply is_zero_iff in H).
  unfold DecimalModels.cl_variance_percentage,
    DecimalModels.cl_spend_percentage, DecimalModels.variance_amount.
  fold s b. rewrite Eb. rewrite !(decimal_div_nonzero _ _ Eb).
  cbn [Dec.bind]. unfold Decimal.mul, Decimal.sub.
  split; [reflexivity | ]. split; [reflexivity | ].
  split.
  - subst v. unfold Qdiv. apply round_thrice.
    apply round_twice. apply round_error.
  - subst p. unfold Qdiv. apply round_twice. apply round_error.
Qed.

End DecimalModelFacts.

Module DecimalModelProperties.
Import CalendarFacts RatioFacts Views Models ModelFacts Decimal DecimalFacts
       DecimalViewsFacts DecimalModelFacts.

(** X16 ([variance_percentage], [percentage_complete], [CostLine]): the
    variance percentage is the percentage less 100, as far as the rounding
    of the context lets it.  Against a positive year-to-date target the
    variance percentage of a progress update is at least 0 exactly when the
    actual value has reached the target and at most 0 exactly when it has
    not passed it; the percentage reached is at least 100 in the first case
    and at most 100 in the second.  The same holds of a cost line against a
    positive budget, with the spend for the actual value, and its variance
    amount is the negative of its remaining budget.  In the arithmetic of
    the context the two percentages of a cost line are each rounded on
    their own, the variance three times and the spend twice, so that the
    variance is the spend percentage less 100 up to 3e-27 of the spend
    percentage plus 100, and not always to the last digit: a spend of
    41564.40 against a budget of 31525.54 gives a variance of
    31.84357825432966413898064871 and a spend percentage of
    131.8435782543296641389806487. *)
Theorem variance_follows_the_target (today : date)
    (float_ratio : Z -> Z -> Q) (db : DB) (u : ProgressUpdate) (t : Target)
    (yt : Q) (cl : CostLine) :
  target_of db u = Dec.Ok t ->
  ytd_target today float_ratio t = Dec.Ok yt ->
  (0 < yt)%Q -> (0 < budgeted_amount cl)%Q ->
  let line := mkCostLine 1 1 (3152554 # 100) 0 (4156440 # 100)
                         (mkdate 2024 4 1) (mkdate 2024 4 30) true in
  (exists v p,
     variance_percentage today float_ratio db u = Dec.Ok v
     /\ percentage_complete today float_ratio db u = Dec.Ok p
     /\ (0 <= v <-> yt <= actual_value u)%Q
     /\ (v <= 0 <-> actual_value u <= yt)%Q
     /\ (yt <= actual_value u -> 100 <= p)%Q
     /\ (actual_value u <= yt -> p <= 100)%Q)
  /\ (exists v s,
        cl_variance_percentage cl = Dec.Ok v
        /\ cl_spend_percentage cl = Dec.Ok s
        /\ (0 <= v <-> budgeted_amount cl <= actual_spend cl)%Q
        /\ (v <= 0 <-> actual_spend cl <= budgeted_amount cl)%Q
        /\ (budgeted_amount cl <= actual_spend cl -> 100 <= s)%Q
        /\ (actual_spend cl <= budgeted_amount cl -> s <= 100)%Q
        /\ (CostLines.variance_amount cl
            == - CostLines.remaining_budget cl)%Q)
  /\ (exists v s,
        DecimalModels.cl_variance_percentage cl = Dec.Ok v
        /\ DecimalModels.cl_spend_percentage cl = Dec.Ok s
        /\ v = Decimal.mul (round (Decimal.sub (actual_spend cl)
                                               (budgeted_amount cl)
                                   / budgeted_amount cl)) 100
        /\ s = Decimal.mul (round (actual_spend cl / budgeted_amount cl)) 100
        /\ (Qabs (v - (s - 100))
            <= (3 # 10 ^ 27)
               * (Qabs (actual_spend cl / budgeted_amount cl * 100) + 100))%Q)
  /\ (exists v s,
        DecimalModels.cl_variance_percentage line = Dec.Ok v
        /\ DecimalModels.cl_spend_percentage line = Dec.Ok s
        /\ (v == 3184357825432966413898064871 # 10 ^ 26)%Q
        /\ (s == 1318435782543296641389806487 # 10 ^ 25)%Q
        /\ ~ (v == s - 100)%Q).
Proof.
  intros Ht Hyt Hpos Hb line.
  assert (Ez : Dec.is_zero yt = false).
  { apply not_true_iff_false. intros H. apply is_zero_iff in H.
    rewrite H in Hpos. discriminate. }
  assert (Hbnz : ~ (budgeted_amount cl == 0)%Q).
  { intros H. rewrite H in Hb. discriminate. }
  assert (Eb : Dec.is_zero (budgeted_amount cl) = false)
    by (apply not_true_iff_false; intros H; now apply is_zero_iff in H).
  split; [ | split; [ | split]].
  - unfold variance_percentage, percentage_complete.
    rewrite Ht. cbn [Dec.bind]. rewrite Hyt. cbn [Dec.bind]. rewrite Ez.
    rewrite !(div_nonzero _ _ Ez). cbn [Dec.bind].
    do 2 eexists. split; [reflexivity | ]. split; [reflexivity | ].
    destruct (percent_sign (actual_value u - yt) yt Hpos) as [H1 H2].
    destruct (percent_side (actual_value u) yt Hpos) as [H3 H4].
    split; [rewrite H1; split; intros; lra | ].
    split; [rewrite H2; split; intros; lra | ].
    split; assumption.
  - unfold cl_variance_percentage, cl_spend_percentage. rewrite Eb.
    rewrite !(div_nonzero _ _ Eb). cbn [Dec.bind].
    do 2 eexists. split; [reflexivity | ]. split; [reflexivity | ].
    destruct (percent_sign (actual_spend cl - budgeted_amount cl)
                           (budgeted_amount cl) Hb) as [H1 H2].
    destruct (percent_side (actual_spend cl) (budgeted_amount cl) Hb)
      as [H3 H4].
    split; [rewrite H1; split; intros; lra | ].
    split; [rewrite H2; split; intros; lra | ].
    split; [assumption | ]. split; [assumption | ].
    unfold CostLines.variance_amount, CostLines.remaining_budget. ring.
  - destruct (cl_percentages cl Hbnz) as (Ev & Es & Hv & Hs).
    cbv zeta in Ev, Es, Hv, Hs.
    do 2 eexists. split; [exact Ev | ]. split; [exact Es | ].
    split; [reflexivity | ]. split; [reflexivity | ].
    set (v := round (round (round (actual_spend cl - budgeted_amount cl)
                            / budgeted_amount cl) * 100)) in *.
    set (s := round (round (actual_spend cl / budgeted_amount cl) * 100))
      in *.
    set (P := (actual_spend cl / budgeted_amount cl * 100)%Q) in *.
    set (V := ((actual_spend cl - budgeted_amount cl)
               / budgeted_amount cl * 100)%Q) in *.
    assert (EV : (V == P - 100)%Q) by (subst V P; field; exact Hbnz).
    assert (E : (v - (s - 100) == (v - V) - (s - P))%Q)
      by (rewrite EV; ring).
    rewrite E. eapply Qle_trans; [apply Qabs_minus_le | ].
    assert (HV : (Qabs V <= Qabs P + 100)%Q).
    { rewrite EV. eapply Qle_trans; [apply Qabs_minus_le | ].
      apply Qle_refl. }
    pose proof (Qabs_nonneg P) as PP. pose proof (Qabs_nonneg V) as PV.
    all_constants.
    let c := eval vm_compute in (3 # 10 ^ 27)%Q in
    change (3 # 10 ^ 27)%Q with c.
    lra.
  - do 2 eexists. split; [vm_compute; reflexivity | ].
    split; [vm_compute; reflexivity | ].
    split; [reflexivity | ]. split; [reflexivity | discriminate].
Qed.

Lemma variance_follows_the_target_witness :
  let db := Sample.db_of [Sample.april (250 # 1)] in
  let cl := mkCostLine 1 1 (1000 # 1) 0 (400 # 1) (mkdate 2024 4 1)
                       (mkdate 2024 4 30) true in
  (exists v p,
     variance_percentage (mkdate 2024 6 30) (fun _ _ => 0%Q) db
       (Sample.april (250 # 1)) = Dec.Ok v
     /\ percentage_complete (mkdate 2024 6 30) (fun _ _ => 0%Q) db
          (Sample.april (250 # 1)) = Dec.Ok p
     /\ (v <= 0)%Q /\ (p <= 100)%Q)
  /\ (exists v s,
        cl_variance_percentage cl = Dec.Ok v
        /\ cl_spend_percentage cl = Dec.Ok s
        /\ (v <= 0)%Q /\ (s <= 100)%Q)
  /\ (exists v s,
        DecimalModels.cl_variance_percentage cl = Dec.Ok v
        /\ DecimalModels.cl_spend_percentage cl = Dec.Ok s
        /\ (Qabs (v - (s - 100)) <= 1 # 10 ^ 24)%Q).
Proof.
  cbv zeta.
  destruct (ytd_target (mkdate 2024 6 30) (fun _ _ => 0%Q)
              Sample.monthly_target) as [yt | e] eqn:Eyt;
    [ | vm_compute in Eyt; discriminate Eyt].
  pose proof (variance_follows_the_target (mkdate 2024 6 30)
                (fun _ _ => 0%Q) (Sample.db_of [Sample.april (250 # 1)])
                (Sample.april (250 # 1)) Sample.monthly_target yt
                (mkCostLine 1 1 (1000 # 1) 0 (400 # 1) (mkdate 2024 4 1)
                            (mkdate 2024 4 30) true) eq_refl Eyt) as H.
  vm_compute in Eyt. injection Eyt as <-.
  destruct H as [(v & p & Ev & Ep & _ & Hv & _ & Hp)
                 [(w & s & Ew & Es & _ & Hw & _ & Hs & _)
                  [(x & y & Ex & Ey & _ & _ & Hxy) _]]];
    [reflexivity | reflexivity | ].
  split; [ | split].
  - exists v, p. split; [exact Ev | ]. split; [exact Ep | ].
    split; [apply Hv | apply Hp]; vm_compute; discriminate.
  - exists w, s. split; [exact Ew | ]. split; [exact Es | ].
    split; [apply Hw | apply Hs]; vm_compute; discriminate.
  - exists x, y. split; [exact Ex | ]. split; [exact Ey | ].
    eapply Qle_trans; [exact Hxy | ]. vm_compute. discriminate.
Defined.

End DecimalModelProperties.

Module StringFacts.
Import Ascii PyStr.

Lemma drop_spaces_split (l : list ascii) :
  exists sp, l = sp ++ drop_spaces l /\ Forall (fun c => is_space c = true) sp.
Proof.
  induction l as [ | c l IH];
    [exists []; split; [reflexivity | constructor] | ].
  cbn [drop_spaces]. destruct (is_space c) eqn:E.
  - destruct IH as (sp & Hl & Hsp). exists (c :: sp). split.
    + cbn. congruence.
    + constructor; assumption.
  - exists []. split; [reflexivity | constructor].
Qed.

Lemma drop_spaces_head (l : list ascii) :
  match drop_spaces l with
  | c :: _ => is_space c = false
  | [] => True
  end.
Proof.
  induction l as [ | c l IH]; [exact I | ].
  cbn [drop_spaces]. destruct (is_space c) eqn:E; [exact IH | exact E].
Qed.

Lemma drop_spaces_fixed (l : list ascii) :
  match l with c :: _ => is_space c = false | [] => True end ->
  drop_spaces l = l.
Proof. destruct l as [ | c l]; [reflexivity | ]. cbn. now intros ->. Qed.

(** The characters [strip] keeps: they start and end on a character that
    is not a space. *)
Lemma strip_chars_fixed (l : list ascii) :
  let b := rev (drop_spaces (rev (drop_spaces l))) in
  drop_spaces b = b /\ drop_spaces (rev b) = rev b.
Proof.
  cbv zeta. rewrite rev_involutive. split.
  2:{ apply drop_spaces_fixed, drop_spaces_head. }
  apply drop_spaces_fixed.
  pose proof (drop_spaces_head l) as Hhead.
  destruct (drop_spaces_split (rev (drop_spaces l))) as (sp & Hsplit & _).
  remember (drop_spaces l) as a eqn:Ea. clear Ea.
  remember (drop_spaces (rev a)) as t eqn:Et. clear Et.
  apply (f_equal (@rev ascii)) in Hsplit.
  rewrite rev_involutive, rev_app_distr in Hsplit. subst a.
  destruct (rev t) as [ | c r]; [exact I | exact Hhead].
Qed.

Lemma strip_idempotent (s : string) : strip (strip s) = strip s.
Proof.
  unfold strip. rewrite list_ascii_of_string_of_list_ascii.
  destruct (strip_chars_fixed (list_ascii_of_string s)) as [H1 H2].
  rewrite H1, H2, rev_involutive. reflexivity.
Qed.

(** The lines a normalisation keeps are left as they are by a second one. *)
Lemma normalized_lines_fixed (l : list string) :
  let kept := map strip (filter (fun x => truthy (strip x)) l) in
  map strip (filter (fun x => truthy (strip x)) kept) = kept
  /\ Forall (fun x => strip x = x /\ x <> EmptyString) kept.
Proof.
  induction l as [ | x l [IH1 IH2]]; [split; [reflexivity | constructor] | ].
  cbv zeta in *. cbn [filter].
  destruct (truthy (strip x)) eqn:E; [ | split; assumption].
  cbn [map filter]. rewrite strip_idempotent, E. cbn [map].
  rewrite strip_idempotent, IH1. split; [reflexivity | ].
  constructor; [ | exact IH2].
  split; [apply strip_idempotent | ].
  intros H0. rewrite H0 in E. discriminate.
Qed.


(** Text made of white space only has no line that survives [strip]. *)
Lemma drop_spaces_all (l : list ascii) :
  Forall (fun c => is_space c = true) l -> drop_spaces l = [].
Proof.
  induction 1 as [ | c l Hc _ IH]; [reflexivity | ].
  cbn. rewrite Hc. exact IH.
Qed.

Lemma strip_blank (l : list ascii) :
  Forall (fun c => is_space c = true) l ->
  strip (string_of_list_ascii l) = EmptyString.
Proof.
  intros H. unfold strip. rewrite list_ascii_of_string_of_list_ascii.
  rewrite (drop_spaces_all l H). reflexivity.
Qed.

Lemma splitlines_from_blank (l : list ascii) :
  forall cur,
    Forall (fun c => is_space c = true) cur ->
    Forall (fun c => is_space c = true) l ->
    Forall (fun x => strip x = EmptyString) (splitlines_from cur l).
Proof.
  assert (Hline : forall cur, Forall (fun c => is_space c = true) cur ->
                              strip (line_of cur) = EmptyString).
  { intros cur H. unfold line_of. apply strip_blank.
    apply Forall_rev. exact H. }
  induction l as [l IH]
    using (well_founded_induction
             (Wf_nat.well_founded_ltof _ (@List.length ascii))).
  intros cur Hcur Hl. destruct l as [ | c l]; cbn [splitlines_from].
  - destruct cur; [constructor | ].
    constructor; [now apply Hline | constructor].
  - inversion Hl as [ | ? ? Hc Hl']; subst.
    destruct (is_cr c).
    + destruct l as [ | c' l''].
      * constructor; [now apply Hline | ].
        apply IH; [unfold Wf_nat.ltof; cbn; lia | constructor | constructor].
      * inversion Hl' as [ | ? ? Hc' Hl'']; subst.
        destruct (is_lf c').
        -- constructor; [now apply Hline | ].
           apply IH; [unfold Wf_nat.ltof; cbn; lia | constructor | assumption].
        -- constructor; [now apply Hline | ].
           apply IH; [unfold Wf_nat.ltof; cbn; lia | constructor | assumption].
    + destruct (is_linebreak c).
      * constructor; [now apply Hline | ].
        apply IH; [unfold Wf_nat.ltof; cbn; lia | constructor | assumption].
      * apply IH; [unfold Wf_nat.ltof; cbn; lia | | assumption].
        constructor; assumption.
Qed.

End StringFacts.

Module EvidenceProperties.
Import PyStr WritePaths StringFacts.

(** X19 ([save_draft], lines 92-97): the evidence URLs the draft endpoint
    hands to the serializer are trimmed and not empty, normalising them a
    second time changes nothing, and an absent value stays absent. *)
Theorem normalize_evidence_is_clean (ev : EvidenceInput) :
  normalize_evidence (normalize_evidence ev) = normalize_evidence ev
  /\ (forall l, normalize_evidence ev = EvList l ->
                Forall (fun x => strip x = x /\ x <> EmptyString) l)
  /\ (normalize_evidence ev = EvAbsent <-> ev = EvAbsent).
Proof.
  destruct ev as [ | s | l]; cbn [normalize_evidence].
  - split; [reflexivity | ]. split; [discriminate | tauto].
  - destruct (normalized_lines_fixed (splitlines s)) as [H1 H2].
    cbv zeta in H1, H2. rewrite H1. split; [reflexivity | ].
    split; [intros l [= <-]; exact H2 | ].
    split; discriminate.
  - destruct (normalized_lines_fixed l) as [H1 H2].
    cbv zeta in H1, H2. rewrite H1. split; [reflexivity | ].
    split; [intros l' [= <-]; exact H2 | ].
    split; discriminate.
Qed.


(** X20 ([clean_evidence_urls], [save_draft]): the progress form and the
    draft endpoint read an evidence text alike, line by line, trimmed, blank
    lines dropped; a list the form only filters, the endpoint also trims.  A
    text of white space only is no evidence: the form cleans it to the
    empty list. *)
Theorem form_and_endpoint_read_evidence_alike (s : string)
    (l : list string) :
  EvList (Forms.clean_evidence_urls (EvText s)) = normalize_evidence (EvText s)
  /\ EvList (map strip (Forms.clean_evidence_urls (EvList l)))
     = normalize_evidence (EvList l)
  /\ Forms.clean_evidence_urls (EvList (Forms.clean_evidence_urls (EvText s)))
     = Forms.clean_evidence_urls (EvText s)
  /\ Forms.clean_evidence_urls EvAbsent = []
  /\ (Forall (fun c => is_space c = true) (list_ascii_of_string s) ->
      Forms.clean_evidence_urls (EvText s) = []).
Proof.
  split; [reflexivity | ]. split; [reflexivity | ].
  split.
  { cbn [Forms.clean_evidence_urls].
    destruct (normalized_lines_fixed (splitlines s)) as [_ H].
    cbv zeta in H. induction H as [ | x xs [Hx Hne] _ IH]; [reflexivity | ].
    cbn [filter]. rewrite Hx.
    destruct x; [now elim Hne | ]. cbn [truthy]. now rewrite IH. }
  split; [reflexivity | ].
  intros Hblank. cbn [Forms.clean_evidence_urls]. unfold splitlines.
  pose proof (splitlines_from_blank (list_ascii_of_string s) []
                (Forall_nil _) Hblank) as H.
  induction H as [ | x xs Hx _ IH]; [reflexivity | ].
  cbn [filter]. rewrite Hx. cbn [truthy]. exact IH.
Qed.

Lemma form_and_endpoint_read_evidence_alike_witness :
  Forms.clean_evidence_urls (EvText "  ") = [].
Proof.
  apply (form_and_endpoint_read_evidence_alike "  " []).
  repeat constructor.
Defined.

End EvidenceProperties.

Module WriteProperties.
Import CalendarFacts RelativeDeltaFacts CalendarEngine QuarterFacts LockOrder
       WritePaths TableFacts DraftFacts LockFacts.

(** X21 ([save_draft], [update_wizard_view],
    [manager_progress_update_view]): a user without a profile, or whose
    profile may edit no plan item, writes nothing through any of the three
    write paths: each answers that the target is missing or that the user is
    not allowed, and leaves the database as it is. *)
Theorem unauthorised_user_writes_nothing
    (settings : option KPASettings) (now : date)
    (fromisoformat : string -> option date)
    (run_validation : DB -> Payload -> option ValidatedData)
    (float_ratio : Z -> Z -> Q) (strftime : string -> date -> string)
    (str_of_int : Z -> string) (post_clean : DB -> ProgressUpdate -> bool)
    (uuid4 : Z) (db : DB) (user : User) (data : Payload) (target_pk : Z)
    (req : FormRequest) :
  (forall f item, profile user = Some f -> f item = false) ->
  (save_draft settings now fromisoformat run_validation uuid4 db user data
   = (db, TargetRequired)
   \/ save_draft settings now fromisoformat run_validation uuid4 db user data
      = (db, NotAuthorized))
  /\ (update_wizard_view settings now float_ratio post_clean uuid4 db user
        target_pk req = (db, Http404)
      \/ update_wizard_view settings now float_ratio post_clean uuid4 db user
           target_pk req = (db, PermissionDenied))
  /\ (manager_progress_update_view settings now float_ratio strftime
        str_of_int post_clean uuid4 db user target_pk req = (db, Http404)
      \/ manager_progress_update_view settings now float_ratio strftime
           str_of_int post_clean uuid4 db user target_pk req
         = (db, RedirectAway)).
Proof.
  intros Hno.
  assert (Hedit : forall t, can_edit user t = false).
  { intros t. unfold can_edit. destruct (profile user) as [f | ] eqn:E;
      [now apply (Hno f) | reflexivity]. }
  split; [ | split].
  - unfold save_draft.
    destruct (match py_or (p_target data) (p_target_id data) with
              | Some id => find (fun t => target_id t =? id) (targets db)
              | None => None end) as [t | ]; [ | now left].
    right. pose proof (Hedit t) as H. unfold can_edit in H. rewrite H.
    reflexivity.
  - unfold update_wizard_view.
    destruct (find _ (targets db)) as [t | ]; [ | now left].
    right. rewrite Hedit. reflexivity.
  - unfold manager_progress_update_view.
    destruct (find _ (targets db)) as [t | ]; [ | now left].
    right. rewrite Hedit. reflexivity.
Qed.

Lemma unauthorised_user_writes_nothing_witness :
  let db := Sample.db_of [] in
  save_draft Sample.lock_off (mkdate 2024 7 1) Sample.parse_iso
    Sample.serializer 11 db (mkUser 8 None)
    (Sample.draft_payload (250 # 1) "draft") = (db, NotAuthorized).
Proof.
  cbv zeta.
  destruct (unauthorised_user_writes_nothing Sample.lock_off (mkdate 2024 7 1)
              Sample.parse_iso Sample.serializer (fun _ _ => 0%Q)
              (fun _ _ => EmptyString) (fun _ => EmptyString)
              (fun _ _ => true) 11 (Sample.db_of []) (mkUser 8 None)
              (Sample.draft_payload (250 # 1) "draft") 1
              (Sample.may_form (250 # 1)))
    as [[H | H] _]; [discriminate | discriminate H | exact H].
Defined.

(** X22 ([update_wizard_view]): what the wizard saves.  A saved submission
    is one new row appended to the table; the row belongs to the target of
    the URL and is submitted, whatever the form said about either; no row
    that was there is changed and the constraints of the table still hold.
    Every other answer of the wizard leaves the database as it is. *)
Theorem wizard_saves_one_submitted_row
    (settings : option KPASettings) (now : date) (float_ratio : Z -> Z -> Q)
    (post_clean : DB -> ProgressUpdate -> bool) (uuid4 : Z)
    (db db' : DB) (user : User) (target_pk : Z) (req : FormRequest)
    (resp : FormResponse) :
  update_wizard_view settings now float_ratio post_clean uuid4 db user
    target_pk req = (db', resp) ->
  ((forall id, resp <> RedirectSaved id) -> db' = db)
  /\ (forall id, resp = RedirectSaved id ->
      method req = POST /\ id = uuid4
      /\ exists row,
           progress_updates db' = progress_updates db ++ [row]
           /\ pu_id row = uuid4 /\ pu_target row = target_pk
           /\ is_submitted row = true /\ is_approved row = false
           /\ is_active row = true
           /\ (forall u, In u (progress_updates db) ->
                         pu_id u <> uuid4 /\ same_key row u = false)
           /\ (unique_ids db -> unique_keys db ->
               unique_ids db' /\ unique_keys db')).
Proof.
  unfold update_wizard_view.
  destruct (find _ (targets db)) as [target | ] eqn:Ef;
    [ | intros [= <- <-]; split; [reflexivity | discriminate]].
  destruct (negb (can_edit user target));
    [intros [= <- <-]; split; [reflexivity | discriminate] | ].
  destruct (method req) eqn:Em;
    [intros [= <- <-]; split; [reflexivity | discriminate] | ].
  match goal with |- context [if ?c then _ else _] => destruct c end;
    [ | intros [= <- <-]; split; [reflexivity | discriminate]].
  match goal with |- context [if ?c then _ else _] => destruct c end;
    [intros [= <- <-]; split; [reflexivity | discriminate] | ].
  match goal with |- context [db_insert db ?r] =>
    set (row := r); destruct (db_insert db row) as [[db2 obj] | e] eqn:Ei
  end;
    [ | intros [= <- <-]; split; [reflexivity | discriminate]].
  intros [= <- <-]. split; [intros H; now elim (H (pu_id obj)) | ].
  intros id [= <-].
  pose proof (db_insert_ok _ _ _ _ Ei) as (-> & Erows & Hid & Hkey).
  split; [reflexivity | ]. split; [reflexivity | ].
  exists row. split; [exact Erows | ].
  apply find_some in Ef. destruct Ef as [_ Ef]. apply Z.eqb_eq in Ef.
  repeat split; try reflexivity; try assumption.
  - now apply Hid.
  - now apply Hkey.
  - now apply (db_insert_keeps_constraints _ _ _ _ H H0 Ei).
  - now apply (db_insert_keeps_constraints _ _ _ _ H H0 Ei).
Qed.

Lemma wizard_saves_one_submitted_row_witness :
  let db := Sample.db_of [] in
  exists db', update_wizard_view Sample.lock_off (mkdate 2024 6 3)
                (fun _ _ => 0%Q) (fun _ _ => true) 12 db
                Sample.programme_manager 1 (Sample.may_form (400 # 1))
              = (db', RedirectSaved 12)
              /\ exists row, progress_updates db' = progress_updates db ++ [row]
                             /\ is_submitted row = true.
Proof.
  cbv zeta. eexists. split; [reflexivity | ].
  destruct (wizard_saves_one_submitted_row Sample.lock_off (mkdate 2024 6 3)
              (fun _ _ => 0%Q) (fun _ _ => true) 12 (Sample.db_of []) _
              Sample.programme_manager 1 (Sample.may_form (400 # 1)) _
              eq_refl) as [_ H].
  destruct (H 12 eq_refl) as (_ & _ & row & Hrows & _ & _ & Hsub & _).
  exists row. split; [exact Hrows | exact Hsub].
Defined.


(** X23 ([manager_progress_update_view], [get_current_period]): opening
    the manager page writes.  For a target with one of the periodicities the
    model allows, a GET by a user who may edit it finds or creates the row
    of the single day today: when the target has no row for today, one draft
    row with actual value 0 is appended; a second GET, or a GET on a day that
    has its row, changes nothing. *)
Theorem manager_page_get_creates_todays_draft
    (settings : option KPASettings) (now : date) (float_ratio : Z -> Z -> Q)
    (strftime : string -> date -> string) (str_of_int : Z -> string)
    (post_clean : DB -> ProgressUpdate -> bool) (uuid4 : Z)
    (db : DB) (user : User) (target_pk : Z) (req : FormRequest)
    (target : Target) :
  find (fun t => (target_id t =? target_pk) && target_is_active t) (targets db)
  = Some target ->
  can_edit user target = true ->
  In (periodicity target)
     ["MONTHLY"; "QUARTERLY"; "ANNUAL"; "MILESTONE"]%string ->
  method req = GET ->
  (forall u, In u (progress_updates db) -> pu_id u <> uuid4) ->
  let page uuid db :=
    manager_progress_update_view settings now float_ratio strftime str_of_int
      post_clean uuid db user target_pk req in
  let row := mkPU uuid4 (target_id target) (periodicity target) now now
                  (strftime "%Y-%m-%d"%string now) 0 "" [] "LOW" "" "" None
                  "MEDIUM" false false true in
  (existsb (has_key (target_id target) now now) (progress_updates db) = true ->
   page uuid4 db = (db, Rendered false))
  /\ (existsb (has_key (target_id target) now now) (progress_updates db)
      = false ->
      let db' := set_updates db (progress_updates db ++ [row]) in
      page uuid4 db = (db', Rendered false)
      /\ forall uuid', page uuid' db' = (db', Rendered false)).
Proof.
  intros Hf Hedit Hper Hget Hfresh page row.
  assert (Hperiod : Models.get_current_period now strftime str_of_int target
                    = (now, now, strftime "%Y-%m-%d"%string now)).
  { unfold Models.get_current_period.
    destruct Hper as [<- | [<- | [<- | [<- | []]]]]; reflexivity. }
  assert (Hupper : PyStr.upper (periodicity target) = periodicity target).
  { destruct Hper as [<- | [<- | [<- | [<- | []]]]]; reflexivity. }
  assert (Hfind : forall rows,
            existsb (has_key (target_id target) now now) rows = true ->
            exists r, find (has_key (target_id target) now now) rows = Some r).
  { intros rows H. destruct (find _ rows) as [r | ] eqn:E; [now exists r | ].
    apply existsb_exists in H. destruct H as (x & Hx & Hk).
    rewrite (find_none _ _ E x Hx) in Hk. discriminate. }
  split.
  - intros Hex. subst page. cbv beta.
    unfold manager_progress_update_view. rewrite Hf, Hedit. cbn [negb].
    rewrite Hperiod. unfold get_or_create.
    destruct (Hfind _ Hex) as [r ->]. rewrite Hget. reflexivity.
  - intros Hnone db'. split.
    + subst page. cbv beta.
      unfold manager_progress_update_view. rewrite Hf, Hedit. cbn [negb].
      rewrite Hperiod. unfold get_or_create.
      destruct (find (has_key (target_id target) now now) (progress_updates db))
        as [r | ] eqn:E.
      { apply find_some in E. destruct E as [Hin Hk].
        assert (existsb (has_key (target_id target) now now)
                        (progress_updates db) = true)
          by (apply existsb_exists; eauto).
        congruence. }
      rewrite Hupper. fold row. unfold db_insert.
      assert (E1 : existsb (fun u => pu_id u =? pu_id row) (progress_updates db)
                   = false).
      { apply not_true_iff_false. intros H. apply existsb_exists in H.
        destruct H as (x & Hx & Hid). apply Z.eqb_eq in Hid.
        now apply (Hfresh x Hx). }
      assert (E2 : existsb (same_key row) (progress_updates db) = false).
      { rewrite <- Hnone. clear.
        induction (progress_updates db) as [ | x l IH]; [reflexivity | ].
        cbn [existsb]. rewrite IH. f_equal. apply same_key_has_key. }
      rewrite E1, E2. cbn [orb]. rewrite Hget. reflexivity.
    + intros uuid'. subst page. cbv beta.
      unfold manager_progress_update_view.
      assert (Ht : targets db' = targets db) by reflexivity.
      rewrite Ht, Hf, Hedit. cbn [negb].
      rewrite Hperiod. unfold get_or_create.
      assert (Hex : existsb (has_key (target_id target) now now)
                            (progress_updates db') = true).
      { subst db'. cbn [set_updates progress_updates].
        rewrite existsb_app. apply orb_true_iff. right. cbn [existsb].
        apply orb_true_iff. left. apply has_key_iff. auto. }
      destruct (Hfind _ Hex) as [r ->]. rewrite Hget. reflexivity.
Qed.

Lemma manager_page_get_creates_todays_draft_witness :
  let db := Sample.db_of [] in
  let now := mkdate 2024 8 1 in
  let req := mkFormRequest GET None (cleaned (Sample.may_form 0)) false in
  let row := mkPU 21 1 "MONTHLY" now now "2024-08-01" 0 "" [] "LOW" "" ""
                  None "MEDIUM" false false true in
  manager_progress_update_view Sample.lock_on now (fun _ _ => 0%Q)
    (fun _ _ => "2024-08-01"%string) (fun _ => EmptyString) (fun _ _ => true)
    21 db Sample.programme_manager 1 req
  = (set_updates db (progress_updates db ++ [row]), Rendered false).
Proof.
  cbv zeta.
  apply (manager_page_get_creates_todays_draft Sample.lock_on
           (mkdate 2024 8 1) (fun _ _ => 0%Q)
           (fun _ _ => "2024-08-01"%string) (fun _ => EmptyString)
           (fun _ _ => true) 21 (Sample.db_of []) Sample.programme_manager 1
           (mkFormRequest GET None (cleaned (Sample.may_form 0)) false)
           Sample.monthly_target);
    try reflexivity; [now left | intros u []].
Defined.


(** X24 ([save_draft], [update_wizard_view], [is_period_locked]): a period
    that is locked stays refused.  Once the lock holds for a period on some
    day, the draft endpoint answers 423 for it on that day and on every
    later day, and the wizard saves nothing for it; neither writes. *)
Theorem locked_period_stays_refused
    (settings : option KPASettings) (now1 now2 : date)
    (fromisoformat : string -> option date)
    (run_validation : DB -> Payload -> option ValidatedData)
    (float_ratio : Z -> Z -> Q) (post_clean : DB -> ProgressUpdate -> bool)
    (uuid4 : Z) (db : DB) (user : User) (data : Payload) (req : FormRequest)
    (target : Target) (fin_year : FinancialYear) (raw : string) (pe : date) :
  match py_or (p_target data) (p_target_id data) with
  | Some id => find (fun t => target_id t =? id) (targets db)
  | None => None
  end = Some target ->
  can_edit user target = true ->
  financial_year_of db target = Dec.Ok fin_year ->
  p_period_end data = Some raw -> fromisoformat raw = Some pe ->
  c_period_end (cleaned req) = Some pe ->
  valid_date (start_date fin_year) -> valid_date (end_date fin_year) ->
  valid_date now1 -> valid_date now2 ->
  UtilsTime.is_period_locked settings now1 fin_year pe None = true ->
  date_leb now1 now2 = true ->
  save_draft settings now2 fromisoformat run_validation uuid4 db user data
  = (db, QuarterLocked)
  /\ fst (update_wizard_view settings now2 float_ratio post_clean uuid4 db
            user (target_id target) req) = db
  /\ forall id, snd (update_wizard_view settings now2 float_ratio post_clean
                       uuid4 db user (target_id target) req)
                <> RedirectSaved id.
Proof.
  intros Ht Hedit Hfy Hraw Hiso Hpe Hs He H1 H2 Hlock Hle.
  assert (Hen : ENABLED (UtilsTime.quarter_lock_cfg settings) = Some true).
  { destruct (ENABLED (UtilsTime.quarter_lock_cfg settings)) as [[|]|] eqn:E;
      try reflexivity;
      rewrite is_period_locked_disabled in Hlock
        by (rewrite E; discriminate); discriminate. }
  assert (Hlock2 : UtilsTime.is_period_locked settings now2 fin_year pe None
                   = true).
  { apply (is_period_locked_ordinal settings now2 fin_year pe None Hs He H2
             Hen).
    apply (is_period_locked_ordinal settings now1 fin_year pe None Hs He H1 Hen)
      in Hlock.
    apply date_leb_toordinal in Hle; try assumption. lia. }
  split.
  - apply (save_draft_refuses_locked_period settings now2 fromisoformat
             run_validation uuid4 db user data target fin_year raw pe);
      assumption.
  - assert (Hfind : find (fun t => target_id t =? target_id target) (targets db)
                    = Some target).
    { destruct (py_or (p_target data) (p_target_id data)) as [id | ];
        [ | discriminate].
      pose proof (find_some _ _ Ht) as [_ Hid]. apply Z.eqb_eq in Hid.
      rewrite Hid. exact Ht. }
    apply (update_wizard_refuses_locked_period settings now2 float_ratio
             post_clean uuid4 db user (target_id target) req target fin_year
             pe); assumption.
Qed.

Lemma locked_period_stays_refused_witness :
  let db := Sample.db_of [] in
  let data :=
    mkPayload (Some 1) None (Some "MONTHLY"%string) (Some "2024-05-01"%string)
      (Some "2024-05-31"%string) (Some "May 2024"%string) (Some (400 # 1))
      (Some "progress"%string) EvAbsent None None None None None None None in
  save_draft Sample.lock_on (mkdate 2024 9 1) Sample.parse_iso
    Sample.serializer 11 db Sample.programme_manager data
  = (db, QuarterLocked).
Proof.
  cbv zeta.
  apply (locked_period_stays_refused Sample.lock_on (mkdate 2024 8 1)
           (mkdate 2024 9 1) Sample.parse_iso Sample.serializer
           (fun _ _ => 0%Q) (fun _ _ => true) 11 (Sample.db_of [])
           Sample.programme_manager _ (Sample.may_form (400 # 1))
           Sample.monthly_target Sample.fy_2024_25 "2024-05-31"
           (mkdate 2024 5 31));
    try reflexivity; cbv; intuition congruence.
Defined.

(** X25 ([save_draft], lines 76-88): the draft endpoint checks the lock
    only when [datetime.fromisoformat] reads the period end.  For a payload
    without a period end, or with one the parser refuses, it answers as it
    would with the lock switched off, whatever the settings and the day. *)
Theorem unreadable_period_end_skips_the_lock
    (settings : option KPASettings) (now : date)
    (fromisoformat : string -> option date)
    (run_validation : DB -> Payload -> option ValidatedData) (uuid4 : Z)
    (db : DB) (user : User) (data : Payload) :
  match p_period_end data with
  | Some raw => fromisoformat raw = None
  | None => True
  end ->
  save_draft settings now fromisoformat run_validation uuid4 db user data
  = save_draft None now fromisoformat run_validation uuid4 db user data.
Proof.
  intros H. unfold save_draft.
  destruct (match py_or (p_target data) (p_target_id data) with
            | Some id => find (fun t => target_id t =? id) (targets db)
            | None => None end) as [target | ]; [ | reflexivity].
  destruct (negb _); [reflexivity | ].
  destruct (financial_year_of db target) as [fin_year | e]; [ | reflexivity].
  destruct (p_period_end data) as [raw | ]; [rewrite H | ]; reflexivity.
Qed.

Lemma unreadable_period_end_skips_the_lock_witness :
  let data :=
    mkPayload (Some 1) None (Some "MONTHLY"%string) (Some "2024-05-01"%string)
      (Some "2024-5-31"%string) (Some "May 2024"%string) (Some (400 # 1))
      (Some "progress"%string) EvAbsent None None None None None None None in
  save_draft Sample.lock_on (mkdate 2024 9 1) Sample.parse_iso
    (fun _ _ => None) 11 (Sample.db_of []) Sample.programme_manager data
  = save_draft None (mkdate 2024 9 1) Sample.parse_iso
      (fun _ _ => None) 11 (Sample.db_of []) Sample.programme_manager data.
Proof.
  cbv zeta.
  apply (unreadable_period_end_skips_the_lock Sample.lock_on
           (mkdate 2024 9 1) Sample.parse_iso (fun _ _ => None) 11
           (Sample.db_of []) Sample.programme_manager).
  reflexivity.
Defined.

End WriteProperties.

Module DashboardFacts.
Import CalendarFacts RelativeDeltaFacts CalendarEngine UtilsTime QuarterFacts
       Dashboard.

(** With a day every month has, stepping to the next month never fails and
    is [+ relativedelta(months=1)]. *)
Lemma replace_month_next (d : date) :
  valid_date d -> day d <= 28 ->
  (if month d =? 12 then replace_month d (year d + 1) 1
   else replace_month d (year d) (month d + 1))
  = Some (add_months d 1).
Proof.
  intros Hd H28. pose proof Hd as [Hm Hday].
  destruct (add_months_spec d 1 Hd) as [[Hm1 _] [Hi1 _]].
  pose proof (add_months_day28 d 1 Hd H28) as Hd1.
  assert (Hgen : forall y m,
            1 <= m <= 12 -> y * 12 + m - 1 = month_index d + 1 ->
            replace_month d y m = Some (add_months d 1)).
  { intros y m Hm' Hidx. unfold replace_month.
    assert (Hv : valid_dateb (mkdate y m (day d)) = true).
    { apply valid_dateb_spec. split; cbn; [assumption | ].
      pose proof (days_in_month_pos y m Hm'). lia. }
    rewrite Hv. f_equal. apply date_eq_index; cbn; try assumption.
    - unfold month_index in *. cbn. lia.
    - lia. }
  destruct (Z.eqb_spec (month d) 12) as [E | E]; apply Hgen;
    unfold month_index; lia.
Qed.

(** The start of month [i] is on or before the end of the year exactly when
    month [i] has begun by then. *)
Lemma month_start_in_year (start end_ : date) (i : Z) :
  valid_date start -> valid_date end_ -> date_leb start end_ = true ->
  1 <= i ->
  (date_leb (add_months start (i - 1)) end_ = true
   <-> i <= months_elapsed_in_fy start end_ end_).
Proof.
  intros Hs He Hse Hi.
  assert (E : date_ltb end_ start = false)
    by (unfold date_leb in Hse; now apply negb_true_iff in Hse).
  destruct (months_elapsed_in_fy_ordinal start end_ end_ Hs He He Hse E)
    as [H1 [Hlo Hhi]].
  assert (Ec : Spec.clamped end_ end_ = end_).
  { unfold Spec.clamped, date_gtb. now rewrite date_ltb_irrefl. }
  rewrite Ec in Hlo, Hhi.
  set (m := months_elapsed_in_fy start end_ end_) in *.
  apply date_leb_toordinal in Hlo; try apply add_months_valid; try assumption.
  apply date_ltb_toordinal in Hhi; try apply add_months_valid; try assumption.
  rewrite date_leb_toordinal by (try apply add_months_valid; assumption).
  split; intros H.
  - destruct (Z_le_gt_dec i m) as [Hle | Hgt]; [assumption | exfalso].
    pose proof (add_months_le start m (i - 1) Hs ltac:(lia)). lia.
  - pose proof (add_months_le start (i - 1) (m - 1) Hs ltac:(lia)). lia.
Qed.

Lemma monthly_periods_S (fuel : nat) (end_ cur : date) (i : Z) :
  monthly_periods (S fuel) end_ cur i
  = if date_leb cur end_ then
      match (if month cur =? 12 then replace_month cur (year cur + 1) 1
             else replace_month cur (year cur) (month cur + 1)) with
      | None => None
      | Some next =>
          if 12 <? i + 1 then Some [(i, cur)]
          else match monthly_periods fuel end_ next (i + 1) with
               | Some rest => Some ((i, cur) :: rest)
               | None => None
               end
      end
    else Some [].
Proof. reflexivity. Qed.

(** Twelve rounds are enough: more fuel changes nothing. *)
Lemma monthly_periods_fuel (fuel : nat) :
  forall end_ cur i,
    i <= 12 -> 13 - i <= Z.of_nat fuel ->
    monthly_periods (S fuel) end_ cur i = monthly_periods fuel end_ cur i.
Proof.
  induction fuel as [ | fuel IH]; intros end_ cur i Hi Hf; [lia | ].
  rewrite (monthly_periods_S (S fuel)), (monthly_periods_S fuel end_ cur i).
  destruct (date_leb cur end_); [ | reflexivity].
  destruct (if month cur =? 12 then _ else _) as [next | ]; [ | reflexivity].
  destruct (Z.ltb_spec 12 (i + 1)); [reflexivity | ].
  rewrite IH by lia. reflexivity.
Qed.

Lemma monthly_periods_enough (k : nat) :
  forall end_ cur i,
    i <= 12 -> 13 - i <= 12 ->
    monthly_periods (12 + k) end_ cur i = monthly_periods 12 end_ cur i.
Proof.
  induction k as [ | k IH]; intros end_ cur i Hi Hf.
  - rewrite Nat.add_0_r. reflexivity.
  - replace (12 + S k)%nat with (S (12 + k)) by lia.
    rewrite monthly_periods_fuel by lia. now apply IH.
Qed.

(** The options from round [i] on, when every step succeeds. *)
Lemma monthly_periods_from (start end_ : date) :
  valid_date start -> valid_date end_ -> date_leb start end_ = true ->
  day start <= 28 ->
  forall fuel i,
    1 <= i <= 12 -> 13 - i <= Z.of_nat fuel ->
    monthly_periods fuel end_ (add_months start (i - 1)) i
    = Some (map (fun k => (Z.of_nat k, add_months start (Z.of_nat k - 1)))
                (seq (Z.to_nat i)
                     (Z.to_nat (Z.min 12 (months_elapsed_in_fy start end_ end_)
                                + 1 - i)))).
Proof.
  intros Hs He Hse H28.
  set (m := months_elapsed_in_fy start end_ end_).
  induction fuel as [ | fuel IH]; intros i Hi Hf; [lia | ].
  rewrite monthly_periods_S.
  pose proof (month_start_in_year start end_ i Hs He Hse ltac:(lia)) as Hin.
  fold m in Hin.
  destruct (date_leb (add_months start (i - 1)) end_) eqn:E.
  - assert (Him : i <= m) by now apply Hin.
    rewrite (replace_month_next _ (add_months_valid start (i - 1) Hs))
      by (rewrite add_months_day28; assumption).
    rewrite (add_months_add _ _ _ Hs H28).
    replace (i - 1 + 1) with (i + 1 - 1) by lia.
    assert (Hhead : (Z.of_nat (Z.to_nat i),
                     add_months start (Z.of_nat (Z.to_nat i) - 1))
                    = (i, add_months start (i - 1)))
      by (rewrite Z2Nat.id by lia; reflexivity).
    destruct (Z.ltb_spec 12 (i + 1)) as [H12 | H12].
    + assert (i = 12) by lia. subst i.
      replace (Z.min 12 m + 1 - 12) with 1 by lia.
      reflexivity.
    + rewrite IH by lia.
      replace (Z.to_nat (Z.min 12 m + 1 - i))
        with (S (Z.to_nat (Z.min 12 m + 1 - (i + 1)))) by lia.
      cbn [seq map]. rewrite Hhead.
      replace (S (Z.to_nat i)) with (Z.to_nat (i + 1)) by lia.
      reflexivity.
  - assert (Him : ~ i <= m) by (intros H; apply Hin in H; congruence).
    replace (Z.to_nat (Z.min 12 m + 1 - i)) with 0%nat by lia.
    reflexivity.
Qed.

End DashboardFacts.

Module DashboardProperties.
Import CalendarFacts RelativeDeltaFacts CalendarEngine UtilsTime QuarterFacts
       Dashboard DashboardFacts.

(** X26 ([dashboard_view], lines 155-181): for a year that starts on a day
    every month has, the dashboard offers one monthly period per month of the
    year that has begun by its end, twelve at most, numbered from 1, each
    labelled by the start of the year moved on by whole months.  The loop
    needs no more than its twelve rounds. *)
Theorem dashboard_periods_follow_months (fy : FinancialYear) (k : nat) :
  valid_date (start_date fy) -> valid_date (end_date fy) ->
  day (start_date fy) <= 28 ->
  let n := Z.to_nat (Z.min 12 (Views.months_elapsed fy (end_date fy))) in
  dashboard_periods fy
  = Some (map (fun j => (Z.of_nat j,
                         add_months (start_date fy) (Z.of_nat j - 1)))
              (seq 1 n))
  /\ monthly_periods (12 + k) (end_date fy) (start_date fy) 1
     = dashboard_periods fy.
Proof.
  intros Hs He H28 n. split.
  2:{ unfold dashboard_periods. apply monthly_periods_enough; lia. }
  subst n. rewrite months_elapsed_same. unfold dashboard_periods.
  destruct (date_leb (start_date fy) (end_date fy)) eqn:Hse.
  - pose proof (monthly_periods_from _ _ Hs He Hse H28 12 1
                  ltac:(lia) ltac:(lia)) as H.
    change (1 - 1) with 0 in H. rewrite (add_months_0 _ Hs) in H.
    unfold dashboard_periods in H |- *. rewrite H.
    replace (Z.min 12 (months_elapsed_in_fy (start_date fy) (end_date fy)
                         (end_date fy)) + 1 - 1)
      with (Z.min 12 (months_elapsed_in_fy (start_date fy) (end_date fy)
                        (end_date fy))) by lia.
    reflexivity.
  - cbn [monthly_periods]. rewrite Hse.
    unfold date_leb in Hse. apply negb_false_iff in Hse.
    rewrite (months_elapsed_before _ _ _ Hse). reflexivity.
Qed.

Lemma dashboard_periods_follow_months_witness :
  exists l, dashboard_periods Sample.fy_2024_25 = Some l
            /\ List.length l = 12%nat
            /\ nth_error l 11 = Some (12, mkdate 2025 3 1).
Proof.
  destruct (dashboard_periods_follow_months Sample.fy_2024_25 0) as [H _];
    try (cbv; intuition congruence).
  eexists. split; [exact H | ]. split; reflexivity.
Defined.

(** X27 ([dashboard_view], lines 155-181): a year that starts on a day the
    following month does not have breaks the dashboard.  The first step of
    the loop, [current_date.replace(month=...)], raises [ValueError], which
    the view does not catch. *)
Theorem dashboard_periods_fail_on_a_late_start_day (fy : FinancialYear) :
  valid_date (start_date fy) ->
  date_leb (start_date fy) (end_date fy) = true ->
  days_in_month
    (if month (start_date fy) =? 12 then year (start_date fy) + 1
     else year (start_date fy))
    (if month (start_date fy) =? 12 then 1 else month (start_date fy) + 1)
  < day (start_date fy) ->
  dashboard_periods fy = None.
Proof.
  intros Hs Hse Hshort. unfold dashboard_periods. cbn [monthly_periods].
  rewrite Hse. unfold replace_month, valid_dateb. cbn [year month day].
  destruct (month (start_date fy) =? 12).
  - destruct (Z.leb_spec (day (start_date fy))
                (days_in_month (year (start_date fy) + 1) 1)); [lia | ].
    rewrite andb_false_r. reflexivity.
  - destruct (Z.leb_spec (day (start_date fy))
                (days_in_month (year (start_date fy))
                   (month (start_date fy) + 1))); [lia | ].
    rewrite andb_false_r. reflexivity.
Qed.

Lemma dashboard_periods_fail_on_a_late_start_day_witness :
  dashboard_periods (mkFY 2 (mkdate 2024 1 31) (mkdate 2025 1 30)) = None.
Proof.
  apply (dashboard_periods_fail_on_a_late_start_day
           (mkFY 2 (mkdate 2024 1 31) (mkdate 2025 1 30)));
    try reflexivity; cbv; intuition congruence.
Defined.

End DashboardProperties.

Module AccountFacts.
Import Ascii Accounts.

Lemma prefix_app (a b : string) : String.prefix a (a ++ b) = true.
Proof.
  induction a as [ | c a IH]; cbn; [destruct b; reflexivity | ].
  destruct (ascii_dec c c) as [_ | H]; [exact IH | now elim H].
Qed.

Lemma prefix_split (a s : string) :
  String.prefix a s = true -> exists b, s = (a ++ b)%string.
Proof.
  revert s. induction a as [ | c a IH]; intros s H.
  - exists s. reflexivity.
  - destruct s as [ | d s]; cbn in H; [discriminate | ].
    destruct (ascii_dec c d) as [<- | _]; [ | discriminate].
    destruct (IH s H) as [b ->]. exists b. reflexivity.
Qed.

(** [contains] is the substring test. *)
Lemma contains_iff (needle hay : string) :
  contains needle hay = true
  <-> exists a b, hay = (a ++ needle ++ b)%string.
Proof.
  induction hay as [ | c hay IH]; cbn [contains].
  - rewrite orb_false_r. split.
    + intros H. apply prefix_split in H. destruct H as [b ->].
      exists EmptyString, b. reflexivity.
    + intros (a & b & H). destruct a as [ | ? ?]; [ | discriminate].
      cbn in H. rewrite H. apply prefix_app.
  - rewrite orb_true_iff, IH. split.
    + intros [H | (a & b & ->)].
      * apply prefix_split in H. destruct H as [b ->].
        exists EmptyString, b. reflexivity.
      * exists (String c a), b. reflexivity.
    + intros (a & b & H). destruct a as [ | d a].
      * left. cbn in H. rewrite H. apply prefix_app.
      * right. cbn in H. injection H as _ ->. exists a, b. reflexivity.
Qed.

End AccountFacts.

Module AccountProperties.
Import Ascii Accounts AccountFacts.

(** X28 ([UserProfile.can_edit_plan_item]): who may edit a plan item.  A
    system admin may edit every item, a senior manager the items of the KPAs
    the manager owns, a programme manager the items whose responsible
    officer, in lower case, contains the manager's full name in lower case,
    lower case being what [str.lower()] returns: when that is the empty
    string for the full name, as for an account without a name, the
    programme manager may edit every item.  No other role may edit. *)
Theorem can_edit_plan_item_rule (lower : string -> string)
    (p : UserProfile) (item : PlanItemAccess) :
  (primary_role p = "SYSTEM_ADMIN"%string ->
   can_edit_plan_item lower p item = true)
  /\ (primary_role p = "SENIOR_MANAGER"%string ->
      can_edit_plan_item lower p item = (kpa_owner item =? profile_user p))
  /\ (primary_role p = "PROGRAMME_MANAGER"%string ->
      (can_edit_plan_item lower p item = true
       <-> exists a b, lower (responsible_officer item)
                       = (a ++ lower (full_name p) ++ b)%string)
      /\ (lower (full_name p) = EmptyString ->
          can_edit_plan_item lower p item = true))
  /\ (primary_role p <> "SYSTEM_ADMIN"%string ->
      primary_role p <> "SENIOR_MANAGER"%string ->
      primary_role p <> "PROGRAMME_MANAGER"%string ->
      can_edit_plan_item lower p item = false).
Proof.
  unfold can_edit_plan_item. repeat split.
  - intros ->. reflexivity.
  - intros ->. cbn. destruct (kpa_owner item =? profile_user p); reflexivity.
  - rewrite H. cbn. apply contains_iff.
  - rewrite H. cbn. apply contains_iff.
  - intros E. rewrite H. cbn. apply contains_iff. rewrite E.
    exists EmptyString, (lower (responsible_officer item)). reflexivity.
  - intros H1 H2 H3. apply String.eqb_neq in H1, H2, H3.
    rewrite H1, H2, H3. reflexivity.
Qed.

Lemma can_edit_plan_item_rule_witness :
  can_edit_plan_item Sample.lower
    (mkProfile 7 "Ann Lee" "PROGRAMME_MANAGER")
    (mkAccess 3 "Director: JOANN LEESON") = true
  /\ can_edit_plan_item Sample.lower
       (mkProfile 7 "" "PROGRAMME_MANAGER")
       (mkAccess 3 "Director: JOANN LEESON") = true
  /\ can_edit_plan_item Sample.lower
       (mkProfile 7 "Ann Lee" "SENIOR_MANAGER")
       (mkAccess 3 "Director: JOANN LEESON") = false.
Proof.
  destruct (can_edit_plan_item_rule Sample.lower
              (mkProfile 7 "Ann Lee" "PROGRAMME_MANAGER")
              (mkAccess 3 "Director: JOANN LEESON")) as (_ & _ & H & _).
  destruct (can_edit_plan_item_rule Sample.lower
              (mkProfile 7 "" "PROGRAMME_MANAGER")
              (mkAccess 3 "Director: JOANN LEESON")) as (_ & _ & H0 & _).
  destruct (can_edit_plan_item_rule Sample.lower
              (mkProfile 7 "Ann Lee" "SENIOR_MANAGER")
              (mkAccess 3 "Director: JOANN LEESON")) as (_ & Hs & _).
  split; [ | split].
  - destruct (H eq_refl) as [[_ Hc] _]. apply Hc.
    exists "director: jo"%string, "son"%string. reflexivity.
  - destruct (H0 eq_refl) as [_ He]. apply He. reflexivity.
  - rewrite (Hs eq_refl). reflexivity.
Defined.

End AccountProperties.

Module ApprovalProperties.
Import WritePaths Accounts Approval TableFacts DraftFacts.

(** X29 ([manager_progress_approval_view]): what an approval can change.
    The view writes only for a POST with the action approve or reject, on an
    active update that is submitted, by a senior or programme manager who may
    edit its plan item: a system admin, or a manager known only by the staff
    records, changes nothing.  It writes one update: the reported columns of
    every row stay as they were, and so do the approval columns of every
    other update.  Approve sets the approved flag, the approver, the time of
    approval and the comments, and [save()] fills the time of submission if
    it was empty; reject clears both flags, so the update is a draft again
    even if it had been approved, stores the comments and leaves the
    approver and the two times as they were.  Both stamp [updated_at]. *)
Theorem approval_writes_one_update (lower : string -> string)
    (access : Z -> PlanItemAccess)
    (now_view now_submitted now_approved now_saved : Z)
    (db db' : DB) (columns columns' : Z -> ApprovalColumns)
    (user_profile : option UserProfile) (other_route : bool)
    (update_id : Z) (method : Method) (action post_comments : option string)
    (resp : ApprovalResponse) :
  unique_ids db ->
  manager_progress_approval_view lower access now_view now_submitted
    now_approved now_saved db columns user_profile other_route update_id
    method action post_comments = (db', columns', resp) ->
  let content u := (pu_id u, pu_target u, period_type u, period_start u,
                    period_end u, period_name u, actual_value u, narrative u,
                    evidence_urls u, risk_rating u, issues u,
                    corrective_actions u, forecast_value u,
                    forecast_confidence u, is_active u) in
  let text := match post_comments with
              | Some text => text
              | None => EmptyString
              end in
  let old := columns update_id in
  let flags s a := set_updates db
                     (map (fun u => if pu_id u =? update_id
                                    then set_approval u s a else u)
                          (progress_updates db)) in
  map content (progress_updates db') = map content (progress_updates db)
  /\ (forall id, id <> update_id -> columns' id = columns id)
  /\ ((db' = db /\ columns' = columns)
      \/ exists p row target,
           user_profile = Some p /\ approver_role p = true
           /\ In row (progress_updates db) /\ pu_id row = update_id
           /\ is_active row = true /\ is_submitted row = true
           /\ Models.target_of db row = Dec.Ok target
           /\ can_edit_plan_item lower p (access (plan_item target)) = true
           /\ method = POST /\ resp = Redirected
           /\ ((action = Some "approve"%string
                /\ db' = flags true true
                /\ columns' update_id
                   = mkApprovalColumns
                       (match submitted_at old with
                        | Some t => Some t
                        | None => Some now_submitted
                        end)
                       (Some (profile_user p)) (Some now_view) text now_saved)
               \/ (action = Some "reject"%string
                   /\ db' = flags false false
                   /\ columns' update_id
                      = mkApprovalColumns (submitted_at old) (approved_by old)
                          (approved_at old) text now_saved))).
Proof.
  intros Hids Hview content text old flags.
  match goal with
  | |- ?G => assert (Hsame : db' = db -> columns' = columns -> G)
  end.
  { intros -> ->. split; [reflexivity | ]. split; [reflexivity | ].
    left. split; reflexivity. }
  unfold manager_progress_approval_view in Hview.
  destruct (negb _); [injection Hview as <- <- _; now apply Hsame | ].
  destruct (find _ (progress_updates db)) as [row | ] eqn:Ef;
    [ | injection Hview as <- <- _; now apply Hsame].
  destruct user_profile as [p | ];
    [ | injection Hview as <- <- _; now apply Hsame].
  destruct (Models.target_of db row) as [target | e] eqn:Et;
    [ | injection Hview as <- <- _; now apply Hsame].
  destruct (can_edit_plan_item lower p (access (plan_item target))) eqn:Ec;
    cbn [negb] in Hview; [ | injection Hview as <- <- _; now apply Hsame].
  destruct (approver_role p) eqn:Er;
    cbn [negb] in Hview; [ | injection Hview as <- <- _; now apply Hsame].
  destruct (is_submitted row) eqn:Es;
    cbn [negb] in Hview; [ | injection Hview as <- <- _; now apply Hsame].
  destruct method; [injection Hview as <- <- _; now apply Hsame | ].
  apply find_some in Ef. destruct Ef as [Hin Hp].
  apply andb_true_iff in Hp. destruct Hp as [Hid Hact]. apply Z.eqb_eq in Hid.
  rewrite Hid in Hview. fold old text in Hview.
  assert (Hrows : forall s a,
            map (replace_row (set_approval row s a)) (progress_updates db)
            = map (fun u => if pu_id u =? update_id then set_approval u s a
                            else u) (progress_updates db)).
  { intros s a. apply map_ext_in. intros u Hu. unfold replace_row.
    cbn [set_approval pu_id]. rewrite Hid.
    destruct (Z.eqb_spec (pu_id u) update_id) as [E | E]; [ | reflexivity].
    assert (u = row); [ | now subst u].
    unfold unique_ids in Hids. clear - Hids Hin Hu E Hid.
    induction (progress_updates db) as [ | x l IH]; [destruct Hin | ].
    cbn in Hids. apply NoDup_cons_iff in Hids. destruct Hids as [Hn Hl].
    destruct Hu as [Hu | Hu], Hin as [Hin | Hin]; try congruence; auto.
    - exfalso. apply Hn. subst x. rewrite E, <- Hid. now apply in_map.
    - exfalso. apply Hn. subst x. rewrite Hid, <- E. now apply in_map. }
  assert (Hcontent : forall s a,
            map content
                (map (fun u => if pu_id u =? update_id then set_approval u s a
                               else u) (progress_updates db))
            = map content (progress_updates db)).
  { intros s a. rewrite map_map. apply map_ext. intros u.
    destruct (pu_id u =? update_id); reflexivity. }
  match goal with
  | |- ?G =>
      assert (Hsaved : forall s a c,
                (action = Some "approve"%string /\ s = true /\ a = true
                 /\ c = mkApprovalColumns (submitted_at old)
                          (Some (profile_user p)) (Some now_view) text
                          (updated_at old)
                 \/ action = Some "reject"%string /\ s = false /\ a = false
                    /\ c = mkApprovalColumns (submitted_at old)
                             (approved_by old) (approved_at old) text
                             (updated_at old)) ->
                match db_update db (set_approval row s a) with
                | Dec.Ok db2 =>
                    (db2,
                     fun id => if id =? update_id
                               then save_columns now_submitted now_approved
                                      now_saved (set_approval row s a) c
                               else columns id,
                     Redirected)
                | Dec.Raise e => (db, columns, Crashed e)
                end = (db', columns', resp) -> G)
  end.
  { intros s a c Hact' Hsave.
    destruct (db_update db (set_approval row s a)) as [db2 | e] eqn:Eu;
      [ | injection Hsave as <- <- _; now apply Hsame].
    injection Hsave as <- <- <-.
    assert (Edb : db2 = set_updates db
                          (map (replace_row (set_approval row s a))
                               (progress_updates db))).
    { unfold db_update in Eu. destruct (existsb _ _); [discriminate | ].
      now injection Eu as <-. }
    rewrite Hrows in Edb. subst db2. split; [ | split].
    - cbn [set_updates progress_updates]. apply Hcontent.
    - intros id Hne. apply Z.eqb_neq in Hne. rewrite Hne. reflexivity.
    - right. exists p, row, target.
      do 10 (split; [assumption || reflexivity | ]).
      rewrite Z.eqb_refl.
      destruct Hact' as [(Ea & -> & -> & ->) | (Ea & -> & -> & ->)].
      + left. split; [exact Ea | ]. split; [reflexivity | ].
        unfold save_columns. cbn.
        destruct (submitted_at old); reflexivity.
      + right. split; [exact Ea | ]. split; [reflexivity | ].
        unfold save_columns. cbn. reflexivity. }
  destruct action as [a | ]; [ | injection Hview as <- <- _; now apply Hsame].
  destruct (String.eqb_spec a "approve") as [-> | Ha].
  - apply (Hsaved true true
             (mkApprovalColumns (submitted_at old) (Some (profile_user p))
                (Some now_view) text (updated_at old)));
      [left; auto | exact Hview].
  - destruct (String.eqb_spec a "reject") as [-> | Hr].
    + apply (Hsaved false false
               (mkApprovalColumns (submitted_at old) (approved_by old)
                  (approved_at old) text (updated_at old)));
        [right; auto | exact Hview].
    + injection Hview as <- <- _; now apply Hsame.
Qed.

Lemma approval_writes_one_update_witness :
  let db := Sample.db_of [Sample.may (400 # 1)] in
  let columns := fun _ : Z => mkApprovalColumns None None None "" 5 in
  let p := mkProfile 7 "Ann Lee" "PROGRAMME_MANAGER" in
  let access := fun _ : Z => mkAccess 3 "Ann Lee, Director" in
  let view := manager_progress_approval_view Sample.lower access 10 11 12 13
                db columns (Some p) false 2 POST in
  let content u := (pu_id u, pu_target u, period_type u, period_start u,
                    period_end u, period_name u, actual_value u, narrative u,
                    evidence_urls u, risk_rating u, issues u,
                    corrective_actions u, forecast_value u,
                    forecast_confidence u, is_active u) in
  snd (view (Some "approve"%string) (Some "fine"%string)) = Redirected
  /\ progress_updates (fst (fst (view (Some "approve"%string)
                                      (Some "fine"%string))))
     = [set_approval (Sample.may (400 # 1)) true true]
  /\ snd (fst (view (Some "approve"%string) (Some "fine"%string))) 2
     = mkApprovalColumns (Some 11) (Some 7) (Some 10) "fine" 13
  /\ snd (fst (view (Some "reject"%string) None)) 2
     = mkApprovalColumns None None None "" 13
  /\ map content
         (progress_updates (fst (fst (view (Some "reject"%string) None))))
     = map content (progress_updates db)
  /\ (forall id, id <> 2 ->
        snd (fst (view (Some "reject"%string) None)) id = columns id).
Proof.
  cbv zeta.
  split; [reflexivity | ]. split; [reflexivity | ]. split; [reflexivity | ].
  split; [reflexivity | ].
  destruct (manager_progress_approval_view Sample.lower
              (fun _ : Z => mkAccess 3 "Ann Lee, Director") 10 11 12 13
              (Sample.db_of [Sample.may (400 # 1)])
              (fun _ : Z => mkApprovalColumns None None None "" 5)
              (Some (mkProfile 7 "Ann Lee" "PROGRAMME_MANAGER")) false 2
              POST (Some "reject"%string) None) as [[db' columns'] resp] eqn:E.
  cbn [fst snd].
  destruct (approval_writes_one_update Sample.lower
              (fun _ : Z => mkAccess 3 "Ann Lee, Director") 10 11 12 13
              (Sample.db_of [Sample.may (400 # 1)]) db'
              (fun _ : Z => mkApprovalColumns None None None "" 5) columns'
              (Some (mkProfile 7 "Ann Lee" "PROGRAMME_MANAGER")) false 2
              POST (Some "reject"%string) None resp) as (Hc & Hother & _).
  - repeat constructor. cbn. tauto.
  - exact E.
  - split; [exact Hc | exact Hother].
Defined.

End ApprovalProperties.

Module CardFacts.
Import RatioFacts Views ZeroDenominators DrilldownFacts Dashboard.

Section Cards.
Variable in_unit : OperationalPlanItem -> bool.
Variable db : DB.
Variable as_of : date.

(** What a round of the KPA loop puts on its card. *)
Lemma kpa_card_ok (k : KPA) (card : KpaCard) (planned spent : Q) :
  kpa_card in_unit db as_of k = Dec.Ok (card, planned, spent) ->
  card_id card = kpa_id k /\ card_rag card <> GREY
  /\ (items_of in_unit db k = [] ->
      card = mkCard (kpa_id k) RED 0 0 0 0).
Proof.
  unfold kpa_card. intros H.
  destruct (card_items db k as_of (items_of in_unit db k)
              (Dec.D0, Dec.D0, Dec.D0, Dec.D0))
    as [[[[agg_t agg_a] pl] sp] | e] eqn:Ei; [ | discriminate].
  cbn [Dec.bind] in H.
  destruct (compute_percent agg_a (Some agg_t)) as [pct | e] eqn:Ep;
    [ | discriminate].
  cbn [Dec.bind] in H.
  destruct (if Dec.is_zero pl then Dec.Ok Dec.D0
            else x <- Dec.div sp pl ;; Dec.Ok (x * Dec.D100)%Q)
    as [burn | e] eqn:Eb; [ | discriminate].
  cbn [Dec.bind] in H. injection H as <- <- <-.
  cbn [card_id card_rag]. split; [reflexivity | ].
  split; [apply compute_rag_from_percent_not_grey | ].
  intros Hnone. rewrite Hnone in Ei. cbn in Ei.
  injection Ei as <- <- <- <-. cbn in Ep. injection Ep as <-.
  cbn in Eb. injection Eb as <-. reflexivity.
Qed.

(** The loop over the KPAs: one card each, in order, and one count each. *)
Lemma kpa_cards_ok (ks : list KPA) :
  forall cards0 s cards s',
    kpa_cards in_unit db as_of ks cards0 s = Dec.Ok (cards, s') ->
    exists news,
      cards = cards0 ++ news
      /\ Forall2 (fun k c => exists planned spent,
                    kpa_card in_unit db as_of k = Dec.Ok (c, planned, spent))
                 ks news
      /\ on_track s' + at_risk s' + off_track s'
         = on_track s + at_risk s + off_track s + Z.of_nat (List.length ks).
Proof.
  induction ks as [ | k ks IH]; intros cards0 s cards s' H.
  - cbn in H. injection H as <- <-. exists []. rewrite app_nil_r.
    split; [reflexivity | ]. split; [constructor | cbn; lia].
  - cbn [kpa_cards] in H.
    destruct (kpa_card in_unit db as_of k) as [[[card pl] sp] | e] eqn:Ec;
      [ | discriminate].
    cbn [Dec.bind] in H. apply IH in H.
    destruct H as (news & -> & Hall & Hsum).
    exists (card :: news). rewrite <- app_assoc. split; [reflexivity | ].
    split; [constructor; [exists pl, sp; exact Ec | exact Hall] | ].
    rewrite Hsum. cbn [on_track at_risk off_track List.length].
    destruct (kpa_card_ok k card pl sp Ec) as (_ & Hng & _).
    destruct (card_rag card); try lia. now elim Hng.
Qed.

End Cards.

End CardFacts.

Module CardProperties.
Import RatioFacts Views Dashboard CardFacts.

(** X30 ([dashboard_view], lines 183-253): the summary counts every KPA of
    the selected year once.  There is one card per KPA, active or not; no
    card is GREY, so on track, at risk and off track add up to the number of
    KPAs; and a KPA without an active plan item in the selected unit gets a
    RED card of 0 percent and is counted off track. *)
Theorem dashboard_counts_every_kpa (in_unit : OperationalPlanItem -> bool)
    (db : DB) (as_of : date) (year : Z) (cards : list KpaCard) (s : Summary) :
  dashboard_cards in_unit db as_of (Some year) = Dec.Ok (cards, s) ->
  Forall2 (fun k c =>
             card_id c = kpa_id k /\ card_rag c <> GREY
             /\ (items_of in_unit db k = [] ->
                 c = mkCard (kpa_id k) RED 0 0 0 0))
          (filter (fun k => kpa_financial_year k =? year) (kpas db)) cards
  /\ total_kpas s = Z.of_nat (List.length cards)
  /\ on_track s + at_risk s + off_track s = total_kpas s.
Proof.
  unfold dashboard_cards. intros H.
  destruct (kpa_cards in_unit db as_of _ [] _) as [[cards' s'] | e] eqn:Ek;
    [ | discriminate].
  cbn [Dec.bind] in H. injection H as <- <-.
  apply kpa_cards_ok in Ek. destruct Ek as (news & -> & Hall & Hsum).
  cbn [app total_kpas on_track at_risk off_track] in *.
  split.
  - clear Hsum. induction Hall as [ | k c ks cs (pl & sp & Hc) _ IH];
      constructor; [ | exact IH].
    now apply (kpa_card_ok in_unit db as_of k c pl sp).
  - split; [reflexivity | ].
    rewrite Hsum. rewrite (Forall2_length Hall). lia.
Qed.

Lemma dashboard_counts_every_kpa_witness :
  let db := mkDB [Sample.fy_2024_25] [mkKPA 1 1 true; mkKPA 2 1 false]
                 [mkItem 1 1 0 0 true] [Sample.monthly_target]
                 [Sample.april (100 # 1)] [] in
  exists cards s,
    dashboard_cards (fun _ => true) db (mkdate 2024 6 30) (Some 1)
    = Dec.Ok (cards, s)
    /\ total_kpas s = 2
    /\ on_track s + at_risk s + off_track s = total_kpas s.
Proof.
  cbv zeta.
  destruct (dashboard_cards (fun _ => true)
              (mkDB [Sample.fy_2024_25] [mkKPA 1 1 true; mkKPA 2 1 false]
                    [mkItem 1 1 0 0 true] [Sample.monthly_target]
                    [Sample.april (100 # 1)] [])
              (mkdate 2024 6 30) (Some 1)) as [[cards s] | e] eqn:E;
    [ | vm_compute in E; discriminate E].
  pose proof (dashboard_counts_every_kpa _ _ _ _ _ _ E) as (_ & _ & Hsum).
  exists cards, s. split; [reflexivity | ]. split; [ | exact Hsum].
  vm_compute in E. injection E as <- <-. reflexivity.
Defined.

End CardProperties.
